(** * Subscriptions of one published media track: quality aggregation,
      subscriber registry and binding reports.

    Shallow embedding of [pkg/rtc/mediatracksubscriptions.go].

    Conventions of the embedding.
    - The methods of [MediaTrackSubscriptions] are functions in a small
      monad [Go] that threads the receiver [t], collects the calls made to
      external collaborators (upcall, telemetry, peer connection, logger,
      spawned goroutines) as a log of [Event]s, and can panic.
    - The code is read sequentially: one method runs at a time, so
      [maxQualityLock] has no counterpart here.
    - A Go [map] is either [nil] or allocated; reading, deleting from and
      ranging over a nil map behave as on an empty one, assigning into a nil
      map panics.
    - [livekit.VideoQuality] is a 32-bit protobuf enum; its declaration
      lives in the protocol module, outside this repository.  The numbers of
      its four constants are therefore a parameter, see [VideoQualityEnum]. *)

From Stdlib Require Import ZArith Lia List Permutation.
From stdpp Require Import base gmap strings list fin_maps.

Local Open Scope Z_scope.

(* ===================================================================== *)
(** ** Identifiers and enums *)
(* ===================================================================== *)

Abbreviation ParticipantID := string (only parsing).
Abbreviation NodeID := string (only parsing).
Abbreviation TrackID := string (only parsing).

(** [livekit.TrackType]; the source names these two constants. *)
Inductive TrackType := TrackType_AUDIO | TrackType_VIDEO.

#[global] Instance TrackType_eq_dec : EqDecision TrackType.
Proof. solve_decision. Defined.

(** [livekit.VideoQuality] is an [int32]. *)
Abbreviation VideoQuality := Z (only parsing).

(** The constants of [livekit.VideoQuality].  The source relies on three
    facts about them: the loop [for q := LOW; q <= HIGH; q++] visits LOW,
    MEDIUM and HIGH, and OFF is none of these.  Both the numbering
    LOW, MEDIUM, HIGH, OFF = 0, 1, 2, 3 and the numbering
    OFF, LOW, MEDIUM, HIGH = 0, 1, 2, 3 satisfy them. *)
Class VideoQualityEnum := {
  VideoQuality_LOW : VideoQuality;
  VideoQuality_MEDIUM : VideoQuality;
  VideoQuality_HIGH : VideoQuality;
  VideoQuality_OFF : VideoQuality;
  VideoQuality_MEDIUM_succ : VideoQuality_MEDIUM = VideoQuality_LOW + 1;
  VideoQuality_HIGH_succ : VideoQuality_HIGH = VideoQuality_MEDIUM + 1;
  VideoQuality_OFF_apart :
    VideoQuality_OFF < VideoQuality_LOW ∨ VideoQuality_HIGH < VideoQuality_OFF
}.

(** LOW = 0, MEDIUM = 1, HIGH = 2, OFF = 3. *)
Definition off_last : VideoQualityEnum.
Proof. refine (Build_VideoQualityEnum 0 1 2 3 _ _ _); [reflexivity|reflexivity|right; reflexivity]. Defined.

(** OFF = 0, LOW = 1, MEDIUM = 2, HIGH = 3. *)
Definition off_first : VideoQualityEnum.
Proof. refine (Build_VideoQualityEnum 1 2 3 0 _ _ _); [reflexivity|reflexivity|left; reflexivity]. Defined.

(** [livekit.SubscribedQuality] *)
Record SubscribedQuality := {
  Quality : VideoQuality;
  Enabled : bool
}.

(* ===================================================================== *)
(** ** Go maps *)
(* ===================================================================== *)

Section GoMap.
Context {K : Type} `{Countable K} {V : Type}.

Inductive GoMap := nil_map | make_map (m : gmap K V).

(** The entries, as a finite map. *)
Definition entries (m : GoMap) : gmap K V :=
  match m with nil_map => ∅ | make_map g => g end.

(** [v, ok := m[k]] *)
Definition map_index (m : GoMap) (k : K) : option V := entries m !! k.

(** [delete(m, k)] *)
Definition map_delete (m : GoMap) (k : K) : GoMap :=
  match m with nil_map => nil_map | make_map g => make_map (delete k g) end.

(** [m[k] = v]; [None] is the panic "assignment to entry in nil map". *)
Definition map_assign (m : GoMap) (k : K) (v : V) : option GoMap :=
  match m with nil_map => None | make_map g => Some (make_map (<[k:=v]> g)) end.

(** [for _, v := range m] in one of the orders Go may choose. *)
Definition range_values (m : GoMap) : list V := (map_to_list (entries m)).*2.
End GoMap.
Arguments GoMap K {_ _} V.

(* ===================================================================== *)
(** ** The engine's state *)
(* ===================================================================== *)

(** Identities of objects the engine only passes around. *)
Abbreviation DownTrack := nat (only parsing).
Abbreviation RTPSender := nat (only parsing).
Abbreviation Callback := nat (only parsing).

(** [SubscribedTrack], as far as this file reads it. *)
Record SubscribedTrack := {
  SubscriberID : ParticipantID;
  st_DownTrack : DownTrack;
  pubMuted : bool
}.

(** What the methods read of [MediaTrackSubscriptionsParams]. *)
Record MediaTrackSubscriptionsParams := {
  MediaTrack_Kind : TrackType;
  MediaTrack_ID : TrackID;
  Telemetry : bool            (* [t.params.Telemetry != nil] *)
}.

Record MediaTrackSubscriptions := {
  params : MediaTrackSubscriptionsParams;
  subscribedTracks : gmap ParticipantID SubscribedTrack;
  maxSubscriberQuality : GoMap ParticipantID VideoQuality;
  maxSubscriberNodeQuality : GoMap NodeID VideoQuality;
  maxSubscribedQuality : VideoQuality;
  onSubscribedMaxQualityChange : option Callback;
  maxQualityTimer : option Z      (* pending timer and its delay in ms *)
}.

Definition set_subscribedTracks r (t : MediaTrackSubscriptions) :=
  {| params := params t; subscribedTracks := r;
     maxSubscriberQuality := maxSubscriberQuality t;
     maxSubscriberNodeQuality := maxSubscriberNodeQuality t;
     maxSubscribedQuality := maxSubscribedQuality t;
     onSubscribedMaxQualityChange := onSubscribedMaxQualityChange t;
     maxQualityTimer := maxQualityTimer t |}.

Definition set_maxSubscriberQuality m (t : MediaTrackSubscriptions) :=
  {| params := params t; subscribedTracks := subscribedTracks t;
     maxSubscriberQuality := m;
     maxSubscriberNodeQuality := maxSubscriberNodeQuality t;
     maxSubscribedQuality := maxSubscribedQuality t;
     onSubscribedMaxQualityChange := onSubscribedMaxQualityChange t;
     maxQualityTimer := maxQualityTimer t |}.

Definition set_maxSubscriberNodeQuality m (t : MediaTrackSubscriptions) :=
  {| params := params t; subscribedTracks := subscribedTracks t;
     maxSubscriberQuality := maxSubscriberQuality t;
     maxSubscriberNodeQuality := m;
     maxSubscribedQuality := maxSubscribedQuality t;
     onSubscribedMaxQualityChange := onSubscribedMaxQualityChange t;
     maxQualityTimer := maxQualityTimer t |}.

Definition set_maxSubscribedQuality q (t : MediaTrackSubscriptions) :=
  {| params := params t; subscribedTracks := subscribedTracks t;
     maxSubscriberQuality := maxSubscriberQuality t;
     maxSubscriberNodeQuality := maxSubscriberNodeQuality t;
     maxSubscribedQuality := q;
     onSubscribedMaxQualityChange := onSubscribedMaxQualityChange t;
     maxQualityTimer := maxQualityTimer t |}.

Definition set_onSubscribedMaxQualityChange f (t : MediaTrackSubscriptions) :=
  {| params := params t; subscribedTracks := subscribedTracks t;
     maxSubscriberQuality := maxSubscriberQuality t;
     maxSubscriberNodeQuality := maxSubscriberNodeQuality t;
     maxSubscribedQuality := maxSubscribedQuality t;
     onSubscribedMaxQualityChange := f;
     maxQualityTimer := maxQualityTimer t |}.

Definition set_maxQualityTimer tm (t : MediaTrackSubscriptions) :=
  {| params := params t; subscribedTracks := subscribedTracks t;
     maxSubscriberQuality := maxSubscriberQuality t;
     maxSubscriberNodeQuality := maxSubscriberNodeQuality t;
     maxSubscribedQuality := maxSubscribedQuality t;
     onSubscribedMaxQualityChange := onSubscribedMaxQualityChange t;
     maxQualityTimer := tm |}.

(** [t.params.MediaTrack.Kind()] *)
Definition Kind (t : MediaTrackSubscriptions) : TrackType := MediaTrack_Kind (params t).

(* ===================================================================== *)
(** ** Calls that leave the engine *)
(* ===================================================================== *)

(** Errors of [RemoveTrack] that the close handler tells apart. *)
Inductive RemoveTrackError :=
| ErrConnectionClosed
| InvalidStateError
| OtherRemoveTrackError.

Inductive Event :=
| call_onSubscribedMaxQualityChange
    (f : Callback) (subscribedQualities : list SubscribedQuality)
    (maxSubscribedQuality : VideoQuality)
| Telemetry_TrackSubscribed (subscriberID : ParticipantID) (track : TrackID)
| Telemetry_TrackUnsubscribed (subscriberID : ParticipantID) (track : TrackID)
| SetPublisherMuted (subscriberID : ParticipantID) (muted : bool)
| go_DownTrack_Close (subscriberID : ParticipantID) (downTrack : DownTrack)
| go_initial_quality (subscriberID : ParticipantID)
| RegisterHooks (subscriberID : ParticipantID) (downTrack : DownTrack) (sender : RTPSender)
| RemoveTrack (subscriberID : ParticipantID) (sender : RTPSender)
| AddSubscribedTrack (subscriberID : ParticipantID)
| RemoveSubscribedTrack (subscriberID : ParticipantID)
| Negotiate (subscriberID : ParticipantID)
| Debugw (msg : string)
| Errorw (msg : string)
| WriteRTCP (subscriberID : ParticipantID) (chunks : list nat) (at_ms : Z)
| Sleep (ms : Z).

(* ===================================================================== *)
(** ** The monad of the methods *)
(* ===================================================================== *)

Inductive Outcome (A : Type) :=
| Returned (a : A) (t : MediaTrackSubscriptions) (log : list Event)
| Panicked.
Arguments Returned {A} a t log.
Arguments Panicked {A}.

Definition Go (A : Type) := MediaTrackSubscriptions → Outcome A.

Definition ret {A} (a : A) : Go A := λ t, Returned a t [].

Definition bind {A B} (c : Go A) (k : A → Go B) : Go B := λ t,
  match c t with
  | Panicked => Panicked
  | Returned a t1 log1 =>
      match k a t1 with
      | Panicked => Panicked
      | Returned b t2 log2 => Returned b t2 (log1 ++ log2)
      end
  end.

Definition receiver : Go MediaTrackSubscriptions := λ t, Returned t t [].
Definition update (f : MediaTrackSubscriptions → MediaTrackSubscriptions) : Go unit :=
  λ t, Returned tt (f t) [].
Definition emit (e : Event) : Go unit := λ t, Returned tt t [e].
Definition panic {A} : Go A := λ _, Panicked.
Definition when (b : bool) (c : Go unit) : Go unit := if b then c else ret tt.

Declare Scope go_scope.
Delimit Scope go_scope with go.
Notation "'let*' x := c 'in' k" := (bind c (λ x, k))
  (at level 10, x name, c at level 100, k at level 200) : go_scope.
Notation "c ;;; k" := (bind c (λ _, k))
  (at level 100, k at level 200, right associativity) : go_scope.
Local Open Scope go_scope.

(** The state and the log a method leaves, when it returns. *)
Definition state_after {A} (o : Outcome A) : option MediaTrackSubscriptions :=
  match o with Returned _ t _ => Some t | Panicked => None end.
Definition log_of {A} (o : Outcome A) : list Event :=
  match o with Returned _ _ log => log | Panicked => [] end.

(* ===================================================================== *)
(** ** Construction *)
(* ===================================================================== *)

(** [NewMediaTrackSubscriptions]: only [maxSubscriberQuality] is made; the
    other fields keep their zero values. *)
Definition NewMediaTrackSubscriptions (p : MediaTrackSubscriptionsParams)
  : MediaTrackSubscriptions :=
  {| params := p;
     subscribedTracks := ∅;
     maxSubscriberQuality := make_map ∅;
     maxSubscriberNodeQuality := nil_map;
     maxSubscribedQuality := 0;
     onSubscribedMaxQualityChange := None;
     maxQualityTimer := None |}.

(** [OnSubscribedMaxQualityChange] *)
Definition OnSubscribedMaxQualityChange (f : option Callback) : Go unit :=
  update (set_onSubscribedMaxQualityChange f).

(** [IsSubscriber] *)
Definition IsSubscriber (subID : ParticipantID) (t : MediaTrackSubscriptions) : bool :=
  bool_decide (is_Some (subscribedTracks t !! subID)).

(* ===================================================================== *)
(** ** Quality aggregation *)
(* ===================================================================== *)

(** [initialQualityUpdateWait], in milliseconds. *)
Definition initialQualityUpdateWait : Z := 10 * 1000.

Section Aggregator.
Context `{E : VideoQualityEnum}.

(** Body of the two scanning loops of [updateQualityChange]. *)
Definition scan_step (maxSubscribedQuality subQuality : VideoQuality) : VideoQuality :=
  if (maxSubscribedQuality =? VideoQuality_OFF) || (subQuality >? maxSubscribedQuality)
  then subQuality
  else maxSubscribedQuality.

(** One scanning loop, over the values in the order they are visited. *)
Definition scan (visited : list VideoQuality) (maxSubscribedQuality : VideoQuality)
  : VideoQuality :=
  fold_left scan_step visited maxSubscribedQuality.

(** [for q := LOW; q <= HIGH; q++ { append {q, q <= max} }]; the flag
    tells whether the loop ran to its end within [fuel] rounds. *)
Fixpoint layer_loop (fuel : nat) (q maxSubscribedQuality : VideoQuality)
  : list SubscribedQuality * bool :=
  if q <=? VideoQuality_HIGH then
    match fuel with
    | O => ([], false)
    | S fuel' =>
        let (rest, ended) := layer_loop fuel' (q + 1) maxSubscribedQuality in
        ({| Quality := q; Enabled := q <=? maxSubscribedQuality |} :: rest, ended)
    end
  else ([], true).

(** The descriptor handed to the upcall. *)
Definition build_subscribedQualities (maxSubscribedQuality : VideoQuality)
  : list SubscribedQuality :=
  if maxSubscribedQuality =? VideoQuality_OFF then
    [ {| Quality := VideoQuality_LOW; Enabled := false |};
      {| Quality := VideoQuality_MEDIUM; Enabled := false |};
      {| Quality := VideoQuality_HIGH; Enabled := false |} ]
  else
    fst (layer_loop (Z.to_nat (VideoQuality_HIGH - VideoQuality_LOW + 1))
           VideoQuality_LOW maxSubscribedQuality).

(** [updateQualityChange], with the two maps ranged over in the given
    orders. *)
Definition updateQualityChange_in_order (subs nodes : list VideoQuality) : Go unit :=
  let* t := receiver in
  if negb (bool_decide (Kind t = TrackType_VIDEO)) then ret tt else
  let maxSubscribedQuality' := scan nodes (scan subs VideoQuality_OFF) in
  if maxSubscribedQuality' =? maxSubscribedQuality t then ret tt else
  update (set_maxSubscribedQuality maxSubscribedQuality') ;;;
  let subscribedQualities := build_subscribedQualities maxSubscribedQuality' in
  match onSubscribedMaxQualityChange t with
  | Some f =>
      emit (call_onSubscribedMaxQualityChange f subscribedQualities maxSubscribedQuality')
  | None => ret tt
  end.

(** [updateQualityChange] *)
Definition updateQualityChange : Go unit :=
  let* t := receiver in
  updateQualityChange_in_order
    (range_values (maxSubscriberQuality t))
    (range_values (maxSubscriberNodeQuality t)).

(** [NotifySubscriberMaxQuality] *)
Definition NotifySubscriberMaxQuality (subscriberID : ParticipantID)
    (quality : VideoQuality) : Go unit :=
  let* t := receiver in
  if negb (bool_decide (Kind t = TrackType_VIDEO)) then ret tt else
  if quality =? VideoQuality_OFF then
    match map_index (maxSubscriberQuality t) subscriberID with
    | None => ret tt
    | Some _ =>
        update (set_maxSubscriberQuality (map_delete (maxSubscriberQuality t) subscriberID)) ;;;
        updateQualityChange
    end
  else
    let same :=
      match map_index (maxSubscriberQuality t) subscriberID with
      | Some maxQuality => maxQuality =? quality
      | None => false
      end in
    if same then ret tt else
    match map_assign (maxSubscriberQuality t) subscriberID quality with
    | None => panic
    | Some m => update (set_maxSubscriberQuality m) ;;; updateQualityChange
    end.

(** [NotifySubscriberNodeMaxQuality] *)
Definition NotifySubscriberNodeMaxQuality (nodeID : NodeID)
    (quality : VideoQuality) : Go unit :=
  let* t := receiver in
  if negb (bool_decide (Kind t = TrackType_VIDEO)) then ret tt else
  if quality =? VideoQuality_OFF then
    match map_index (maxSubscriberNodeQuality t) nodeID with
    | None => ret tt
    | Some _ =>
        update (set_maxSubscriberNodeQuality (map_delete (maxSubscriberNodeQuality t) nodeID)) ;;;
        updateQualityChange
    end
  else
    let same :=
      match map_index (maxSubscriberNodeQuality t) nodeID with
      | Some maxQuality => maxQuality =? quality
      | None => false
      end in
    if same then ret tt else
    match map_assign (maxSubscriberNodeQuality t) nodeID quality with
    | None => panic
    | Some m => update (set_maxSubscriberNodeQuality m) ;;; updateQualityChange
    end.

(** [startMaxQualityTimer]: arms the timer; [maxQualityTimer_fired] is what
    runs when it expires. *)
Definition startMaxQualityTimer : Go unit :=
  let* t := receiver in
  if negb (bool_decide (Kind t = TrackType_VIDEO)) then ret tt else
  update (set_maxQualityTimer (Some initialQualityUpdateWait)).

(** [stopMaxQualityTimer] *)
Definition stopMaxQualityTimer : Go unit :=
  let* t := receiver in
  match maxQualityTimer t with
  | Some _ => update (set_maxQualityTimer None)
  | None => ret tt
  end.

Definition maxQualityTimer_fired : Go unit :=
  stopMaxQualityTimer ;;; updateQualityChange.
End Aggregator.

(* ===================================================================== *)
(** ** The subscriber registry *)
(* ===================================================================== *)

(** Go [error] values met in this file. *)
Inductive error :=
| errors_New (msg : string)
| collaborator_error (code : nat).

(** [webrtc.RTPTransceiver]: its identity and what [Sender()] returns. *)
Record RTPTransceiver := {
  transceiver_id : nat;
  Sender : option RTPSender
}.

(** What one subscriber ([types.Participant]) and its peer connection
    answer when the engine calls them. *)
Record Participant := {
  ID : ParticipantID;
  SupportsTransceiverReuse : bool;
  AddTrack : error + option RTPSender;
  GetTransceivers : list RTPTransceiver;
  AddTransceiverFromTrack : error + RTPTransceiver;
  ConnectionState_is_closed : bool;
  RemoveTrack_result : option RemoveTrackError;
  WriteRTCP_result : nat → option error      (* result of the n-th write *)
}.

Definition set_pubMuted (muted : bool) (st : SubscribedTrack) : SubscribedTrack :=
  {| SubscriberID := SubscriberID st; st_DownTrack := st_DownTrack st; pubMuted := muted |}.

(** The search for the transceiver that carries [sender]. *)
Fixpoint find_transceiver (trs : list RTPTransceiver) (sender : option RTPSender)
  : option RTPTransceiver :=
  match trs with
  | [] => None
  | tr :: rest =>
      if bool_decide (Sender tr = sender) then Some tr else find_transceiver rest sender
  end.

(** The inner loop of [RevokeDisallowedSubscribers]. *)
Fixpoint found_in (allowedSubscriberIDs : list ParticipantID) (subID : ParticipantID) : bool :=
  match allowedSubscriberIDs with
  | [] => false
  | allowedID :: rest =>
      if bool_decide (subID = allowedID) then true else found_in rest subID
  end.

Section Registry.
Context `{E : VideoQualityEnum}.

(** The goroutine [AddSubscriber] starts once the track is stored. *)
Definition initial_quality_goroutine (subscriberID : ParticipantID) : Go unit :=
  NotifySubscriberMaxQuality subscriberID VideoQuality_HIGH ;;;
  emit (AddSubscribedTrack subscriberID) ;;;
  emit (Negotiate subscriberID).

(** The goroutine of the function given to [downTrack.OnCloseHandler]. *)
Definition OnCloseHandler (sub : Participant) (sender : option RTPSender) : Go unit :=
  let subscriberID := ID sub in
  update (λ t, set_subscribedTracks (delete subscriberID (subscribedTracks t)) t) ;;;
  let* t := receiver in
  when (Telemetry (params t))
    (emit (Telemetry_TrackUnsubscribed subscriberID (MediaTrack_ID (params t)))) ;;;
  if ConnectionState_is_closed sub then ret tt else
  match sender with
  | None => ret tt
  | Some s =>
      emit (Debugw "removing peerconnection track") ;;;
      emit (RemoveTrack subscriberID s) ;;;
      match RemoveTrack_result sub with
      | Some ErrConnectionClosed => ret tt
      | err =>
          when (match err with Some OtherRemoveTrackError => true | _ => false end)
            (emit (Debugw "could not remove remoteTrack from forwarder")) ;;;
          NotifySubscriberMaxQuality subscriberID VideoQuality_OFF ;;;
          emit (RemoveSubscribedTrack subscriberID) ;;;
          emit (Negotiate subscriberID)
      end
  end.

(** [AddSubscriber]; [NewDownTrack] is the result of [sfu.NewDownTrack] and
    [IsMuted] that of [t.params.MediaTrack.IsMuted()]. *)
Definition AddSubscriber (sub : Participant) (NewDownTrack : error + DownTrack)
    (IsMuted : bool) : Go (option DownTrack * option error) :=
  let subscriberID := ID sub in
  let* t := receiver in
  match subscribedTracks t !! subscriberID with
  | Some _ => ret (None, None)
  | None =>
  match NewDownTrack with
  | inl err => ret (None, Some err)
  | inr downTrack =>
  let subTrack :=
    {| SubscriberID := subscriberID; st_DownTrack := downTrack; pubMuted := false |} in
  let attached : (option DownTrack * option error) + option RTPSender :=
    if SupportsTransceiverReuse sub then
      match AddTrack sub with
      | inl err => inl (None, Some err)
      | inr sender =>
          match find_transceiver (GetTransceivers sub) sender with
          | None =>
              inl (None, Some (errors_New "cannot subscribe without a transceiver in place"))
          | Some _ => inr sender
          end
      end
    else
      match AddTransceiverFromTrack sub with
      | inl err => inl (None, Some err)
      | inr transceiver =>
          match Sender transceiver with
          | None =>
              inl (None, Some (errors_New "cannot subscribe without a sender in place"))
          | Some s => inr (Some s)
          end
      end in
  match attached with
  | inl failure => ret failure
  | inr None => panic                     (* [sender.GetParameters()] on nil *)
  | inr (Some s) =>
      emit (RegisterHooks subscriberID downTrack s) ;;;
      update (λ t, set_subscribedTracks (<[subscriberID := subTrack]> (subscribedTracks t)) t) ;;;
      update (λ t, set_subscribedTracks
                     (alter (set_pubMuted IsMuted) subscriberID (subscribedTracks t)) t) ;;;
      emit (SetPublisherMuted subscriberID IsMuted) ;;;
      emit (go_initial_quality subscriberID) ;;;
      when (Telemetry (params t))
        (emit (Telemetry_TrackSubscribed subscriberID (MediaTrack_ID (params t)))) ;;;
      ret (Some downTrack, None)
  end end end.

(** [RemoveSubscriber] *)
Definition RemoveSubscriber (participantID : ParticipantID) : Go unit :=
  let* t := receiver in
  match subscribedTracks t !! participantID with
  | Some subTrack => emit (go_DownTrack_Close participantID (st_DownTrack subTrack))
  | None => ret tt
  end.

(** The [Range] callback of [RevokeDisallowedSubscribers], run over the
    entries in the order they are visited. *)
Fixpoint revoke_visit (visited : list (ParticipantID * SubscribedTrack))
    (allowedSubscriberIDs revokedSubscriberIDs : list ParticipantID)
  : Go (list ParticipantID) :=
  match visited with
  | [] => ret revokedSubscriberIDs
  | (subID, subTrack) :: rest =>
      if found_in allowedSubscriberIDs subID then
        revoke_visit rest allowedSubscriberIDs revokedSubscriberIDs
      else
        emit (go_DownTrack_Close subID (st_DownTrack subTrack)) ;;;
        revoke_visit rest allowedSubscriberIDs (revokedSubscriberIDs ++ [subID])
  end.

Definition RevokeDisallowedSubscribers_in_order
    (visited : list (ParticipantID * SubscribedTrack))
    (allowedSubscriberIDs : list ParticipantID) : Go (list ParticipantID) :=
  revoke_visit visited allowedSubscriberIDs [].

(** [RevokeDisallowedSubscribers] *)
Definition RevokeDisallowedSubscribers (allowedSubscriberIDs : list ParticipantID)
  : Go (list ParticipantID) :=
  let* t := receiver in
  RevokeDisallowedSubscribers_in_order (map_to_list (subscribedTracks t)) allowedSubscriberIDs.

(** [RemoveAllSubscribers] *)
Definition RemoveAllSubscribers : Go unit :=
  let* t := receiver in
  emit (Debugw "removing all subscribers") ;;;
  (fix close_all (visited : list (ParticipantID * SubscribedTrack)) : Go unit :=
     match visited with
     | [] => ret tt
     | (subID, subTrack) :: rest =>
         emit (go_DownTrack_Close subID (st_DownTrack subTrack)) ;;; close_all rest
     end) (map_to_list (subscribedTracks t)) ;;;
  update (set_subscribedTracks ∅).

(** [SetMuted] *)
Definition SetMuted (muted : bool) : Go unit :=
  let* t := receiver in
  (fix mute_all (visited : list (ParticipantID * SubscribedTrack)) : Go unit :=
     match visited with
     | [] => ret tt
     | (subID, _) :: rest => emit (SetPublisherMuted subID muted) ;;; mute_all rest
     end) (map_to_list (subscribedTracks t)) ;;;
  update (λ t, set_subscribedTracks (set_pubMuted muted <$> subscribedTracks t) t) ;;;
  if negb muted then updateQualityChange else ret tt.

(* ------------------------------------------------------------------- *)
(** *** Binding reports *)

(** The loop of the goroutine of [sendDownTrackBindingReports].  [now] is
    the time in milliseconds since the goroutine started, advanced by
    [time.Sleep] only; [n] counts the writes done.  The result tells
    whether the loop returned within [fuel] rounds. *)
Fixpoint report_loop (fuel : nat) (sub : Participant) (batch : list nat)
    (i : Z) (now : Z) (n : nat) : Go bool :=
  match fuel with
  | O => ret false
  | S fuel' =>
      emit (WriteRTCP (ID sub) batch now) ;;;
      match WriteRTCP_result sub n with
      | Some err => emit (Errorw "could not write RTCP") ;;; ret true
      | None =>
          if i >? 5 then ret true else
          emit (Sleep 20) ;;;
          report_loop fuel' sub batch (i + 1) (now + 20) (S n)
      end
  end.

(** [sendDownTrackBindingReports]; [CreateSourceDescriptionChunks] is the
    method of the subscribed track's [DownTrack] ([None] for a nil slice). *)
Definition sendDownTrackBindingReports (sub : Participant)
    (CreateSourceDescriptionChunks : DownTrack → option (list nat)) (fuel : nat)
  : Go bool :=
  let* t := receiver in
  match subscribedTracks t !! ID sub with
  | None => ret true
  | Some subTrack =>
      match CreateSourceDescriptionChunks (st_DownTrack subTrack) with
      | None => ret true
      | Some chunks => report_loop fuel sub ([] ++ chunks) 0 0 0
      end
  end.
End Registry.

(* ===================================================================== *)
(** ** Vocabulary of the statements *)
(* ===================================================================== *)

(** The three early returns of the close handler that come before its call
    of [NotifySubscriberMaxQuality]: the peer connection is closed, the
    sender is nil, or [RemoveTrack] fails with [ErrConnectionClosed]. *)
Definition returns_before_retraction (sub : Participant) (sender : option RTPSender) : bool :=
  ConnectionState_is_closed sub ||
  match sender with None => true | Some _ => false end ||
  match RemoveTrack_result sub with Some ErrConnectionClosed => true | _ => false end.

Section Vocabulary.
Context `{E : VideoQualityEnum}.

(** The order OFF < LOW < MEDIUM < HIGH of the qualities, whatever the
    numbers of the constants are. *)
Definition Quality_rank (q : VideoQuality) : Z :=
  if q =? VideoQuality_OFF then 0 else q - VideoQuality_LOW + 1.

Definition Quality_le (a b : VideoQuality) : Prop := Quality_rank a ≤ Quality_rank b.
Definition Quality_leb (a b : VideoQuality) : bool := Quality_rank a <=? Quality_rank b.

(** The three simulcast layers, that is every quality but OFF. *)
Definition is_layer (q : VideoQuality) : Prop :=
  q = VideoQuality_LOW ∨ q = VideoQuality_MEDIUM ∨ q = VideoQuality_HIGH.

Definition is_quality (q : VideoQuality) : Prop := q = VideoQuality_OFF ∨ is_layer q.

(** A desired-quality map whose stored values are layers: OFF is not
    stored. *)
Definition holds_layers `{Countable K} (m : GoMap K VideoQuality) : Prop :=
  ∀ k q, map_index m k = Some q → is_layer q.

(** The same, as a test on the values a map holds. *)
Definition all_layers (vals : list VideoQuality) : bool :=
  forallb (λ v, (VideoQuality_LOW <=? v) && (v <=? VideoQuality_HIGH)) vals.

(** [top] is the maximum of [vals] in the order of the qualities, OFF
    when there is none. *)
Definition Quality_maximum (vals : list VideoQuality) (top : VideoQuality) : Prop :=
  (∀ v, v ∈ vals → Quality_le v top) ∧
  (vals = [] → top = VideoQuality_OFF) ∧
  (vals ≠ [] → top ∈ vals).

(** All the values of both desired-quality maps. *)
Definition desired_qualities (t : MediaTrackSubscriptions) : list VideoQuality :=
  range_values (maxSubscriberQuality t) ++ range_values (maxSubscriberNodeQuality t).

(** The descriptor of the spec: three disabled layers for OFF, else each
    layer from LOW to HIGH with whether it is at most the maximum. *)
Definition descriptor_of (top : VideoQuality) : list SubscribedQuality :=
  if bool_decide (top = VideoQuality_OFF) then
    [ {| Quality := VideoQuality_LOW; Enabled := false |};
      {| Quality := VideoQuality_MEDIUM; Enabled := false |};
      {| Quality := VideoQuality_HIGH; Enabled := false |} ]
  else
    [ {| Quality := VideoQuality_LOW; Enabled := Quality_leb VideoQuality_LOW top |};
      {| Quality := VideoQuality_MEDIUM; Enabled := Quality_leb VideoQuality_MEDIUM top |};
      {| Quality := VideoQuality_HIGH; Enabled := Quality_leb VideoQuality_HIGH top |} ].

(** The public operations of the aggregator, as calls. *)
Inductive AggregatorCall :=
| notify_subscriber (subscriberID : ParticipantID) (quality : VideoQuality)
| notify_node (nodeID : NodeID) (quality : VideoQuality)
| recompute
| start_initial_timer.

Definition run_call (c : AggregatorCall) : Go unit :=
  match c with
  | notify_subscriber subscriberID quality => NotifySubscriberMaxQuality subscriberID quality
  | notify_node nodeID quality => NotifySubscriberNodeMaxQuality nodeID quality
  | recompute => updateQualityChange
  | start_initial_timer => startMaxQualityTimer
  end.

Fixpoint run_calls (cs : list AggregatorCall) : Go unit :=
  match cs with
  | [] => ret tt
  | c :: rest => run_call c ;;; run_calls rest
  end.

(** A call that passes one of the four qualities. *)
Definition passes_quality (c : AggregatorCall) : Prop :=
  match c with
  | notify_subscriber _ quality | notify_node _ quality => is_quality quality
  | recompute | start_initial_timer => True
  end.

(** What the aggregator keeps true of its maps: the per-subscriber map is
    allocated, and neither map stores OFF. *)
Definition aggregator_invariant (t : MediaTrackSubscriptions) : Prop :=
  maxSubscriberQuality t ≠ nil_map ∧
  holds_layers (maxSubscriberQuality t) ∧
  holds_layers (maxSubscriberNodeQuality t).

(** The log of a burst of [n] writes, 20 ms apart from [start] on, each
    followed by its sleep. *)
Fixpoint burst (subscriberID : ParticipantID) (batch : list nat) (n : nat) (start : Z)
  : list Event :=
  match n with
  | O => []
  | S n' =>
      WriteRTCP subscriberID batch start :: Sleep 20 ::
      burst subscriberID batch n' (start + 20)
  end.
End Vocabulary.

(* ===================================================================== *)
(** ** Sample tracks and subscribers *)
(* ===================================================================== *)

Definition video_params : MediaTrackSubscriptionsParams :=
  {| MediaTrack_Kind := TrackType_VIDEO; MediaTrack_ID := "TR_camera"; Telemetry := true |}.

Definition audio_params : MediaTrackSubscriptionsParams :=
  {| MediaTrack_Kind := TrackType_AUDIO; MediaTrack_ID := "TR_microphone"; Telemetry := true |}.

Definition track_of (subscriberID : ParticipantID) (downTrack : DownTrack) : SubscribedTrack :=
  {| SubscriberID := subscriberID; st_DownTrack := downTrack; pubMuted := false |}.

(** alice asks for LOW and bob for MEDIUM, numbered as in [off_last]. *)
Definition low_and_medium : gmap ParticipantID VideoQuality :=
  <["alice" := 0]> (<["bob" := 1]> ∅).

(** A video track with subscribers alice (LOW) and bob (MEDIUM), numbered as
    in [off_last], before any upcall: the current max is still the zero
    value. *)
Definition two_subscribers : MediaTrackSubscriptions :=
  {| params := video_params;
     subscribedTracks := <["alice" := track_of "alice" 11]> (<["bob" := track_of "bob" 12]> ∅);
     maxSubscriberQuality := make_map low_and_medium;
     maxSubscriberNodeQuality := nil_map;
     maxSubscribedQuality := 0;
     onSubscribedMaxQualityChange := Some 1%nat;
     maxQualityTimer := None |}.

(** A video track whose only subscriber, alice, asks for HIGH (2 in
    [off_last]); the upcall has been made, the current max is HIGH. *)
Definition lone_subscriber : MediaTrackSubscriptions :=
  {| params := video_params;
     subscribedTracks := <["alice" := track_of "alice" 11]> ∅;
     maxSubscriberQuality := make_map (<["alice" := 2]> ∅);
     maxSubscriberNodeQuality := nil_map;
     maxSubscribedQuality := 2;
     onSubscribedMaxQualityChange := Some 1%nat;
     maxQualityTimer := None |}.

(** A subscriber whose peer connection answers every call without error. *)
Definition alice (closed : bool) : Participant :=
  {| ID := "alice";
     SupportsTransceiverReuse := true;
     AddTrack := inr (Some 5%nat);
     GetTransceivers := [ {| transceiver_id := 1; Sender := Some 5%nat |} ];
     AddTransceiverFromTrack := inr {| transceiver_id := 1; Sender := Some 5%nat |};
     ConnectionState_is_closed := closed;
     RemoveTrack_result := None;
     WriteRTCP_result := λ _, None |}.

(** A video track as constructed, with the publisher's upcall registered. *)
Definition fresh_video_track : MediaTrackSubscriptions :=
  set_onSubscribedMaxQualityChange (Some 1%nat) (NewMediaTrackSubscriptions video_params).

(** The registry of [two_subscribers], ranged over from bob to alice. *)
Definition bob_then_alice : list (ParticipantID * SubscribedTrack) :=
  [("bob", track_of "bob" 12); ("alice", track_of "alice" 11)].

(** An audio track as constructed, numbered as in [off_last], with the
    current max at OFF. *)
Definition audio_track : MediaTrackSubscriptions :=
  set_maxSubscribedQuality 3 (NewMediaTrackSubscriptions audio_params).


(** carol is not subscribed yet; her peer connection refuses the track. *)
Definition carol : Participant :=
  {| ID := "carol";
     SupportsTransceiverReuse := true;
     AddTrack := inl (collaborator_error 1);
     GetTransceivers := [];
     AddTransceiverFromTrack := inl (collaborator_error 2);
     ConnectionState_is_closed := false;
     RemoveTrack_result := None;
     WriteRTCP_result := λ _, None |}.

(* ===================================================================== *)
(** ** Runs of the methods *)
(* ===================================================================== *)

(** The maxima passed to the upcall in a log, in the order of the calls. *)
Fixpoint upcall_maxima (log : list Event) : list VideoQuality :=
  match log with
  | [] => []
  | call_onSubscribedMaxQualityChange _ _ maxSubscribedQuality :: rest =>
      maxSubscribedQuality :: upcall_maxima rest
  | _ :: rest => upcall_maxima rest
  end.

(** Every subscribed track is registered under its own subscriber id. *)
Definition keys_match (t : MediaTrackSubscriptions) : Prop :=
  ∀ k st, subscribedTracks t !! k = Some st → SubscriberID st = k.

(** [c], run on [t], relates [t], the state it returns and its log by [R]. *)
Definition keeps {A} (R : MediaTrackSubscriptions → MediaTrackSubscriptions → list Event → Prop)
    (c : Go A) (t : MediaTrackSubscriptions) : Prop :=
  ∀ a t' log, c t = Returned a t' log → R t t' log.

(** What no method changes: the parameters stay, a nil per-node map stays
    nil, an allocated per-subscriber map stays allocated, the registry keys
    stay the subscriber ids, and on a track that is not video the
    aggregator's maps and current max stay and the upcall is not called. *)
Definition frame_effect (t t' : MediaTrackSubscriptions) (log : list Event) : Prop :=
  params t' = params t ∧
  (maxSubscriberNodeQuality t = nil_map → maxSubscriberNodeQuality t' = nil_map) ∧
  (maxSubscriberQuality t ≠ nil_map → maxSubscriberQuality t' ≠ nil_map) ∧
  (keys_match t → keys_match t') ∧
  (Kind t ≠ TrackType_VIDEO →
     maxSubscriberQuality t' = maxSubscriberQuality t ∧
     maxSubscriberNodeQuality t' = maxSubscriberNodeQuality t ∧
     maxSubscribedQuality t' = maxSubscribedQuality t ∧
     upcall_maxima log = []).

Section Methods.
Context `{E : VideoQualityEnum}.

(** The methods and goroutines of the engine, with what their collaborators
    answer. *)
Inductive MethodCall :=
| do_AddSubscriber (sub : Participant) (NewDownTrack : error + DownTrack) (IsMuted : bool)
| do_initial_quality_goroutine (subscriberID : ParticipantID)
| do_OnCloseHandler (sub : Participant) (sender : option RTPSender)
| do_RemoveSubscriber (participantID : ParticipantID)
| do_RemoveAllSubscribers
| do_RevokeDisallowedSubscribers (allowedSubscriberIDs : list ParticipantID)
| do_SetMuted (muted : bool)
| do_OnSubscribedMaxQualityChange (f : option Callback)
| do_NotifySubscriberMaxQuality (subscriberID : ParticipantID) (quality : VideoQuality)
| do_NotifySubscriberNodeMaxQuality (nodeID : NodeID) (quality : VideoQuality)
| do_startMaxQualityTimer
| do_stopMaxQualityTimer
| do_maxQualityTimer_fired
| do_updateQualityChange
| do_sendDownTrackBindingReports (sub : Participant)
    (CreateSourceDescriptionChunks : DownTrack → option (list nat)).

Definition run_method (m : MethodCall) : Go unit :=
  match m with
  | do_AddSubscriber sub NewDownTrack IsMuted =>
      let* _ := AddSubscriber sub NewDownTrack IsMuted in ret tt
  | do_initial_quality_goroutine subscriberID => initial_quality_goroutine subscriberID
  | do_OnCloseHandler sub sender => OnCloseHandler sub sender
  | do_RemoveSubscriber participantID => RemoveSubscriber participantID
  | do_RemoveAllSubscribers => RemoveAllSubscribers
  | do_RevokeDisallowedSubscribers allowedSubscriberIDs =>
      let* _ := RevokeDisallowedSubscribers allowedSubscriberIDs in ret tt
  | do_SetMuted muted => SetMuted muted
  | do_OnSubscribedMaxQualityChange f => OnSubscribedMaxQualityChange f
  | do_NotifySubscriberMaxQuality subscriberID quality =>
      NotifySubscriberMaxQuality subscriberID quality
  | do_NotifySubscriberNodeMaxQuality nodeID quality =>
      NotifySubscriberNodeMaxQuality nodeID quality
  | do_startMaxQualityTimer => startMaxQualityTimer
  | do_stopMaxQualityTimer => stopMaxQualityTimer
  | do_maxQualityTimer_fired => maxQualityTimer_fired
  | do_updateQualityChange => updateQualityChange
  | do_sendDownTrackBindingReports sub CreateSourceDescriptionChunks =>
      let* _ := sendDownTrackBindingReports sub CreateSourceDescriptionChunks 7 in ret tt
  end.

Fixpoint run_methods (ms : list MethodCall) : Go unit :=
  match ms with
  | [] => ret tt
  | m :: rest => run_method m ;;; run_methods rest
  end.

(** Every call but the registration of an upcall. *)
Definition keeps_upcall (m : MethodCall) : Prop :=
  match m with
  | do_OnSubscribedMaxQualityChange _ => False
  | _ => True
  end.
End Methods.

(** The track [AddSubscriber] stores. *)
Definition stored_track (subscriberID : ParticipantID) (downTrack : DownTrack)
    (IsMuted : bool) : SubscribedTrack :=
  {| SubscriberID := subscriberID; st_DownTrack := downTrack; pubMuted := IsMuted |}.

(** The telemetry call that ends an accepted [AddSubscriber]. *)
Definition subscribed_telemetry (t : MediaTrackSubscriptions) (subscriberID : ParticipantID)
  : list Event :=
  if Telemetry (params t)
  then [Telemetry_TrackSubscribed subscriberID (MediaTrack_ID (params t))]
  else [].

(** The sender [AddSubscriber] attaches the forwarder to, when the
    attachment succeeds with one. *)
Definition attached_sender (sub : Participant) : option RTPSender :=
  if SupportsTransceiverReuse sub then
    match AddTrack sub with
    | inr (Some s) =>
        match find_transceiver (GetTransceivers sub) (Some s) with
        | Some _ => Some s
        | None => None
        end
    | _ => None
    end
  else
    match AddTransceiverFromTrack sub with
    | inr transceiver => Sender transceiver
    | inl _ => None
    end.

(** The number of layers a descriptor enables. *)
Definition enabled_count (subscribedQualities : list SubscribedQuality) : nat :=
  length (filter (λ sq, Enabled sq = true) subscribedQualities).

(** dave joins with a client that has no transceiver reuse. *)
Definition dave : Participant :=
  {| ID := "dave";
     SupportsTransceiverReuse := false;
     AddTrack := inl (collaborator_error 3);
     GetTransceivers := [];
     AddTransceiverFromTrack := inr {| transceiver_id := 4; Sender := Some 9%nat |};
     ConnectionState_is_closed := false;
     RemoveTrack_result := Some InvalidStateError;
     WriteRTCP_result := λ n, if (n =? 2)%nat then Some (collaborator_error 7) else None |}.

(** dave subscribes, his goroutine and the timer run, bob lowers his wish,
    the publisher mutes and unmutes, dave's forwarder closes. *)
Definition sample_run : list MethodCall :=
  [ do_startMaxQualityTimer;
    do_AddSubscriber dave (inr 31%nat) false;
    do_initial_quality_goroutine "dave";
    do_maxQualityTimer_fired;
    do_NotifySubscriberMaxQuality "bob" 0;
    do_SetMuted true;
    do_SetMuted false;
    do_RevokeDisallowedSubscribers ["alice"; "dave"];
    do_OnCloseHandler dave (Some 9%nat);
    do_NotifySubscriberNodeMaxQuality "node-1" 3 ].

(** The state an outcome ends in, [t] when it panicked. *)
Definition state_or {A} (o : Outcome A) (t : MediaTrackSubscriptions)
  : MediaTrackSubscriptions :=
  match o with Returned _ t' _ => t' | Panicked => t end.

(** [two_subscribers] once dave, muted by the publisher, is subscribed with
    forwarder 31, and what [AddSubscriber] logs for it. *)
Definition with_dave : MediaTrackSubscriptions :=
  set_subscribedTracks
    (<["dave" := stored_track "dave" 31 true]> (subscribedTracks two_subscribers))
    two_subscribers.

Definition dave_log : list Event :=
  [ RegisterHooks "dave" 31 9; SetPublisherMuted "dave" true; go_initial_quality "dave";
    Telemetry_TrackSubscribed "dave" "TR_camera" ].

(* ===================================================================== *)
(** ** Facts about the monad and the maps *)
(* ===================================================================== *)

Ltac go_unfold :=
  unfold bind, ret, receiver, update, emit, panic, when in *.

(** Case analysis of a membership in a log that is written out. *)
Ltac log_membership Hin :=
  repeat first
    [ apply elem_of_nil in Hin; contradiction
    | apply elem_of_cons in Hin as [Hin|Hin]; [discriminate Hin|]
    | apply elem_of_app in Hin as [Hin|Hin] ].

Ltac enum_facts :=
  pose proof VideoQuality_MEDIUM_succ;
  pose proof VideoQuality_HIGH_succ;
  pose proof VideoQuality_OFF_apart.

Lemma set_maxSubscribedQuality_same t :
  set_maxSubscribedQuality (maxSubscribedQuality t) t = t.
Proof. by destruct t. Qed.

Section GoMapFacts.
Context {K : Type} `{Countable K} {V : Type}.
Implicit Types m : GoMap K V.

Lemma elem_of_range_values m v :
  v ∈ range_values m ↔ ∃ k, map_index m k = Some v.
Proof.
  unfold range_values, map_index. rewrite list_elem_of_fmap. split.
  - intros [[k v'] [-> Hin]]. exists k. by apply elem_of_map_to_list in Hin.
  - intros [k Hk]. exists (k, v). split; [done|]. by apply elem_of_map_to_list.
Qed.

Lemma range_values_nil m : range_values m = [] ↔ entries m = ∅.
Proof.
  unfold range_values. split.
  - intros Hnil. apply fmap_nil_inv in Hnil. by apply map_to_list_empty_iff.
  - intros ->. by rewrite map_to_list_empty.
Qed.

Lemma map_index_delete m k k' :
  map_index (map_delete m k) k' = if decide (k = k') then None else map_index m k'.
Proof.
  unfold map_index. destruct m as [|g]; simpl.
  - rewrite lookup_empty. by case_decide.
  - apply lookup_delete.
Qed.

Lemma map_index_assign m m' k v k' :
  map_assign m k v = Some m' →
  map_index m' k' = if decide (k = k') then Some v else map_index m k'.
Proof.
  unfold map_index. destruct m as [|g]; simpl; [done|].
  intros [= <-]. simpl. apply lookup_insert.
Qed.
End GoMapFacts.

(* ===================================================================== *)
(** ** Facts about the qualities *)
(* ===================================================================== *)

Section QualityFacts.
Context `{E : VideoQualityEnum}.

Lemma is_layer_range q :
  is_layer q ↔ VideoQuality_LOW ≤ q ≤ VideoQuality_HIGH.
Proof. unfold is_layer. enum_facts. lia. Qed.

Lemma is_layer_not_OFF q : is_layer q → q ≠ VideoQuality_OFF.
Proof. rewrite is_layer_range. enum_facts. lia. Qed.

Lemma Quality_rank_OFF : Quality_rank VideoQuality_OFF = 0.
Proof. unfold Quality_rank. by rewrite Z.eqb_refl. Qed.

Lemma Quality_rank_layer q : is_layer q → Quality_rank q = q - VideoQuality_LOW + 1.
Proof.
  intros Hq. unfold Quality_rank.
  destruct (Z.eqb_spec q VideoQuality_OFF) as [->|]; [|done].
  by apply is_layer_not_OFF in Hq.
Qed.

Lemma Quality_rank_inj a b :
  is_quality a → is_quality b → Quality_rank a = Quality_rank b → a = b.
Proof.
  intros [->|Ha] [->|Hb]; rewrite ?Quality_rank_OFF, ?Quality_rank_layer by done;
    try apply is_layer_range in Ha; try apply is_layer_range in Hb; lia.
Qed.

(** The numeric test of the layer loop agrees with the order of the
    qualities, for a maximum that is a layer. *)
Lemma leb_is_Quality_leb q top :
  is_layer q → is_layer top → (q <=? top) = Quality_leb q top.
Proof.
  intros Hq Htop. unfold Quality_leb. rewrite !Quality_rank_layer by done.
  destruct (Z.leb_spec q top), (Z.leb_spec (q - VideoQuality_LOW + 1) (top - VideoQuality_LOW + 1));
    (done || lia).
Qed.

(** One round of a scanning loop keeps the larger quality. *)
Lemma scan_step_spec acc v :
  is_quality acc → is_layer v →
  is_layer (scan_step acc v) ∧
  (scan_step acc v = acc ∨ scan_step acc v = v) ∧
  Quality_le acc (scan_step acc v) ∧ Quality_le v (scan_step acc v).
Proof.
  intros Hacc Hv. unfold scan_step, Quality_le.
  destruct (Z.eqb_spec acc VideoQuality_OFF) as [->|Hne]; simpl.
  - rewrite Quality_rank_OFF, Quality_rank_layer by done.
    apply is_layer_range in Hv as Hr. repeat split; auto; lia.
  - destruct Hacc as [?|Hacc]; [done|].
    rewrite !Quality_rank_layer by done.
    destruct (Z.gtb_spec v acc); rewrite ?Quality_rank_layer by done;
      repeat split; auto; lia.
Qed.

(** A scanning loop over layers ends on the maximum of its start value and
    the values visited. *)
Lemma scan_spec visited : ∀ acc,
  is_quality acc → (∀ v, v ∈ visited → is_layer v) →
  is_quality (scan visited acc) ∧
  (scan visited acc = acc ∨ scan visited acc ∈ visited) ∧
  Quality_le acc (scan visited acc) ∧
  (∀ v, v ∈ visited → Quality_le v (scan visited acc)).
Proof.
  induction visited as [|x rest IH]; intros acc Hacc Hall; simpl.
  - repeat split; auto; [unfold Quality_le; lia | intros v Hv; by apply elem_of_nil in Hv].
  - assert (Hx : is_layer x) by (apply Hall; left).
    destruct (scan_step_spec acc x Hacc Hx) as (Hl & Hor & Hle1 & Hle2).
    destruct (IH (scan_step acc x)) as (Hq & Hmem & Hle & Hrest).
    { by right. }
    { intros v Hv. apply Hall. by right. }
    fold (scan rest (scan_step acc x)) in *.
    split; [done|]. split; [|split].
    + destruct Hmem as [->|Hin]; [|right; by right].
      destruct Hor as [->| ->]; [by left | right; left].
    + unfold Quality_le in *. lia.
    + intros v Hv. apply elem_of_cons in Hv as [->|Hv]; [|by apply Hrest].
      unfold Quality_le in *. lia.
Qed.

(** The two loops of [updateQualityChange] compute the maximum of all the
    values they visit. *)
Lemma scan_both_maximum subs nodes :
  (∀ v, v ∈ subs → is_layer v) → (∀ v, v ∈ nodes → is_layer v) →
  Quality_maximum (subs ++ nodes) (scan nodes (scan subs VideoQuality_OFF)) ∧
  is_quality (scan nodes (scan subs VideoQuality_OFF)).
Proof.
  intros Hs Hn.
  destruct (scan_spec subs VideoQuality_OFF) as (Hq1 & Hm1 & _ & Hr1); [by left|done|].
  destruct (scan_spec nodes (scan subs VideoQuality_OFF) Hq1 Hn) as (Hq2 & Hm2 & Hle2 & Hr2).
  set (r1 := scan subs VideoQuality_OFF) in *. set (r := scan nodes r1) in *.
  split; [|done]. split; [|split].
  - intros v Hv. apply elem_of_app in Hv as [Hv|Hv]; [|by apply Hr2].
    specialize (Hr1 v Hv). unfold Quality_le in *. lia.
  - intros Hnil. apply app_eq_nil in Hnil as [-> ->]. done.
  - intros Hne. apply elem_of_app.
    destruct Hm2 as [Hr|Hin]; [|by right].
    destruct Hm1 as [Hoff|Hin]; [|left; by rewrite Hr].
    (* both loops kept OFF: then nothing was visited *)
    exfalso. apply Hne.
    assert (Hnone : ∀ v, v ∈ subs ++ nodes → False).
    { intros v Hv.
      assert (Hl : is_layer v) by (apply elem_of_app in Hv as [?|?]; auto).
      assert (Hle : Quality_le v r).
      { apply elem_of_app in Hv as [Hv|Hv]; [|by apply Hr2].
        specialize (Hr1 v Hv). unfold Quality_le in *. lia. }
      unfold Quality_le in Hle. rewrite Hr, Hoff, Quality_rank_OFF in Hle.
      rewrite Quality_rank_layer in Hle by done. apply is_layer_range in Hl. lia. }
    destruct (subs ++ nodes) as [|v l]; [done|]. exfalso. apply (Hnone v). left.
Qed.

(** The maximum is unique, so the order in which a map is ranged over does
    not matter. *)
Lemma Quality_maximum_unique vals a b :
  (∀ v, v ∈ vals → is_layer v) →
  Quality_maximum vals a → Quality_maximum vals b → a = b.
Proof.
  intros Hall (Ha1 & Ha2 & Ha3) (Hb1 & Hb2 & Hb3).
  destruct vals as [|x l]; [by rewrite Ha2, Hb2|].
  assert (Hina : a ∈ x :: l) by (by apply Ha3).
  assert (Hinb : b ∈ x :: l) by (by apply Hb3).
  apply Quality_rank_inj; [right; auto | right; auto |].
  specialize (Ha1 b Hinb). specialize (Hb1 a Hina). unfold Quality_le in *. lia.
Qed.

Lemma Quality_maximum_perm vals vals' top :
  vals ≡ₚ vals' → Quality_maximum vals top → Quality_maximum vals' top.
Proof.
  intros Hp (H1 & H2 & H3). split; [|split].
  - intros v Hv. apply H1. by rewrite Hp.
  - intros ->. apply H2. by apply Permutation_nil_r in Hp.
  - intros Hne. rewrite <- Hp. apply H3. intros ->.
    apply Permutation_nil in Hp. done.
Qed.
End QualityFacts.

(* ===================================================================== *)
(** ** The aggregator *)
(* ===================================================================== *)

Section AggregatorFacts.
Context `{E : VideoQualityEnum}.

(** The layer loop visits LOW, MEDIUM and HIGH and then ends by its own
    test, with the rounds [build_subscribedQualities] grants it or more. *)
Lemma layer_loop_three extra top :
  layer_loop (Z.to_nat (VideoQuality_HIGH - VideoQuality_LOW + 1) + extra)
    VideoQuality_LOW top =
  ([ {| Quality := VideoQuality_LOW; Enabled := VideoQuality_LOW <=? top |};
     {| Quality := VideoQuality_MEDIUM; Enabled := VideoQuality_MEDIUM <=? top |};
     {| Quality := VideoQuality_HIGH; Enabled := VideoQuality_HIGH <=? top |} ], true).
Proof.
  enum_facts.
  replace (Z.to_nat (VideoQuality_HIGH - VideoQuality_LOW + 1)) with 3%nat by lia.
  assert (Hin : ∀ q, q ≤ VideoQuality_HIGH → (q <=? VideoQuality_HIGH) = true)
    by (intros; by apply Z.leb_le).
  assert (Hout : (VideoQuality_HIGH + 1 <=? VideoQuality_HIGH) = false)
    by (apply Z.leb_gt; lia).
  replace VideoQuality_MEDIUM with (VideoQuality_LOW + 1) by lia.
  replace (VideoQuality_HIGH <=? top) with (VideoQuality_LOW + 1 + 1 <=? top)
    by (f_equal; lia).
  replace {| Quality := VideoQuality_HIGH; Enabled := VideoQuality_LOW + 1 + 1 <=? top |}
    with {| Quality := VideoQuality_LOW + 1 + 1; Enabled := VideoQuality_LOW + 1 + 1 <=? top |}
    by (f_equal; lia).
  cbn [Nat.add layer_loop].
  rewrite !Hin by lia.
  replace (VideoQuality_LOW + 1 + 1 + 1) with (VideoQuality_HIGH + 1) by lia.
  destruct extra; cbn [layer_loop]; by rewrite Hout.
Qed.

Lemma build_subscribedQualities_descriptor top :
  is_quality top → build_subscribedQualities top = descriptor_of top.
Proof.
  intros Htop. unfold build_subscribedQualities, descriptor_of.
  destruct (Z.eqb_spec top VideoQuality_OFF) as [->|Hne].
  - by rewrite bool_decide_eq_true_2.
  - rewrite bool_decide_eq_false_2 by done.
    destruct Htop as [?|Htop]; [done|].
    pose proof (layer_loop_three 0 top) as Hloop. rewrite Nat.add_0_r in Hloop.
    rewrite Hloop. simpl.
    rewrite !leb_is_Quality_leb; unfold is_layer; auto.
Qed.

Lemma updateQualityChange_in_order_video t subs nodes :
  Kind t = TrackType_VIDEO →
  updateQualityChange_in_order subs nodes t =
    let top := scan nodes (scan subs VideoQuality_OFF) in
    Returned tt (set_maxSubscribedQuality top t)
      (if bool_decide (top = maxSubscribedQuality t) then []
       else match onSubscribedMaxQualityChange t with
            | Some f => [call_onSubscribedMaxQualityChange f (build_subscribedQualities top) top]
            | None => []
            end).
Proof.
  intros Hk. unfold updateQualityChange_in_order. go_unfold. simpl. rewrite Hk.
  rewrite bool_decide_eq_true_2 by done. simpl.
  destruct (Z.eqb_spec (scan nodes (scan subs VideoQuality_OFF)) (maxSubscribedQuality t))
    as [Heq|Hne].
  - rewrite bool_decide_eq_true_2 by done. rewrite Heq.
    by rewrite set_maxSubscribedQuality_same.
  - rewrite bool_decide_eq_false_2 by done.
    by destruct (onSubscribedMaxQualityChange t).
Qed.

Lemma updateQualityChange_in_order_not_video t subs nodes :
  Kind t ≠ TrackType_VIDEO → updateQualityChange_in_order subs nodes t = Returned tt t [].
Proof.
  intros Hk. unfold updateQualityChange_in_order. go_unfold. simpl.
  by rewrite bool_decide_eq_false_2.
Qed.

Lemma updateQualityChange_unfold t :
  updateQualityChange t =
  updateQualityChange_in_order (range_values (maxSubscriberQuality t))
    (range_values (maxSubscriberNodeQuality t)) t.
Proof.
  unfold updateQualityChange. go_unfold. simpl.
  by destruct (updateQualityChange_in_order _ _ t).
Qed.

Lemma holds_layers_range `{Countable K} (m : GoMap K Z) visited :
  holds_layers m → visited ≡ₚ range_values m → ∀ v, v ∈ visited → is_layer v.
Proof.
  intros Hm Hp v Hv. rewrite Hp in Hv.
  apply elem_of_range_values in Hv as [k Hk]. by apply (Hm k).
Qed.

(** C1.  On a video track whose maps store layers only, [updateQualityChange]
    returns, whatever the order in which it ranges over the two maps; the
    current max it leaves is the maximum, in the order OFF < LOW < MEDIUM <
    HIGH, of all the values of the per-subscriber and the per-node map, OFF
    when both are empty; and the upcall registered by the publisher is
    called, once, with the descriptor and the new maximum, exactly when the
    new maximum differs from the current max stored before. *)
Theorem updateQualityChange_publishes_maximum t subs nodes :
  Kind t = TrackType_VIDEO →
  holds_layers (maxSubscriberQuality t) →
  holds_layers (maxSubscriberNodeQuality t) →
  subs ≡ₚ range_values (maxSubscriberQuality t) →
  nodes ≡ₚ range_values (maxSubscriberNodeQuality t) →
  ∃ top,
    Quality_maximum (desired_qualities t) top ∧
    updateQualityChange_in_order subs nodes t =
      Returned tt (set_maxSubscribedQuality top t)
        (if bool_decide (top = maxSubscribedQuality t) then []
         else match onSubscribedMaxQualityChange t with
              | Some f => [call_onSubscribedMaxQualityChange f (descriptor_of top) top]
              | None => []
              end) ∧
    updateQualityChange t = updateQualityChange_in_order subs nodes t.
Proof.
  intros Hk Hs Hn Hps Hpn.
  pose proof (holds_layers_range _ _ Hs Hps) as Hls.
  pose proof (holds_layers_range _ _ Hn Hpn) as Hln.
  destruct (scan_both_maximum subs nodes Hls Hln) as [Hmax Hq].
  exists (scan nodes (scan subs VideoQuality_OFF)).
  assert (Hmax' : Quality_maximum (desired_qualities t) (scan nodes (scan subs VideoQuality_OFF))).
  { eapply Quality_maximum_perm; [|exact Hmax]. unfold desired_qualities. by rewrite Hps, Hpn. }
  split; [done|]. split.
  - rewrite updateQualityChange_in_order_video by done. cbv zeta.
    by rewrite build_subscribedQualities_descriptor.
  - rewrite updateQualityChange_unfold.
    rewrite !updateQualityChange_in_order_video by done. cbv zeta.
    assert (Heq : scan (range_values (maxSubscriberNodeQuality t))
                    (scan (range_values (maxSubscriberQuality t)) VideoQuality_OFF)
                  = scan nodes (scan subs VideoQuality_OFF)).
    { destruct (scan_both_maximum (range_values (maxSubscriberQuality t))
                  (range_values (maxSubscriberNodeQuality t))) as [Hmax0 _].
      - by apply (holds_layers_range (maxSubscriberQuality t)).
      - by apply (holds_layers_range (maxSubscriberNodeQuality t)).
      - apply (Quality_maximum_unique (desired_qualities t)); [|done|done].
        intros v Hv. apply elem_of_app in Hv as [Hv|Hv].
        + by apply (holds_layers_range (maxSubscriberQuality t) _ Hs (reflexivity _)).
        + by apply (holds_layers_range (maxSubscriberNodeQuality t) _ Hn (reflexivity _)). }
    by rewrite Heq.
Qed.

(** C3.  On a video track whose maps store layers only,
    [updateQualityChange] returns, and every upcall in its log carries the
    descriptor of the maximum it passes: the three entries (LOW, false),
    (MEDIUM, false), (HIGH, false) when that maximum is OFF, else the
    entries (LOW, LOW ≤ max), (MEDIUM, MEDIUM ≤ max), (HIGH, HIGH ≤ max), in
    this order; a changed maximum with a registered upcall does produce such
    a call. *)
Theorem upcall_descriptor_shape t subs nodes :
  Kind t = TrackType_VIDEO →
  holds_layers (maxSubscriberQuality t) →
  holds_layers (maxSubscriberNodeQuality t) →
  subs ≡ₚ range_values (maxSubscriberQuality t) →
  nodes ≡ₚ range_values (maxSubscriberNodeQuality t) →
  ∃ t' log,
    updateQualityChange_in_order subs nodes t = Returned tt t' log ∧
    (∀ f descr top, call_onSubscribedMaxQualityChange f descr top ∈ log →
       top = maxSubscribedQuality t' ∧
       if bool_decide (top = VideoQuality_OFF) then
         descr = [ {| Quality := VideoQuality_LOW; Enabled := false |};
                   {| Quality := VideoQuality_MEDIUM; Enabled := false |};
                   {| Quality := VideoQuality_HIGH; Enabled := false |} ]
       else
         descr = [ {| Quality := VideoQuality_LOW;
                      Enabled := Quality_leb VideoQuality_LOW top |};
                   {| Quality := VideoQuality_MEDIUM;
                      Enabled := Quality_leb VideoQuality_MEDIUM top |};
                   {| Quality := VideoQuality_HIGH;
                      Enabled := Quality_leb VideoQuality_HIGH top |} ]) ∧
    (∀ f, onSubscribedMaxQualityChange t = Some f →
       maxSubscribedQuality t' ≠ maxSubscribedQuality t →
       ∃ descr, log = [call_onSubscribedMaxQualityChange f descr (maxSubscribedQuality t')]).
Proof.
  intros Hk Hs Hn Hps Hpn.
  pose proof (holds_layers_range _ _ Hs Hps) as Hls.
  pose proof (holds_layers_range _ _ Hn Hpn) as Hln.
  destruct (scan_both_maximum subs nodes Hls Hln) as [_ Hq].
  rewrite updateQualityChange_in_order_video by done. cbv zeta.
  set (top := scan nodes (scan subs VideoQuality_OFF)) in *.
  eexists _, _. split; [reflexivity|]. split.
  - intros f descr top' Hin.
    case_bool_decide as Hsame; [by apply elem_of_nil in Hin|].
    destruct (onSubscribedMaxQualityChange t) as [g|]; [|by apply elem_of_nil in Hin].
    apply list_elem_of_singleton in Hin. injection Hin as -> -> ->.
    split; [done|].
    rewrite build_subscribedQualities_descriptor by done. unfold descriptor_of.
    by case_bool_decide.
  - intros f Hf Hne. simpl in Hne. rewrite Hf.
    rewrite bool_decide_eq_false_2 by done. by eexists.
Qed.
End AggregatorFacts.

Section NotifyFacts.
Context `{E : VideoQualityEnum}.

Lemma bind_update {A} (f : MediaTrackSubscriptions → MediaTrackSubscriptions)
    (c : Go A) t :
  bind (update f) (λ _, c) t = c (f t).
Proof. go_unfold. by destruct (c (f t)). Qed.

Lemma bind_receiver {A} (k : MediaTrackSubscriptions → Go A) t :
  bind receiver k t = k t t.
Proof. go_unfold. by destruct (k t t). Qed.

(** [updateQualityChange] always returns, and writes the current max only. *)
Lemma updateQualityChange_returns t :
  ∃ top log,
    updateQualityChange t = Returned tt (set_maxSubscribedQuality top t) log ∧
    (Kind t ≠ TrackType_VIDEO → log = []).
Proof.
  rewrite updateQualityChange_unfold.
  destruct (decide (Kind t = TrackType_VIDEO)) as [Hk|Hk].
  - rewrite updateQualityChange_in_order_video by done. by eexists _, _.
  - rewrite updateQualityChange_in_order_not_video by done.
    exists (maxSubscribedQuality t), []. by rewrite set_maxSubscribedQuality_same.
Qed.

(** C4.  On a video track, [NotifySubscriberMaxQuality subscriberID quality]
    - with OFF and no entry for the subscriber returns at once: same state,
      no recomputation (nothing is logged, even where the current max is
      stale);
    - with OFF and an entry deletes the entry and runs [updateQualityChange];
    - with another quality that the entry already holds returns at once;
    - otherwise sets the entry to the quality and runs [updateQualityChange].
    So a map that does not store OFF does not store OFF afterwards. *)
Theorem NotifySubscriberMaxQuality_cases t subscriberID quality
    (m : gmap ParticipantID VideoQuality) :
  Kind t = TrackType_VIDEO →
  maxSubscriberQuality t = make_map m →
  (quality = VideoQuality_OFF → m !! subscriberID = None →
     NotifySubscriberMaxQuality subscriberID quality t = Returned tt t []) ∧
  (quality = VideoQuality_OFF → is_Some (m !! subscriberID) →
     NotifySubscriberMaxQuality subscriberID quality t =
     updateQualityChange
       (set_maxSubscriberQuality (make_map (delete subscriberID m)) t)) ∧
  (quality ≠ VideoQuality_OFF → m !! subscriberID = Some quality →
     NotifySubscriberMaxQuality subscriberID quality t = Returned tt t []) ∧
  (quality ≠ VideoQuality_OFF → m !! subscriberID ≠ Some quality →
     NotifySubscriberMaxQuality subscriberID quality t =
     updateQualityChange
       (set_maxSubscriberQuality (make_map (<[subscriberID := quality]> m)) t)) ∧
  ((∀ k, m !! k ≠ Some VideoQuality_OFF) →
     ∃ t' log,
       NotifySubscriberMaxQuality subscriberID quality t = Returned tt t' log ∧
       ∀ k, map_index (maxSubscriberQuality t') k ≠ Some VideoQuality_OFF).
Proof.
  intros Hk Hm.
  assert (Hoff : quality = VideoQuality_OFF →
            NotifySubscriberMaxQuality subscriberID quality t =
            match m !! subscriberID with
            | None => Returned tt t []
            | Some _ => updateQualityChange
                          (set_maxSubscriberQuality (make_map (delete subscriberID m)) t)
            end).
  { intros ->. unfold NotifySubscriberMaxQuality. rewrite bind_receiver.
    rewrite Hk, bool_decide_eq_true_2 by done. simpl. rewrite Z.eqb_refl.
    unfold map_index. rewrite Hm. simpl.
    destruct (m !! subscriberID); [|done]. by rewrite bind_update. }
  assert (Hon : quality ≠ VideoQuality_OFF →
            NotifySubscriberMaxQuality subscriberID quality t =
            if bool_decide (m !! subscriberID = Some quality) then Returned tt t []
            else updateQualityChange
                   (set_maxSubscriberQuality (make_map (<[subscriberID := quality]> m)) t)).
  { intros Hne. unfold NotifySubscriberMaxQuality. rewrite bind_receiver.
    rewrite Hk, bool_decide_eq_true_2 by done. simpl.
    destruct (Z.eqb_spec quality VideoQuality_OFF) as [?|_]; [done|].
    unfold map_index. rewrite Hm. simpl.
    destruct (m !! subscriberID) as [old|] eqn:Hold.
    - destruct (Z.eqb_spec old quality) as [->|Hdiff].
      + by rewrite bool_decide_eq_true_2.
      + rewrite bool_decide_eq_false_2 by congruence. by rewrite bind_update.
    - rewrite bool_decide_eq_false_2 by done. by rewrite bind_update. }
  split; [|split; [|split; [|split]]].
  - intros Hq Hnone. by rewrite Hoff, Hnone.
  - intros Hq [old Hold]. by rewrite Hoff, Hold.
  - intros Hq Hsame. by rewrite Hon, bool_decide_eq_true_2.
  - intros Hq Hdiff. by rewrite Hon, bool_decide_eq_false_2.
  - intros Hclean.
    destruct (decide (quality = VideoQuality_OFF)) as [Hq|Hq].
    + rewrite Hoff by done. destruct (m !! subscriberID).
      * destruct (updateQualityChange_returns
                    (set_maxSubscriberQuality (make_map (delete subscriberID m)) t))
          as (top & log & -> & _).
        eexists _, _. split; [done|]. intros k. unfold map_index. simpl.
        rewrite lookup_delete. destruct (decide (subscriberID = k)); [done|apply Hclean].
      * eexists _, _. split; [done|]. intros k. unfold map_index. rewrite Hm. apply Hclean.
    + rewrite Hon by done. case_bool_decide.
      * eexists _, _. split; [done|]. intros k. unfold map_index. rewrite Hm. apply Hclean.
      * destruct (updateQualityChange_returns
                    (set_maxSubscriberQuality (make_map (<[subscriberID := quality]> m)) t))
          as (top & log & -> & _).
        eexists _, _. split; [done|]. intros k. unfold map_index. simpl.
        rewrite lookup_insert. destruct (decide (subscriberID = k)); [congruence|apply Hclean].
Qed.

(** Assigning into the per-node map of an engine as the constructor leaves
    it panics; retracting from it does nothing. *)
Lemma NotifySubscriberNodeMaxQuality_nil_map t nodeID quality :
  Kind t = TrackType_VIDEO →
  maxSubscriberNodeQuality t = nil_map →
  NotifySubscriberNodeMaxQuality nodeID quality t =
    if bool_decide (quality = VideoQuality_OFF) then Returned tt t [] else Panicked.
Proof.
  intros Hk Hnil. unfold NotifySubscriberNodeMaxQuality. rewrite bind_receiver.
  rewrite Hk, bool_decide_eq_true_2 by done. simpl.
  unfold map_index. rewrite Hnil. simpl. rewrite lookup_empty.
  destruct (Z.eqb_spec quality VideoQuality_OFF).
  - by rewrite bool_decide_eq_true_2.
  - by rewrite bool_decide_eq_false_2.
Qed.

Lemma run_call_not_video t c :
  Kind t ≠ TrackType_VIDEO → run_call c t = Returned tt t [].
Proof.
  intros Hk. destruct c; simpl.
  - unfold NotifySubscriberMaxQuality. rewrite bind_receiver.
    by rewrite bool_decide_eq_false_2.
  - unfold NotifySubscriberNodeMaxQuality. rewrite bind_receiver.
    by rewrite bool_decide_eq_false_2.
  - rewrite updateQualityChange_unfold. by apply updateQualityChange_in_order_not_video.
  - unfold startMaxQualityTimer. rewrite bind_receiver.
    by rewrite bool_decide_eq_false_2.
Qed.

End NotifyFacts.

(* ===================================================================== *)
(** ** The registry *)
(* ===================================================================== *)

Section RegistryFacts.
Context `{E : VideoQualityEnum}.

Lemma NotifySubscriberMaxQuality_OFF t subscriberID :
  Kind t = TrackType_VIDEO →
  NotifySubscriberMaxQuality subscriberID VideoQuality_OFF t =
    match map_index (maxSubscriberQuality t) subscriberID with
    | None => Returned tt t []
    | Some _ =>
        updateQualityChange
          (set_maxSubscriberQuality (map_delete (maxSubscriberQuality t) subscriberID) t)
    end.
Proof.
  intros Hk. unfold NotifySubscriberMaxQuality. rewrite bind_receiver.
  rewrite Hk, bool_decide_eq_true_2 by done. simpl. rewrite Z.eqb_refl.
  destruct (map_index (maxSubscriberQuality t) subscriberID); [|done].
  by rewrite bind_update.
Qed.

(** What [updateQualityChange] stores and passes to the upcall is the
    maximum of the values of the two maps. *)
Lemma updateQualityChange_maximum t :
  Kind t = TrackType_VIDEO →
  holds_layers (maxSubscriberQuality t) →
  holds_layers (maxSubscriberNodeQuality t) →
  ∃ top log,
    updateQualityChange t = Returned tt (set_maxSubscribedQuality top t) log ∧
    Quality_maximum (desired_qualities t) top ∧
    (∀ f descr q, call_onSubscribedMaxQualityChange f descr q ∈ log → q = top).
Proof.
  intros Hk Hs Hn. rewrite updateQualityChange_unfold.
  rewrite updateQualityChange_in_order_video by done. cbv zeta.
  eexists _, _. split; [reflexivity|]. split.
  - apply scan_both_maximum.
    + by apply (holds_layers_range (maxSubscriberQuality t)).
    + by apply (holds_layers_range (maxSubscriberNodeQuality t)).
  - intros f descr q Hin. case_bool_decide; [by apply elem_of_nil in Hin|].
    destruct (onSubscribedMaxQualityChange t); [|by apply elem_of_nil in Hin].
    apply list_elem_of_singleton in Hin. by injection Hin.
Qed.

Lemma holds_layers_delete `{Countable K} (m : GoMap K Z) k :
  holds_layers m → holds_layers (map_delete m k).
Proof.
  intros Hm k' q. rewrite map_index_delete.
  destruct (decide (k = k')); [done|]. apply Hm.
Qed.

(** C5, as amended.  On a video track whose maps store layers only, the
    close handler of subscriber x returns and has deleted x from the
    registry.  When the subscriber's peer connection is closed, the sender is
    nil or [RemoveTrack] fails with [ErrConnectionClosed], it returns before
    the retraction: the engine is as before but for the registry, and the
    upcall is not called.  In every other case it calls
    [NotifySubscriberMaxQuality x OFF] on the state with x deleted from the
    registry: the state it ends in is the one this call returns, and its log
    is the telemetry call, the removal of the track, the log of this call and
    then [RemoveSubscribedTrack] and [Negotiate].  So x has no entry in the
    per-subscriber map afterwards, the other entries and the per-node map are
    as before, and every upcall passes the maximum of the maps without x.
    When x had an entry, the current max has been recomputed to that maximum
    and, if it changed and an upcall is registered, the upcall is in the log;
    when x had none, the current max is as before and no upcall is made. *)
Theorem OnCloseHandler_retracts_unless_disconnected t sub sender :
  Kind t = TrackType_VIDEO →
  holds_layers (maxSubscriberQuality t) →
  holds_layers (maxSubscriberNodeQuality t) →
  ∃ t' log,
    OnCloseHandler sub sender t = Returned tt t' log ∧
    subscribedTracks t' = delete (ID sub) (subscribedTracks t) ∧
    maxSubscriberNodeQuality t' = maxSubscriberNodeQuality t ∧
    if returns_before_retraction sub sender then
      t' = set_subscribedTracks (delete (ID sub) (subscribedTracks t)) t ∧
      maxSubscriberQuality t' = maxSubscriberQuality t ∧
      maxSubscribedQuality t' = maxSubscribedQuality t ∧
      (∀ f descr top, call_onSubscribedMaxQualityChange f descr top ∉ log)
    else
      (∃ log2,
         NotifySubscriberMaxQuality (ID sub) VideoQuality_OFF
           (set_subscribedTracks (delete (ID sub) (subscribedTracks t)) t) =
           Returned tt t' log2 ∧
         log =
           (if Telemetry (params t)
            then [Telemetry_TrackUnsubscribed (ID sub) (MediaTrack_ID (params t))]
            else []) ++
           match sender with
           | Some s => [Debugw "removing peerconnection track"; RemoveTrack (ID sub) s]
           | None => []
           end ++
           match RemoveTrack_result sub with
           | Some OtherRemoveTrackError =>
               [Debugw "could not remove remoteTrack from forwarder"]
           | _ => []
           end ++
           log2 ++ [RemoveSubscribedTrack (ID sub); Negotiate (ID sub)]) ∧
      map_index (maxSubscriberQuality t') (ID sub) = None ∧
      (∀ k, k ≠ ID sub →
         map_index (maxSubscriberQuality t') k = map_index (maxSubscriberQuality t) k) ∧
      (∀ f descr top, call_onSubscribedMaxQualityChange f descr top ∈ log →
         top = maxSubscribedQuality t' ∧ Quality_maximum (desired_qualities t') top) ∧
      (is_Some (map_index (maxSubscriberQuality t) (ID sub)) →
         Quality_maximum (desired_qualities t') (maxSubscribedQuality t') ∧
         (maxSubscribedQuality t' ≠ maxSubscribedQuality t →
          ∀ f, onSubscribedMaxQualityChange t = Some f →
            call_onSubscribedMaxQualityChange f
              (build_subscribedQualities (maxSubscribedQuality t'))
              (maxSubscribedQuality t') ∈ log)) ∧
      (map_index (maxSubscriberQuality t) (ID sub) = None →
         maxSubscribedQuality t' = maxSubscribedQuality t ∧
         ∀ f descr top, call_onSubscribedMaxQualityChange f descr top ∉ log).
Proof.
  intros Hk Hs Hn.
  set (t1 := set_subscribedTracks (delete (ID sub) (subscribedTracks t)) t).
  assert (Hk1 : Kind t1 = TrackType_VIDEO) by done.
  (* the retraction itself, on the state the handler reaches it in *)
  assert (Hnotify : ∃ t2 log2,
    NotifySubscriberMaxQuality (ID sub) VideoQuality_OFF t1 = Returned tt t2 log2 ∧
    subscribedTracks t2 = delete (ID sub) (subscribedTracks t) ∧
    maxSubscriberNodeQuality t2 = maxSubscriberNodeQuality t ∧
    map_index (maxSubscriberQuality t2) (ID sub) = None ∧
    (∀ k, k ≠ ID sub →
       map_index (maxSubscriberQuality t2) k = map_index (maxSubscriberQuality t) k) ∧
    (∀ f descr top, call_onSubscribedMaxQualityChange f descr top ∈ log2 →
       top = maxSubscribedQuality t2 ∧ Quality_maximum (desired_qualities t2) top) ∧
    (is_Some (map_index (maxSubscriberQuality t) (ID sub)) →
       Quality_maximum (desired_qualities t2) (maxSubscribedQuality t2) ∧
       (maxSubscribedQuality t2 ≠ maxSubscribedQuality t →
        ∀ f, onSubscribedMaxQualityChange t = Some f →
          call_onSubscribedMaxQualityChange f
            (build_subscribedQualities (maxSubscribedQuality t2))
            (maxSubscribedQuality t2) ∈ log2)) ∧
    (map_index (maxSubscriberQuality t) (ID sub) = None →
       maxSubscribedQuality t2 = maxSubscribedQuality t ∧ log2 = [])).
  { rewrite NotifySubscriberMaxQuality_OFF by done.
    destruct (map_index (maxSubscriberQuality t1) (ID sub)) as [old|] eqn:Hold.
    - set (t1' := set_maxSubscriberQuality (map_delete (maxSubscriberQuality t1) (ID sub)) t1).
      assert (Hs1 : holds_layers (maxSubscriberQuality t1')) by (by apply holds_layers_delete).
      assert (Hmax : Quality_maximum (desired_qualities t1')
                (scan (range_values (maxSubscriberNodeQuality t1'))
                   (scan (range_values (maxSubscriberQuality t1')) VideoQuality_OFF))).
      { apply scan_both_maximum.
        - by apply (holds_layers_range (maxSubscriberQuality t1')).
        - by apply (holds_layers_range (maxSubscriberNodeQuality t1')). }
      rewrite updateQualityChange_unfold, updateQualityChange_in_order_video by done.
      cbv zeta.
      set (top := scan (range_values (maxSubscriberNodeQuality t1'))
                    (scan (range_values (maxSubscriberQuality t1')) VideoQuality_OFF)) in *.
      eexists _, _. split; [reflexivity|]. simpl.
      split; [done|]. split; [done|]. split; [|split; [|split; [|split]]].
      + rewrite map_index_delete. by rewrite decide_True.
      + intros k Hne. rewrite map_index_delete. by rewrite decide_False.
      + intros f descr q Hin. case_bool_decide; [by apply elem_of_nil in Hin|].
        destruct (onSubscribedMaxQualityChange t); [|by apply elem_of_nil in Hin].
        apply list_elem_of_singleton in Hin. injection Hin as -> -> ->. done.
      + intros _. split; [done|]. intros Hne f Hf.
        rewrite bool_decide_eq_false_2 by done. rewrite Hf. by left.
      + intros Hnone. exfalso. change (maxSubscriberQuality t1) with (maxSubscriberQuality t) in Hold.
        congruence.
    - eexists _, _. split; [reflexivity|]. simpl.
      split; [done|]. split; [done|]. split; [done|]. split; [done|].
      split; [intros f descr q Hin; by apply elem_of_nil in Hin|].
      split; [|done].
      intros [old Hold']. change (maxSubscriberQuality t1) with (maxSubscriberQuality t) in Hold.
      congruence. }
  unfold OnCloseHandler, returns_before_retraction.
  rewrite bind_update. fold t1.
  destruct Hnotify
    as (t2 & log2 & Hrun & Hreg & Hnode & Hgone & Hkeep & Hcalls & Hentry & Hnoentry).
  destruct (ConnectionState_is_closed sub) eqn:Hclosed.
  { unfold bind, ret, receiver, emit, when. simpl.
    destruct (Telemetry (params t)); simpl;
      (eexists _, _; split; [reflexivity|]; simpl;
       split; [done|]; split; [done|]; split; [done|]; split; [done|]; split; [done|];
       intros f descr top Hin; log_membership Hin). }
  destruct sender as [s|].
  2:{ unfold bind, ret, receiver, emit, when. simpl.
      destruct (Telemetry (params t)); simpl;
        (eexists _, _; split; [reflexivity|]; simpl;
         split; [done|]; split; [done|]; split; [done|]; split; [done|]; split; [done|];
         intros f descr top Hin; log_membership Hin). }
  assert (Hfinish : ∀ before,
    (∀ f descr top, call_onSubscribedMaxQualityChange f descr top ∉ before) →
    (∀ f descr top,
       call_onSubscribedMaxQualityChange f descr top ∈
         before ++ log2 ++ [RemoveSubscribedTrack (ID sub); Negotiate (ID sub)] →
       top = maxSubscribedQuality t2 ∧ Quality_maximum (desired_qualities t2) top) ∧
    (is_Some (map_index (maxSubscriberQuality t) (ID sub)) →
       Quality_maximum (desired_qualities t2) (maxSubscribedQuality t2) ∧
       (maxSubscribedQuality t2 ≠ maxSubscribedQuality t →
        ∀ f, onSubscribedMaxQualityChange t = Some f →
          call_onSubscribedMaxQualityChange f
            (build_subscribedQualities (maxSubscribedQuality t2))
            (maxSubscribedQuality t2) ∈
          before ++ log2 ++ [RemoveSubscribedTrack (ID sub); Negotiate (ID sub)])) ∧
    (map_index (maxSubscriberQuality t) (ID sub) = None →
       maxSubscribedQuality t2 = maxSubscribedQuality t ∧
       ∀ f descr top,
         call_onSubscribedMaxQualityChange f descr top ∉
           before ++ log2 ++ [RemoveSubscribedTrack (ID sub); Negotiate (ID sub)])).
  { intros before Hbefore. split; [|split].
    - intros f descr top Hin. apply elem_of_app in Hin as [Hin|Hin]; [by apply Hbefore in Hin|].
      apply elem_of_app in Hin as [Hin|Hin]; [by apply (Hcalls f descr)|].
      log_membership Hin.
    - intros Hsome. destruct (Hentry Hsome) as [Hmax Hup]. split; [done|].
      intros Hne f Hf. apply elem_of_app. right. apply elem_of_app. left. by apply Hup.
    - intros Hnone. destruct (Hnoentry Hnone) as [Hmax ->]. split; [done|].
      intros f descr top Hin. apply elem_of_app in Hin as [Hin|Hin]; [by apply Hbefore in Hin|].
      log_membership Hin. }
  destruct (RemoveTrack_result sub) as [[| |]|] eqn:Hremove; simpl.
  - unfold bind, ret, receiver, emit, when. simpl.
    destruct (Telemetry (params t)); simpl;
      (eexists _, _; split; [reflexivity|]; simpl;
       split; [done|]; split; [done|]; split; [done|]; split; [done|]; split; [done|];
       intros f descr top Hin; log_membership Hin).
  - unfold bind, ret, receiver, emit, when. simpl.
    destruct (Telemetry (params t)); simpl; fold t1; rewrite Hrun; simpl;
      (eexists _, _; split; [reflexivity|];
       split; [done|]; split; [done|];
       split; [by exists log2|]; split; [done|]; split; [done|];
       match goal with
       | |- context [?a :: ?b :: ?c :: ?d :: log2 ++ _] => apply (Hfinish [a; b; c; d])
       | |- context [?a :: ?b :: ?c :: log2 ++ _] => apply (Hfinish [a; b; c])
       | |- context [?a :: ?b :: log2 ++ _] => apply (Hfinish [a; b])
       end; intros f descr top Hin; log_membership Hin).
  - unfold bind, ret, receiver, emit, when. simpl.
    destruct (Telemetry (params t)); simpl; fold t1; rewrite Hrun; simpl;
      (eexists _, _; split; [reflexivity|];
       split; [done|]; split; [done|];
       split; [by exists log2|]; split; [done|]; split; [done|];
       match goal with
       | |- context [?a :: ?b :: ?c :: ?d :: log2 ++ _] => apply (Hfinish [a; b; c; d])
       | |- context [?a :: ?b :: ?c :: log2 ++ _] => apply (Hfinish [a; b; c])
       | |- context [?a :: ?b :: log2 ++ _] => apply (Hfinish [a; b])
       end; intros f descr top Hin; log_membership Hin).
  - unfold bind, ret, receiver, emit, when. simpl.
    destruct (Telemetry (params t)); simpl; fold t1; rewrite Hrun; simpl;
      (eexists _, _; split; [reflexivity|];
       split; [done|]; split; [done|];
       split; [by exists log2|]; split; [done|]; split; [done|];
       match goal with
       | |- context [?a :: ?b :: ?c :: ?d :: log2 ++ _] => apply (Hfinish [a; b; c; d])
       | |- context [?a :: ?b :: ?c :: log2 ++ _] => apply (Hfinish [a; b; c])
       | |- context [?a :: ?b :: log2 ++ _] => apply (Hfinish [a; b])
       end; intros f descr top Hin; log_membership Hin).
Qed.

Lemma found_in_spec allowedSubscriberIDs subID :
  found_in allowedSubscriberIDs subID = true ↔ subID ∈ allowedSubscriberIDs.
Proof.
  induction allowedSubscriberIDs as [|a rest IH]; simpl.
  - split; [done|]. intros Hin. by apply elem_of_nil in Hin.
  - rewrite elem_of_cons. case_bool_decide; [tauto|]. rewrite IH. tauto.
Qed.

(** The visit of the registry appends to the revoked ids, in the order of
    the visit, every id that is not allowed, and starts one close for it. *)
Lemma revoke_visit_spec visited allowedSubscriberIDs : ∀ revokedSubscriberIDs t,
  ∃ revoked log,
    revoke_visit visited allowedSubscriberIDs revokedSubscriberIDs t =
      Returned (revokedSubscriberIDs ++ revoked) t log ∧
    revoked `sublist_of` visited.*1 ∧
    (∀ subID, subID ∈ revoked ↔ subID ∈ visited.*1 ∧ subID ∉ allowedSubscriberIDs) ∧
    Forall2 (λ subID e, ∃ subTrack,
               (subID, subTrack) ∈ visited ∧
               e = go_DownTrack_Close subID (st_DownTrack subTrack)) revoked log.
Proof.
  induction visited as [|[subID subTrack] rest IH]; intros acc t; simpl.
  - exists [], []. rewrite app_nil_r. split; [done|]. split; [done|]. split; [|constructor].
    intros x. split; [intros Hx; by apply elem_of_nil in Hx|].
    intros [Hx _]. by apply elem_of_nil in Hx.
  - destruct (found_in allowedSubscriberIDs subID) eqn:Hfound.
    + destruct (IH acc t) as (revoked & log & -> & Hsub & Hiff & Hlog).
      exists revoked, log. split; [done|]. split; [by apply sublist_cons|]. split.
      * intros x. rewrite Hiff, elem_of_cons. split; [tauto|].
        intros [[->|Hx] Hnot]; [|done].
        apply found_in_spec in Hfound. done.
      * eapply Forall2_impl; [exact Hlog|]. simpl.
        intros x e (st & Hst & ->). exists st. split; [by right|done].
    + destruct (IH (acc ++ [subID]) t) as (revoked & log & Hrun & Hsub & Hiff & Hlog).
      exists (subID :: revoked), (go_DownTrack_Close subID (st_DownTrack subTrack) :: log).
      split; [|split; [|split]].
      * unfold bind, emit. rewrite Hrun. simpl. by rewrite <- app_assoc.
      * by apply sublist_skip.
      * intros x. rewrite !elem_of_cons, Hiff. split.
        -- intros [->|[Hx Hnot]]; [|tauto]. split; [by left|].
           intros Hin. apply found_in_spec in Hin. congruence.
        -- intros [[->|Hx] Hnot]; [by left|by right].
      * constructor.
        -- exists subTrack. split; [by left|done].
        -- eapply Forall2_impl; [exact Hlog|]. simpl.
           intros x e (st & Hst & ->). exists st. split; [by right|done].
Qed.

(** C7.  Whatever the registry and the allowed ids, and in whatever order
    the registry is ranged over, [RevokeDisallowedSubscribers] returns,
    leaves the registry as it is, and its result lists, once each, exactly
    the ids that are registered and not allowed; what it starts is one
    forwarder close per returned id, on the forwarder registered for this
    id, and nothing else. *)
Theorem RevokeDisallowedSubscribers_exact t visited
    (allowedSubscriberIDs : list ParticipantID) :
  visited ≡ₚ map_to_list (subscribedTracks t) →
  ∃ revoked log,
    RevokeDisallowedSubscribers_in_order visited allowedSubscriberIDs t =
      Returned revoked t log ∧
    NoDup revoked ∧
    (∀ subID, subID ∈ revoked ↔
       is_Some (subscribedTracks t !! subID) ∧ subID ∉ allowedSubscriberIDs) ∧
    Forall2 (λ subID e, ∃ subTrack,
               subscribedTracks t !! subID = Some subTrack ∧
               e = go_DownTrack_Close subID (st_DownTrack subTrack)) revoked log ∧
    (visited = map_to_list (subscribedTracks t) →
       RevokeDisallowedSubscribers allowedSubscriberIDs t = Returned revoked t log).
Proof.
  intros Hp. unfold RevokeDisallowedSubscribers_in_order.
  destruct (revoke_visit_spec visited allowedSubscriberIDs [] t)
    as (revoked & log & Hrun & Hsub & Hiff & Hlog).
  simpl in Hrun. exists revoked, log. split; [done|]. split; [|split; [|split]].
  - eapply sublist_NoDup; [|exact Hsub]. rewrite Hp. apply NoDup_fst_map_to_list.
  - intros subID. rewrite Hiff.
    assert (Hreg : subID ∈ visited.*1 ↔ is_Some (subscribedTracks t !! subID)).
    { rewrite Hp, list_elem_of_fmap. split.
      - intros [[k st] [-> Hin]]. apply elem_of_map_to_list in Hin. by exists st.
      - intros [st Hst]. exists (subID, st). split; [done|]. by apply elem_of_map_to_list. }
    by rewrite Hreg.
  - eapply Forall2_impl; [exact Hlog|]. simpl.
    intros x e (st & Hst & ->). exists st. split; [|done].
    rewrite Hp in Hst. by apply elem_of_map_to_list in Hst.
  - intros ->. unfold RevokeDisallowedSubscribers. rewrite bind_receiver.
    unfold RevokeDisallowedSubscribers_in_order. done.
Qed.

(** C9.  For a subscriber that is in the registry, [AddSubscriber] returns
    a nil forwarder and a nil error, calls nobody and leaves the engine, its
    registry, both desired-quality maps and the current max as they were. *)
Theorem AddSubscriber_already_subscribed t sub NewDownTrack IsMuted :
  is_Some (subscribedTracks t !! ID sub) →
  AddSubscriber sub NewDownTrack IsMuted t = Returned (None, None) t [].
Proof.
  intros [st Hst]. unfold AddSubscriber. rewrite bind_receiver. by rewrite Hst.
Qed.

(** C10.  For a subscriber that is not in the registry, every failure of
    [AddSubscriber] (the forwarder cannot be built; [AddTrack] or
    [AddTransceiverFromTrack] fails; no transceiver carries the sender; the
    transceiver has no sender) is an error return with a nil forwarder that
    calls nobody and leaves the engine as it was.  Conversely every error
    return leaves the engine as it was, with the subscriber still not
    subscribed, and a return after which the registry differs is a success
    that stored the subscriber. *)
Theorem AddSubscriber_errors_leave_registry t sub NewDownTrack IsMuted :
  subscribedTracks t !! ID sub = None →
  (∀ err, NewDownTrack = inl err →
     AddSubscriber sub NewDownTrack IsMuted t = Returned (None, Some err) t []) ∧
  (∀ downTrack err,
     NewDownTrack = inr downTrack → SupportsTransceiverReuse sub = true →
     AddTrack sub = inl err →
     AddSubscriber sub NewDownTrack IsMuted t = Returned (None, Some err) t []) ∧
  (∀ downTrack sender,
     NewDownTrack = inr downTrack → SupportsTransceiverReuse sub = true →
     AddTrack sub = inr sender → find_transceiver (GetTransceivers sub) sender = None →
     AddSubscriber sub NewDownTrack IsMuted t =
       Returned (None, Some (errors_New "cannot subscribe without a transceiver in place")) t []) ∧
  (∀ downTrack err,
     NewDownTrack = inr downTrack → SupportsTransceiverReuse sub = false →
     AddTransceiverFromTrack sub = inl err →
     AddSubscriber sub NewDownTrack IsMuted t = Returned (None, Some err) t []) ∧
  (∀ downTrack transceiver,
     NewDownTrack = inr downTrack → SupportsTransceiverReuse sub = false →
     AddTransceiverFromTrack sub = inr transceiver → Sender transceiver = None →
     AddSubscriber sub NewDownTrack IsMuted t =
       Returned (None, Some (errors_New "cannot subscribe without a sender in place")) t []) ∧
  (∀ downTrack err t' log,
     AddSubscriber sub NewDownTrack IsMuted t = Returned (downTrack, Some err) t' log →
     t' = t ∧ log = [] ∧ downTrack = None ∧ IsSubscriber (ID sub) t' = false) ∧
  (∀ downTrack err t' log,
     AddSubscriber sub NewDownTrack IsMuted t = Returned (downTrack, err) t' log →
     subscribedTracks t' ≠ subscribedTracks t →
     err = None ∧ is_Some downTrack ∧ IsSubscriber (ID sub) t' = true).
Proof.
  intros Hnone.
  assert (Hnot : IsSubscriber (ID sub) t = false).
  { unfold IsSubscriber. rewrite Hnone. apply bool_decide_eq_false_2. by intros [? ?]. }
  unfold AddSubscriber. rewrite bind_receiver, Hnone.
  split; [|split; [|split; [|split; [|split; [|split]]]]].
  - by intros err ->.
  - intros downTrack err -> Hreuse Hadd. by rewrite Hreuse, Hadd.
  - intros downTrack sender -> Hreuse Hadd Hfind. by rewrite Hreuse, Hadd, Hfind.
  - intros downTrack err -> Hreuse Hadd. by rewrite Hreuse, Hadd.
  - intros downTrack transceiver -> Hreuse Hadd Hsender. by rewrite Hreuse, Hadd, Hsender.
  - intros downTrack err t' log.
    destruct NewDownTrack as [e|dt]; [intros [= <- <- <- <-]; done|].
    destruct (SupportsTransceiverReuse sub).
    + destruct (AddTrack sub) as [e|sender]; [intros [= <- <- <- <-]; done|].
      destruct (find_transceiver (GetTransceivers sub) sender);
        [|intros [= <- <- <- <-]; done].
      destruct sender; [|done].
      unfold bind, ret, emit, update, when. simpl.
      by destruct (Telemetry (params t)).
    + destruct (AddTransceiverFromTrack sub) as [e|tr]; [intros [= <- <- <- <-]; done|].
      destruct (Sender tr); [|intros [= <- <- <- <-]; done].
      unfold bind, ret, emit, update, when. simpl.
      by destruct (Telemetry (params t)).
  - intros downTrack err t' log.
    assert (Hstored : ∀ (dt : DownTrack) s,
      (emit (RegisterHooks (ID sub) dt s) ;;;
       update (λ t0, set_subscribedTracks
          (<[ID sub := {| SubscriberID := ID sub; st_DownTrack := dt; pubMuted := false |}]>
             (subscribedTracks t0)) t0) ;;;
       update (λ t0, set_subscribedTracks
          (alter (set_pubMuted IsMuted) (ID sub) (subscribedTracks t0)) t0) ;;;
       emit (SetPublisherMuted (ID sub) IsMuted) ;;;
       emit (go_initial_quality (ID sub)) ;;;
       when (Telemetry (params t))
         (emit (Telemetry_TrackSubscribed (ID sub) (MediaTrack_ID (params t)))) ;;;
       ret (Some dt, None)) t = Returned (downTrack, err) t' log →
      err = None ∧ is_Some downTrack ∧ IsSubscriber (ID sub) t' = true).
    { intros dt s. unfold bind, ret, emit, update, when. simpl.
      destruct (Telemetry (params t)); simpl; intros [= <- <- <- <-];
        (split; [done|]; split; [by eexists|];
         unfold IsSubscriber; simpl; apply bool_decide_eq_true_2;
         rewrite lookup_alter_eq, lookup_insert_eq; by eexists). }
    destruct NewDownTrack as [e|dt]; [intros [= <- <- <- <-]; done|].
    destruct (SupportsTransceiverReuse sub).
    + destruct (AddTrack sub) as [e|sender]; [intros [= <- <- <- <-]; done|].
      destruct (find_transceiver (GetTransceivers sub) sender);
        [|intros [= <- <- <- <-]; done].
      destruct sender as [s|]; [|done].
      intros Hrun _. by apply (Hstored dt s).
    + destruct (AddTransceiverFromTrack sub) as [e|tr]; [intros [= <- <- <- <-]; done|].
      destruct (Sender tr) as [s|]; [|intros [= <- <- <- <-]; done].
      intros Hrun _. by apply (Hstored dt s).
Qed.

(* --------------------------------------------------------------------- *)
(** *** Binding reports *)

(** With [r] sleeps left before the counter passes 5 and no write failing,
    the loop writes [r + 1] times, 20 ms apart, and returns. *)
Lemma report_loop_all_written sub batch r : ∀ fuel now n t,
  (r < fuel)%nat →
  (∀ j, (j ≤ r)%nat → WriteRTCP_result sub (n + j) = None) →
  report_loop fuel sub batch (6 - Z.of_nat r) now n t =
    Returned true t
      (burst (ID sub) batch r now ++ [WriteRTCP (ID sub) batch (now + 20 * Z.of_nat r)]).
Proof.
  induction r as [|r IH]; intros fuel now n t Hfuel Hok.
  - assert (Hfirst : WriteRTCP_result sub n = None)
      by (rewrite <- (Nat.add_0_r n); apply Hok; lia).
    destruct fuel as [|fuel]; [lia|]. simpl. unfold bind, emit, ret.
    rewrite Hfirst. simpl. by rewrite Z.add_0_r.
  - assert (Hfirst : WriteRTCP_result sub n = None)
      by (rewrite <- (Nat.add_0_r n); apply Hok; lia).
    destruct fuel as [|fuel]; [lia|]. cbn [report_loop burst]. unfold bind, emit.
    rewrite Hfirst.
    destruct (Z.gtb_spec (6 - Z.of_nat (S r)) 5) as [Hgt|_]; [lia|].
    replace (6 - Z.of_nat (S r) + 1) with (6 - Z.of_nat r) by lia.
    rewrite IH.
    + simpl. by replace (now + 20 * Z.of_nat (S r)) with (now + 20 + 20 * Z.of_nat r) by lia.
    + lia.
    + intros j Hj. replace (S n + j)%nat with (n + S j)%nat by lia. apply Hok. lia.
Qed.

(** When the write number [k] is the first to fail, and the counter has not
    passed 5 before it, the loop logs the error after this write and
    returns: nothing is written afterwards. *)
Lemma report_loop_aborted sub batch err k : ∀ fuel i now n t,
  (k < fuel)%nat →
  i + Z.of_nat k ≤ 6 →
  (∀ j, (j < k)%nat → WriteRTCP_result sub (n + j) = None) →
  WriteRTCP_result sub (n + k) = Some err →
  report_loop fuel sub batch i now n t =
    Returned true t
      (burst (ID sub) batch k now ++
       [WriteRTCP (ID sub) batch (now + 20 * Z.of_nat k); Errorw "could not write RTCP"]).
Proof.
  induction k as [|k IH]; intros fuel i now n t Hfuel Hi Hok Herr.
  - destruct fuel as [|fuel]; [lia|]. simpl. unfold bind, emit, ret.
    rewrite Nat.add_0_r in Herr. rewrite Herr. simpl. by rewrite Z.add_0_r.
  - assert (Hfirst : WriteRTCP_result sub n = None)
      by (rewrite <- (Nat.add_0_r n); apply Hok; lia).
    destruct fuel as [|fuel]; [lia|]. cbn [report_loop burst]. unfold bind, emit.
    rewrite Hfirst.
    destruct (Z.gtb_spec i 5) as [Hgt|_]; [lia|].
    rewrite (IH fuel (i + 1) (now + 20) (S n) t).
    + simpl. by replace (now + 20 * Z.of_nat (S k)) with (now + 20 + 20 * Z.of_nat k) by lia.
    + lia.
    + lia.
    + intros j Hj. replace (S n + j)%nat with (n + S j)%nat by lia. apply Hok. lia.
    + by replace (S n + k)%nat with (n + S k)%nat by lia.
Qed.

(** C8.  [sendDownTrackBindingReports] returns within seven rounds of its
    loop.  When the subscriber has no subscribed track, or its forwarder has
    no SDES chunks, nothing is sent.  Otherwise, when no write fails, the
    source-description packet is written seven times, at 0, 20, 40, 60, 80,
    100 and 120 ms, with a sleep of 20 ms between two writes; and when write
    number [k] (from 0) is the first to fail, the [k] writes before it and
    this one are all that is sent, followed by the logged error. *)
Theorem binding_reports_burst t sub CreateSourceDescriptionChunks fuel :
  (7 ≤ fuel)%nat →
  (subscribedTracks t !! ID sub = None →
     sendDownTrackBindingReports sub CreateSourceDescriptionChunks fuel t =
       Returned true t []) ∧
  (∀ subTrack,
     subscribedTracks t !! ID sub = Some subTrack →
     CreateSourceDescriptionChunks (st_DownTrack subTrack) = None →
     sendDownTrackBindingReports sub CreateSourceDescriptionChunks fuel t =
       Returned true t []) ∧
  (∀ subTrack chunks,
     subscribedTracks t !! ID sub = Some subTrack →
     CreateSourceDescriptionChunks (st_DownTrack subTrack) = Some chunks →
     ((∀ j, (j < 7)%nat → WriteRTCP_result sub j = None) →
        sendDownTrackBindingReports sub CreateSourceDescriptionChunks fuel t =
          Returned true t
            [ WriteRTCP (ID sub) chunks 0; Sleep 20;
              WriteRTCP (ID sub) chunks 20; Sleep 20;
              WriteRTCP (ID sub) chunks 40; Sleep 20;
              WriteRTCP (ID sub) chunks 60; Sleep 20;
              WriteRTCP (ID sub) chunks 80; Sleep 20;
              WriteRTCP (ID sub) chunks 100; Sleep 20;
              WriteRTCP (ID sub) chunks 120 ]) ∧
     (∀ k err,
        (k < 7)%nat →
        (∀ j, (j < k)%nat → WriteRTCP_result sub j = None) →
        WriteRTCP_result sub k = Some err →
        sendDownTrackBindingReports sub CreateSourceDescriptionChunks fuel t =
          Returned true t
            (burst (ID sub) chunks k 0 ++
             [ WriteRTCP (ID sub) chunks (20 * Z.of_nat k);
               Errorw "could not write RTCP" ]))).
Proof.
  intros Hfuel. unfold sendDownTrackBindingReports. rewrite bind_receiver.
  split; [|split].
  - by intros ->.
  - by intros subTrack -> ->.
  - intros subTrack chunks -> ->. simpl. split.
    + intros Hok.
      pose proof (report_loop_all_written sub chunks 6 fuel 0 0%nat t) as Hall.
      change (6 - Z.of_nat 6) with 0 in Hall.
      rewrite Hall; [done|lia|].
      intros j Hj. apply Hok. lia.
    + intros k err Hk Hok Herr.
      by rewrite (report_loop_aborted sub chunks err k fuel 0 0 0%nat t) by (done || lia).
Qed.
End RegistryFacts.

(* ===================================================================== *)
(** ** The invariant of the aggregator *)
(* ===================================================================== *)

Section InvariantFacts.
Context `{E : VideoQualityEnum}.

Lemma holds_layers_assign `{Countable K} (m m' : GoMap K Z) k q :
  holds_layers m → is_layer q → map_assign m k q = Some m' → holds_layers m'.
Proof.
  intros Hm Hq Hassign k' q'. rewrite (map_index_assign m m' k q k' Hassign).
  destruct (decide (k = k')); [by intros [= <-]|apply Hm].
Qed.

Lemma NotifySubscriberMaxQuality_store t subscriberID quality :
  Kind t = TrackType_VIDEO → quality ≠ VideoQuality_OFF →
  NotifySubscriberMaxQuality subscriberID quality t =
    if bool_decide (map_index (maxSubscriberQuality t) subscriberID = Some quality)
    then Returned tt t []
    else match map_assign (maxSubscriberQuality t) subscriberID quality with
         | None => Panicked
         | Some m => updateQualityChange (set_maxSubscriberQuality m t)
         end.
Proof.
  intros Hk Hq. unfold NotifySubscriberMaxQuality. rewrite bind_receiver.
  rewrite Hk, bool_decide_eq_true_2 by done. simpl.
  destruct (Z.eqb_spec quality VideoQuality_OFF) as [?|_]; [done|].
  destruct (map_index (maxSubscriberQuality t) subscriberID) as [old|].
  - destruct (Z.eqb_spec old quality) as [->|Hdiff].
    + by rewrite bool_decide_eq_true_2.
    + rewrite bool_decide_eq_false_2 by congruence.
      destruct (map_assign _ _ _); [by rewrite bind_update|done].
  - rewrite bool_decide_eq_false_2 by done.
    destruct (map_assign _ _ _); [by rewrite bind_update|done].
Qed.

Lemma NotifySubscriberNodeMaxQuality_OFF t nodeID :
  Kind t = TrackType_VIDEO →
  NotifySubscriberNodeMaxQuality nodeID VideoQuality_OFF t =
    match map_index (maxSubscriberNodeQuality t) nodeID with
    | None => Returned tt t []
    | Some _ =>
        updateQualityChange
          (set_maxSubscriberNodeQuality (map_delete (maxSubscriberNodeQuality t) nodeID) t)
    end.
Proof.
  intros Hk. unfold NotifySubscriberNodeMaxQuality. rewrite bind_receiver.
  rewrite Hk, bool_decide_eq_true_2 by done. simpl. rewrite Z.eqb_refl.
  destruct (map_index (maxSubscriberNodeQuality t) nodeID); [|done].
  by rewrite bind_update.
Qed.

Lemma NotifySubscriberNodeMaxQuality_store t nodeID quality :
  Kind t = TrackType_VIDEO → quality ≠ VideoQuality_OFF →
  NotifySubscriberNodeMaxQuality nodeID quality t =
    if bool_decide (map_index (maxSubscriberNodeQuality t) nodeID = Some quality)
    then Returned tt t []
    else match map_assign (maxSubscriberNodeQuality t) nodeID quality with
         | None => Panicked
         | Some m => updateQualityChange (set_maxSubscriberNodeQuality m t)
         end.
Proof.
  intros Hk Hq. unfold NotifySubscriberNodeMaxQuality. rewrite bind_receiver.
  rewrite Hk, bool_decide_eq_true_2 by done. simpl.
  destruct (Z.eqb_spec quality VideoQuality_OFF) as [?|_]; [done|].
  destruct (map_index (maxSubscriberNodeQuality t) nodeID) as [old|].
  - destruct (Z.eqb_spec old quality) as [->|Hdiff].
    + by rewrite bool_decide_eq_true_2.
    + rewrite bool_decide_eq_false_2 by congruence.
      destruct (map_assign _ _ _); [by rewrite bind_update|done].
  - rewrite bool_decide_eq_false_2 by done.
    destruct (map_assign _ _ _); [by rewrite bind_update|done].
Qed.

(** The engine the constructor returns satisfies the invariant. *)
Lemma NewMediaTrackSubscriptions_invariant p :
  aggregator_invariant (NewMediaTrackSubscriptions p).
Proof.
  split; [done|]. split; intros k q; unfold map_index; simpl; by rewrite lookup_empty.
Qed.

Lemma updateQualityChange_invariant t t' log :
  aggregator_invariant t → updateQualityChange t = Returned tt t' log →
  aggregator_invariant t'.
Proof.
  intros Hinv. destruct (updateQualityChange_returns t) as (top & log' & -> & _).
  by intros [= <- <-].
Qed.

(** Every call of the aggregator that returns keeps the invariant. *)
Lemma run_call_invariant c t t' log :
  aggregator_invariant t → passes_quality c →
  run_call c t = Returned tt t' log → aggregator_invariant t'.
Proof.
  intros Hinv Hq.
  destruct (decide (Kind t = TrackType_VIDEO)) as [Hk|Hk];
    [|rewrite run_call_not_video by done; by intros [= <- <-]].
  destruct Hinv as (Halloc & Hs & Hn).
  destruct c as [subscriberID quality|nodeID quality| |]; simpl in *.
  - destruct Hq as [->|Hlayer].
    + rewrite NotifySubscriberMaxQuality_OFF by done.
      destruct (map_index (maxSubscriberQuality t) subscriberID);
        [|by intros [= <- <-]].
      apply updateQualityChange_invariant. split; [|split]; simpl.
      * by destruct (maxSubscriberQuality t).
      * by apply holds_layers_delete.
      * done.
    + rewrite NotifySubscriberMaxQuality_store by (done || by apply is_layer_not_OFF).
      case_bool_decide; [by intros [= <- <-]|].
      destruct (map_assign (maxSubscriberQuality t) subscriberID quality) as [m|] eqn:Hm;
        [|done].
      apply updateQualityChange_invariant. split; [|split]; simpl.
      * destruct (maxSubscriberQuality t); [done|]. by injection Hm as <-.
      * by apply (holds_layers_assign (maxSubscriberQuality t) m subscriberID quality).
      * done.
  - destruct Hq as [->|Hlayer].
    + rewrite NotifySubscriberNodeMaxQuality_OFF by done.
      destruct (map_index (maxSubscriberNodeQuality t) nodeID);
        [|by intros [= <- <-]].
      apply updateQualityChange_invariant. split; [|split]; simpl.
      * done.
      * done.
      * by apply holds_layers_delete.
    + rewrite NotifySubscriberNodeMaxQuality_store by (done || by apply is_layer_not_OFF).
      case_bool_decide; [by intros [= <- <-]|].
      destruct (map_assign (maxSubscriberNodeQuality t) nodeID quality) as [m|] eqn:Hm;
        [|done].
      apply updateQualityChange_invariant. split; [|split]; simpl.
      * done.
      * done.
      * by apply (holds_layers_assign (maxSubscriberNodeQuality t) m nodeID quality).
  - by apply updateQualityChange_invariant.
  - unfold startMaxQualityTimer. rewrite bind_receiver.
    rewrite Hk, bool_decide_eq_true_2 by done. simpl.
    unfold update. by intros [= <- <-].
Qed.

(** So does every sequence of calls that returns. *)
Lemma run_calls_invariant cs : ∀ t t' log,
  aggregator_invariant t → Forall passes_quality cs →
  run_calls cs t = Returned tt t' log → aggregator_invariant t'.
Proof.
  induction cs as [|c rest IH]; intros t t' log Hinv Hall; simpl.
  - unfold ret. by intros [= <- <-].
  - apply Forall_cons in Hall as [Hc Hrest]. unfold bind.
    destruct (run_call c t) as [[] t1 log1|] eqn:Hrun; [|done].
    pose proof (run_call_invariant c t t1 log1 Hinv Hc Hrun) as Hinv1.
    destruct (run_calls rest t1) as [[] t2 log2|] eqn:Hrest'; [|done].
    intros [= <- <-]. by eapply IH.
Qed.
End InvariantFacts.

(* ===================================================================== *)
(** ** The constructor and the per-node map *)
(* ===================================================================== *)

(** C2.  On a video track just made by [NewMediaTrackSubscriptions],
    whatever the numbers of the qualities, [NotifySubscriberNodeMaxQuality]
    with OFF returns and changes nothing, and with any other quality it
    panics: the constructor leaves [maxSubscriberNodeQuality] nil, and the
    assignment into it does not return.  Nothing is stored for the node. *)
Theorem NotifySubscriberNodeMaxQuality_fresh_engine
    (E : VideoQualityEnum) (track : TrackID) (telemetry : bool)
    (nodeID : NodeID) (quality : VideoQuality) :
  NotifySubscriberNodeMaxQuality nodeID quality
    (NewMediaTrackSubscriptions
       {| MediaTrack_Kind := TrackType_VIDEO; MediaTrack_ID := track;
          Telemetry := telemetry |}) =
    if bool_decide (quality = VideoQuality_OFF)
    then Returned tt
           (NewMediaTrackSubscriptions
              {| MediaTrack_Kind := TrackType_VIDEO; MediaTrack_ID := track;
                 Telemetry := telemetry |}) []
    else Panicked.
Proof. by apply NotifySubscriberNodeMaxQuality_nil_map. Qed.

(* ===================================================================== *)
(** ** The statements on the sample tracks *)
(* ===================================================================== *)

Lemma holds_layers_check `{E : VideoQualityEnum} `{Countable K} (m : GoMap K Z) :
  all_layers (range_values m) = true → holds_layers m.
Proof.
  intros Hall k q Hq. apply is_layer_range.
  unfold all_layers in Hall. rewrite forallb_forall in Hall.
  assert (Hin : q ∈ range_values m) by (apply elem_of_range_values; by exists k).
  apply list_elem_of_In, Hall in Hin. lia.
Qed.

Lemma updateQualityChange_publishes_maximum_witness :
  Kind two_subscribers = TrackType_VIDEO ∧
  ∃ top,
    @Quality_maximum off_last (desired_qualities two_subscribers) top ∧
    @updateQualityChange_in_order off_last [1; 0] [] two_subscribers =
      Returned tt (set_maxSubscribedQuality top two_subscribers)
        (if bool_decide (top = maxSubscribedQuality two_subscribers) then []
         else match onSubscribedMaxQualityChange two_subscribers with
              | Some f =>
                  [call_onSubscribedMaxQualityChange f (@descriptor_of off_last top) top]
              | None => []
              end) ∧
    @updateQualityChange off_last two_subscribers =
    @updateQualityChange_in_order off_last [1; 0] [] two_subscribers.
Proof.
  split; [reflexivity|].
  apply (@updateQualityChange_publishes_maximum off_last two_subscribers [1; 0] []).
  - reflexivity.
  - apply holds_layers_check. vm_compute. reflexivity.
  - apply holds_layers_check. vm_compute. reflexivity.
  - change (range_values (maxSubscriberQuality two_subscribers)) with [0; 1].
    apply perm_swap.
  - reflexivity.
Defined.

Lemma upcall_descriptor_shape_witness :
  Kind two_subscribers = TrackType_VIDEO ∧
  ∃ t' log,
    @updateQualityChange_in_order off_last [1; 0] [] two_subscribers = Returned tt t' log ∧
    (∀ f descr top, call_onSubscribedMaxQualityChange f descr top ∈ log →
       top = maxSubscribedQuality t' ∧
       if bool_decide (top = @VideoQuality_OFF off_last) then
         descr = [ {| Quality := 0; Enabled := false |};
                   {| Quality := 1; Enabled := false |};
                   {| Quality := 2; Enabled := false |} ]
       else
         descr = [ {| Quality := 0; Enabled := @Quality_leb off_last 0 top |};
                   {| Quality := 1; Enabled := @Quality_leb off_last 1 top |};
                   {| Quality := 2; Enabled := @Quality_leb off_last 2 top |} ]) ∧
    (∀ f, onSubscribedMaxQualityChange two_subscribers = Some f →
       maxSubscribedQuality t' ≠ maxSubscribedQuality two_subscribers →
       ∃ descr, log = [call_onSubscribedMaxQualityChange f descr (maxSubscribedQuality t')]).
Proof.
  split; [reflexivity|].
  apply (@upcall_descriptor_shape off_last two_subscribers [1; 0] []).
  - reflexivity.
  - apply holds_layers_check. vm_compute. reflexivity.
  - apply holds_layers_check. vm_compute. reflexivity.
  - change (range_values (maxSubscriberQuality two_subscribers)) with [0; 1].
    apply perm_swap.
  - reflexivity.
Defined.

Lemma NotifySubscriberMaxQuality_cases_witness :
  Kind two_subscribers = TrackType_VIDEO ∧
  maxSubscriberQuality two_subscribers = make_map low_and_medium ∧
  (* alice moves from LOW to HIGH: the entry is set and the max recomputed *)
  @NotifySubscriberMaxQuality off_last "alice" 2 two_subscribers =
    @updateQualityChange off_last
      (set_maxSubscriberQuality (make_map (<["alice" := 2]> low_and_medium)) two_subscribers) ∧
  (* bob repeats MEDIUM: nothing happens *)
  @NotifySubscriberMaxQuality off_last "bob" 1 two_subscribers =
    Returned tt two_subscribers [] ∧
  (* carol, who has no entry, retracts: nothing happens *)
  @NotifySubscriberMaxQuality off_last "carol" 3 two_subscribers =
    Returned tt two_subscribers [] ∧
  (* bob retracts: the entry is deleted and the max recomputed *)
  @NotifySubscriberMaxQuality off_last "bob" 3 two_subscribers =
    @updateQualityChange off_last
      (set_maxSubscriberQuality (make_map (delete "bob" low_and_medium)) two_subscribers).
Proof.
  assert (Hk : Kind two_subscribers = TrackType_VIDEO) by reflexivity.
  assert (Hm : maxSubscriberQuality two_subscribers = make_map low_and_medium) by reflexivity.
  split; [exact Hk|]. split; [exact Hm|].
  split; [|split; [|split]].
  - pose proof (@NotifySubscriberMaxQuality_cases off_last two_subscribers "alice" 2 low_and_medium
                  Hk Hm)
      as (_ & _ & _ & Hset & _).
    apply Hset; vm_compute; discriminate.
  - pose proof (@NotifySubscriberMaxQuality_cases off_last two_subscribers "bob" 1 low_and_medium
                  Hk Hm)
      as (_ & _ & Hsame & _).
    apply Hsame; [vm_compute; discriminate | vm_compute; reflexivity].
  - pose proof (@NotifySubscriberMaxQuality_cases off_last two_subscribers "carol" 3 low_and_medium
                  Hk Hm)
      as (Hnone & _).
    apply Hnone; [reflexivity | vm_compute; reflexivity].
  - pose proof (@NotifySubscriberMaxQuality_cases off_last two_subscribers "bob" 3 low_and_medium
                  Hk Hm)
      as (_ & Hdel & _).
    apply Hdel; [reflexivity | exists 1; vm_compute; reflexivity].
Defined.

(** The close handler of alice, whose peer connection is closed, on the
    track she alone subscribes to with HIGH: it returns after the telemetry
    call; alice is gone from the registry, yet her entry HIGH is still in
    the per-subscriber map, the current max is still HIGH and no upcall is
    made.  [NotifySubscriberMaxQuality "alice" OFF] has not run. *)
Lemma OnCloseHandler_closed_connection_keeps_entry :
  @OnCloseHandler off_last (alice true) (Some 5%nat) lone_subscriber =
    Returned tt (set_subscribedTracks ∅ lone_subscriber)
      [Telemetry_TrackUnsubscribed "alice" "TR_camera"] ∧
  IsSubscriber "alice" (set_subscribedTracks ∅ lone_subscriber) = false ∧
  map_index (maxSubscriberQuality (set_subscribedTracks ∅ lone_subscriber)) "alice"
    = Some (@VideoQuality_HIGH off_last) ∧
  maxSubscribedQuality (set_subscribedTracks ∅ lone_subscriber) = @VideoQuality_HIGH off_last ∧
  @NotifySubscriberMaxQuality off_last "alice" (@VideoQuality_OFF off_last)
     (set_subscribedTracks ∅ lone_subscriber) ≠
    Returned tt (set_subscribedTracks ∅ lone_subscriber) [].
Proof.
  split; [vm_compute; reflexivity|].
  split; [vm_compute; reflexivity|].
  split; [vm_compute; reflexivity|].
  split; [reflexivity|].
  vm_compute. discriminate.
Qed.

Lemma OnCloseHandler_retracts_unless_disconnected_witness :
  Kind lone_subscriber = TrackType_VIDEO ∧
  returns_before_retraction (alice false) (Some 5%nat) = false ∧
  is_Some (map_index (maxSubscriberQuality lone_subscriber) "alice") ∧
  ∃ t' log log2,
    @OnCloseHandler off_last (alice false) (Some 5%nat) lone_subscriber =
      Returned tt t' log ∧
    @NotifySubscriberMaxQuality off_last "alice" (@VideoQuality_OFF off_last)
      (set_subscribedTracks (delete "alice" (subscribedTracks lone_subscriber))
         lone_subscriber) = Returned tt t' log2 ∧
    log =
      [ Telemetry_TrackUnsubscribed "alice" "TR_camera";
        Debugw "removing peerconnection track"; RemoveTrack "alice" 5 ] ++
      log2 ++ [RemoveSubscribedTrack "alice"; Negotiate "alice"] ∧
    subscribedTracks t' = delete "alice" (subscribedTracks lone_subscriber) ∧
    map_index (maxSubscriberQuality t') "alice" = None ∧
    @Quality_maximum off_last (desired_qualities t') (maxSubscribedQuality t').
Proof.
  assert (Hentry : is_Some (map_index (maxSubscriberQuality lone_subscriber) "alice"))
    by (exists 2; vm_compute; reflexivity).
  split; [reflexivity|]. split; [reflexivity|]. split; [exact Hentry|].
  destruct (@OnCloseHandler_retracts_unless_disconnected off_last lone_subscriber
              (alice false) (Some 5%nat))
    as (t' & log & Hrun & Hreg & _ & Hrest).
  - reflexivity.
  - apply holds_layers_check. vm_compute. reflexivity.
  - apply holds_layers_check. vm_compute. reflexivity.
  - change (returns_before_retraction (alice false) (Some 5%nat)) with false in Hrest.
    cbv iota in Hrest.
    destruct Hrest as ((log2 & Hnotify & Hlog) & Hgone & _ & _ & Hmax & _).
    exists t', log, log2.
    split; [exact Hrun|]. split; [exact Hnotify|]. split; [exact Hlog|].
    split; [exact Hreg|]. split; [exact Hgone|]. exact (proj1 (Hmax Hentry)).
Defined.



Lemma RevokeDisallowedSubscribers_exact_witness :
  bob_then_alice ≡ₚ map_to_list (subscribedTracks two_subscribers) ∧
  ∃ revoked log,
    RevokeDisallowedSubscribers_in_order bob_then_alice ["alice"; "dave"] two_subscribers =
      Returned revoked two_subscribers log ∧
    NoDup revoked ∧
    (∀ subID, subID ∈ revoked ↔
       is_Some (subscribedTracks two_subscribers !! subID) ∧ subID ∉ ["alice"; "dave"]) ∧
    Forall2 (λ subID e, ∃ subTrack,
               subscribedTracks two_subscribers !! subID = Some subTrack ∧
               e = go_DownTrack_Close subID (st_DownTrack subTrack)) revoked log ∧
    (bob_then_alice = map_to_list (subscribedTracks two_subscribers) →
       RevokeDisallowedSubscribers ["alice"; "dave"] two_subscribers =
       Returned revoked two_subscribers log).
Proof.
  assert (Hp : bob_then_alice ≡ₚ map_to_list (subscribedTracks two_subscribers)).
  { change (map_to_list (subscribedTracks two_subscribers))
      with [("alice", track_of "alice" 11); ("bob", track_of "bob" 12)].
    apply perm_swap. }
  split; [exact Hp|].
  exact (RevokeDisallowedSubscribers_exact two_subscribers bob_then_alice ["alice"; "dave"] Hp).
Defined.

Lemma binding_reports_burst_witness :
  (7 ≤ 7)%nat ∧
  subscribedTracks two_subscribers !! "alice" = Some (track_of "alice" 11) ∧
  sendDownTrackBindingReports (alice false) (λ _, Some [42%nat]) 7 two_subscribers =
    Returned true two_subscribers
      [ WriteRTCP "alice" [42%nat] 0; Sleep 20;
        WriteRTCP "alice" [42%nat] 20; Sleep 20;
        WriteRTCP "alice" [42%nat] 40; Sleep 20;
        WriteRTCP "alice" [42%nat] 60; Sleep 20;
        WriteRTCP "alice" [42%nat] 80; Sleep 20;
        WriteRTCP "alice" [42%nat] 100; Sleep 20;
        WriteRTCP "alice" [42%nat] 120 ].
Proof.
  assert (Hfuel : (7 ≤ 7)%nat) by lia.
  assert (Hst : subscribedTracks two_subscribers !! "alice" = Some (track_of "alice" 11))
    by (vm_compute; reflexivity).
  split; [exact Hfuel|]. split; [exact Hst|].
  apply (binding_reports_burst two_subscribers (alice false) (λ _, Some [42%nat]) 7 Hfuel)
    with (subTrack := track_of "alice" 11).
  - exact Hst.
  - reflexivity.
  - intros j _. reflexivity.
Defined.

Lemma AddSubscriber_already_subscribed_witness :
  is_Some (subscribedTracks two_subscribers !! "alice") ∧
  @AddSubscriber (alice false) (inr 21%nat) false two_subscribers =
    Returned (None, None) two_subscribers [].
Proof.
  assert (Hin : is_Some (subscribedTracks two_subscribers !! "alice"))
    by (exists (track_of "alice" 11); vm_compute; reflexivity).
  split; [exact Hin|].
  exact (AddSubscriber_already_subscribed two_subscribers (alice false) (inr 21%nat) false Hin).
Defined.

Lemma AddSubscriber_errors_leave_registry_witness :
  subscribedTracks two_subscribers !! "carol" = None ∧
  AddSubscriber carol (inr 21%nat) false two_subscribers =
    Returned (None, Some (collaborator_error 1)) two_subscribers [] ∧
  IsSubscriber "carol" two_subscribers = false.
Proof.
  assert (Hnone : subscribedTracks two_subscribers !! "carol" = None)
    by (vm_compute; reflexivity).
  split; [exact Hnone|].
  pose proof (AddSubscriber_errors_leave_registry two_subscribers carol (inr 21%nat) false Hnone)
    as (_ & Hadd & _ & _ & _ & Hconv & _).
  assert (Hrun : AddSubscriber carol (inr 21%nat) false two_subscribers =
                 Returned (None, Some (collaborator_error 1)) two_subscribers [])
    by (by apply (Hadd 21%nat)).
  split; [exact Hrun|].
  by apply (Hconv None (collaborator_error 1) two_subscribers []).
Defined.

(* ===================================================================== *)
(** ** Scenarios *)
(* ===================================================================== *)

(** alice asks for LOW, then bob for MEDIUM: the current max ends at MEDIUM
    and the last upcall enables LOW and MEDIUM, in either numbering. *)
Example low_then_medium :
  last (log_of (@run_calls off_last
                  [notify_subscriber "alice" 0; notify_subscriber "bob" 1] fresh_video_track))
    = Some (call_onSubscribedMaxQualityChange 1
              [ {| Quality := 0; Enabled := true |};
                {| Quality := 1; Enabled := true |};
                {| Quality := 2; Enabled := false |} ] 1) ∧
  last (log_of (@run_calls off_first
                  [notify_subscriber "alice" 1; notify_subscriber "bob" 2] fresh_video_track))
    = Some (call_onSubscribedMaxQualityChange 1
              [ {| Quality := 1; Enabled := true |};
                {| Quality := 2; Enabled := true |};
                {| Quality := 3; Enabled := false |} ] 2).
Proof. split; vm_compute; reflexivity. Qed.

(** alice asks for HIGH and then retracts: the last upcall disables the
    three layers and passes OFF. *)
Example high_then_off :
  last (log_of (@run_calls off_last
                  [notify_subscriber "alice" 2; notify_subscriber "alice" 3] fresh_video_track))
    = Some (call_onSubscribedMaxQualityChange 1
              [ {| Quality := 0; Enabled := false |};
                {| Quality := 1; Enabled := false |};
                {| Quality := 2; Enabled := false |} ] 3) ∧
  state_after (@run_calls off_last
                 [notify_subscriber "alice" 2; notify_subscriber "alice" 3] fresh_video_track)
    = Some (set_maxSubscribedQuality 3 fresh_video_track).
Proof. split; vm_compute; reflexivity. Qed.

(* ===================================================================== *)
(** ** Logs *)
(* ===================================================================== *)

Lemma upcall_maxima_app log1 log2 :
  upcall_maxima (log1 ++ log2) = upcall_maxima log1 ++ upcall_maxima log2.
Proof.
  induction log1 as [|e rest IH]; [done|]. destruct e; simpl; by rewrite ?IH.
Qed.

Lemma elem_of_upcall_maxima log q :
  q ∈ upcall_maxima log ↔ ∃ f descr, call_onSubscribedMaxQualityChange f descr q ∈ log.
Proof.
  induction log as [|e rest IH]; simpl.
  - split; [intros Hq; by apply elem_of_nil in Hq|].
    intros (f & d & Hin). by apply elem_of_nil in Hin.
  - destruct e as [f0 d0 q0| | | | | | | | | | | | | |]; simpl;
      try (rewrite IH; split; intros (f & d & Hin); exists f, d;
           [by right | by apply elem_of_cons in Hin as [?|?]]).
    rewrite elem_of_cons, IH. split.
    + intros [->|(f & d & Hin)]; [exists f0, d0; by left | exists f, d; by right].
    + intros (f & d & Hin). apply elem_of_cons in Hin as [[= -> -> ->]|Hin]; [by left|].
      right. by exists f, d.
Qed.

(* ===================================================================== *)
(** ** More on the registry *)
(* ===================================================================== *)

Section RegistryRuns.
Context `{E : VideoQualityEnum}.

Lemma set_subscribedTracks_same t :
  set_subscribedTracks (subscribedTracks t) t = t.
Proof. by destruct t. Qed.

Lemma AddSubscriber_success t sub downTrack IsMuted s :
  subscribedTracks t !! ID sub = None →
  attached_sender sub = Some s →
  AddSubscriber sub (inr downTrack) IsMuted t =
    Returned (Some downTrack, None)
      (set_subscribedTracks
         (<[ID sub := stored_track (ID sub) downTrack IsMuted]> (subscribedTracks t)) t)
      ([ RegisterHooks (ID sub) downTrack s;
         SetPublisherMuted (ID sub) IsMuted;
         go_initial_quality (ID sub) ] ++ subscribed_telemetry t (ID sub)).
Proof.
  intros Hnone Hs. unfold AddSubscriber. rewrite bind_receiver, Hnone.
  assert (Hstore : ∀ s',
    s' = s →
    (emit (RegisterHooks (ID sub) downTrack s') ;;;
     update (λ t0, set_subscribedTracks
        (<[ID sub := {| SubscriberID := ID sub; st_DownTrack := downTrack;
                        pubMuted := false |}]> (subscribedTracks t0)) t0) ;;;
     update (λ t0, set_subscribedTracks
        (alter (set_pubMuted IsMuted) (ID sub) (subscribedTracks t0)) t0) ;;;
     emit (SetPublisherMuted (ID sub) IsMuted) ;;;
     emit (go_initial_quality (ID sub)) ;;;
     when (Telemetry (params t))
       (emit (Telemetry_TrackSubscribed (ID sub) (MediaTrack_ID (params t)))) ;;;
     ret ((Some downTrack, None) : option DownTrack * option error)) t =
    Returned (Some downTrack, None)
      (set_subscribedTracks
         (<[ID sub := stored_track (ID sub) downTrack IsMuted]> (subscribedTracks t)) t)
      ([ RegisterHooks (ID sub) downTrack s;
         SetPublisherMuted (ID sub) IsMuted;
         go_initial_quality (ID sub) ] ++ subscribed_telemetry t (ID sub))).
  { intros s' ->. unfold bind, ret, emit, update, when, subscribed_telemetry.
    unfold set_subscribedTracks. simpl. rewrite alter_insert_eq.
    by destruct (Telemetry (params t)). }
  unfold attached_sender in Hs.
  destruct (SupportsTransceiverReuse sub).
  - destruct (AddTrack sub) as [e|[s'|]]; [done| |done].
    destruct (find_transceiver (GetTransceivers sub) (Some s')); [|done].
    injection Hs as ->. by apply Hstore.
  - destruct (AddTransceiverFromTrack sub) as [e|tr]; [done|].
    rewrite Hs. by apply Hstore.
Qed.

(** X1.  For a subscriber that is not in the registry, when the forwarder
    is built and attached with a sender, [AddSubscriber] returns the
    forwarder and no error; it has registered the hooks, stored the track
    under the subscriber's id with the publisher's mute state, started the
    goroutine of the initial quality and, with telemetry, reported the
    subscription, in this order.  The subscriber is then a subscriber, the
    other entries of the registry are as before, and the desired-quality
    maps and the current max are not touched by the call itself. *)
Theorem AddSubscriber_accepts t sub downTrack IsMuted s :
  subscribedTracks t !! ID sub = None →
  attached_sender sub = Some s →
  ∃ t',
    AddSubscriber sub (inr downTrack) IsMuted t =
      Returned (Some downTrack, None) t'
        ([ RegisterHooks (ID sub) downTrack s;
           SetPublisherMuted (ID sub) IsMuted;
           go_initial_quality (ID sub) ] ++ subscribed_telemetry t (ID sub)) ∧
    subscribedTracks t' !! ID sub = Some (stored_track (ID sub) downTrack IsMuted) ∧
    IsSubscriber (ID sub) t' = true ∧
    (∀ k, k ≠ ID sub → subscribedTracks t' !! k = subscribedTracks t !! k) ∧
    maxSubscriberQuality t' = maxSubscriberQuality t ∧
    maxSubscriberNodeQuality t' = maxSubscriberNodeQuality t ∧
    maxSubscribedQuality t' = maxSubscribedQuality t.
Proof.
  intros Hnone Hs. eexists. split; [by apply AddSubscriber_success|]. simpl.
  split; [by rewrite lookup_insert_eq|]. split; [|split; [|done]].
  - unfold IsSubscriber. simpl. apply bool_decide_eq_true_2.
    rewrite lookup_insert_eq. by eexists.
  - intros k Hk. by rewrite lookup_insert_ne.
Qed.

(** X2.  After an accepted [AddSubscriber], a second [AddSubscriber] for
    the same subscriber, whatever its collaborators answer, returns a nil
    forwarder and a nil error and changes nothing: the track stored first
    stays. *)
Theorem AddSubscriber_twice t sub downTrack IsMuted t1 log1 NewDownTrack' IsMuted' :
  subscribedTracks t !! ID sub = None →
  AddSubscriber sub (inr downTrack) IsMuted t = Returned (Some downTrack, None) t1 log1 →
  AddSubscriber sub NewDownTrack' IsMuted' t1 = Returned (None, None) t1 [] ∧
  subscribedTracks t1 !! ID sub = Some (stored_track (ID sub) downTrack IsMuted).
Proof.
  intros Hnone Hrun.
  destruct (attached_sender sub) as [s|] eqn:Hs.
  - rewrite (AddSubscriber_success t sub downTrack IsMuted s Hnone Hs) in Hrun.
    injection Hrun as <- <-.
    assert (Hst : subscribedTracks
              (set_subscribedTracks
                 (<[ID sub := stored_track (ID sub) downTrack IsMuted]> (subscribedTracks t)) t)
              !! ID sub = Some (stored_track (ID sub) downTrack IsMuted))
      by (simpl; by rewrite lookup_insert_eq).
    split; [|done]. unfold AddSubscriber. rewrite bind_receiver. by rewrite Hst.
  - exfalso. revert Hrun. unfold AddSubscriber. rewrite bind_receiver, Hnone.
    unfold attached_sender in Hs.
    destruct (SupportsTransceiverReuse sub).
    + destruct (AddTrack sub) as [e|[s'|]]; [done| |].
      * destruct (find_transceiver (GetTransceivers sub) (Some s')); done.
      * destruct (find_transceiver (GetTransceivers sub) None); done.
    + destruct (AddTransceiverFromTrack sub) as [e|tr]; [done|].
      by rewrite Hs.
Qed.
End RegistryRuns.

(* ===================================================================== *)
(** ** More on the aggregator *)
(* ===================================================================== *)

Section AggregatorRuns.
Context `{E : VideoQualityEnum}.

Lemma NotifySubscriberMaxQuality_not_video t subscriberID quality :
  Kind t ≠ TrackType_VIDEO →
  NotifySubscriberMaxQuality subscriberID quality t = Returned tt t [].
Proof.
  intros Hk. unfold NotifySubscriberMaxQuality. rewrite bind_receiver.
  by rewrite bool_decide_eq_false_2.
Qed.

Lemma map_assign_allocated `{Countable K} (m : GoMap K Z) k q :
  m ≠ nil_map → ∃ g, m = make_map g ∧ map_assign m k q = Some (make_map (<[k:=q]> g)).
Proof. destruct m as [|g]; [done|]. intros _. by exists g. Qed.

(** X3.  With the per-subscriber map allocated, a notification that is
    repeated does nothing the second time: after
    [NotifySubscriberMaxQuality subscriberID quality] has returned, the same
    call returns the same state and makes no call, whatever the quality. *)
Theorem NotifySubscriberMaxQuality_repeated t subscriberID quality :
  maxSubscriberQuality t ≠ nil_map →
  ∃ t1 log1,
    NotifySubscriberMaxQuality subscriberID quality t = Returned tt t1 log1 ∧
    NotifySubscriberMaxQuality subscriberID quality t1 = Returned tt t1 [].
Proof.
  intros Halloc.
  destruct (decide (Kind t = TrackType_VIDEO)) as [Hk|Hk].
  2:{ exists t, []. by rewrite NotifySubscriberMaxQuality_not_video. }
  destruct (decide (quality = VideoQuality_OFF)) as [->|Hq].
  - rewrite NotifySubscriberMaxQuality_OFF by done.
    destruct (map_index (maxSubscriberQuality t) subscriberID) eqn:Hentry.
    + destruct (updateQualityChange_returns
                  (set_maxSubscriberQuality
                     (map_delete (maxSubscriberQuality t) subscriberID) t))
        as (top & log & -> & _).
      eexists _, _. split; [done|].
      rewrite NotifySubscriberMaxQuality_OFF by done. simpl.
      by rewrite map_index_delete, decide_True.
    + exists t, []. split; [done|].
      rewrite NotifySubscriberMaxQuality_OFF by done. by rewrite Hentry.
  - rewrite NotifySubscriberMaxQuality_store by done.
    case_bool_decide as Hentry.
    + exists t, []. split; [done|].
      rewrite NotifySubscriberMaxQuality_store by done.
      by rewrite bool_decide_eq_true_2.
    + destruct (map_assign_allocated (maxSubscriberQuality t) subscriberID quality Halloc)
        as (g & Hg & Hassign).
      rewrite Hassign.
      destruct (updateQualityChange_returns
                  (set_maxSubscriberQuality (make_map (<[subscriberID:=quality]> g)) t))
        as (top & log & -> & _).
      eexists _, _. split; [done|].
      rewrite NotifySubscriberMaxQuality_store by done. simpl.
      rewrite bool_decide_eq_true_2; [done|].
      unfold map_index. simpl. by rewrite lookup_insert_eq.
Qed.

(** X4.  On a video track whose maps store layers only, when a subscriber
    without an entry asks for a layer and then retracts, both calls return,
    the per-subscriber map is what it was before the two calls, and the
    current max is the maximum of the values the maps held before them. *)
Theorem notify_then_retract t subscriberID quality :
  Kind t = TrackType_VIDEO →
  aggregator_invariant t →
  map_index (maxSubscriberQuality t) subscriberID = None →
  is_layer quality →
  ∃ t2 log,
    (NotifySubscriberMaxQuality subscriberID quality ;;;
     NotifySubscriberMaxQuality subscriberID VideoQuality_OFF) t = Returned tt t2 log ∧
    maxSubscriberQuality t2 = maxSubscriberQuality t ∧
    maxSubscriberNodeQuality t2 = maxSubscriberNodeQuality t ∧
    Quality_maximum (desired_qualities t) (maxSubscribedQuality t2).
Proof.
  intros Hk (Halloc & Hs & Hn) Hnone Hq.
  destruct (map_assign_allocated (maxSubscriberQuality t) subscriberID quality Halloc)
    as (g & Hg & Hassign).
  unfold bind.
  rewrite NotifySubscriberMaxQuality_store by (done || by apply is_layer_not_OFF).
  rewrite Hnone, bool_decide_eq_false_2 by done. rewrite Hassign.
  destruct (updateQualityChange_returns
              (set_maxSubscriberQuality (make_map (<[subscriberID:=quality]> g)) t))
    as (top1 & log1 & -> & _).
  rewrite NotifySubscriberMaxQuality_OFF by done. simpl.
  unfold map_index at 1. simpl. rewrite lookup_insert_eq.
  rewrite delete_insert_eq.
  assert (Hback : delete subscriberID g = g).
  { apply delete_id. unfold map_index in Hnone. by rewrite Hg in Hnone. }
  rewrite Hback.
  set (t1 := set_maxSubscriberQuality (make_map g)
               (set_maxSubscribedQuality top1
                  (set_maxSubscriberQuality (make_map (<[subscriberID:=quality]> g)) t))).
  destruct (updateQualityChange_maximum t1) as (top & log2 & -> & Hmax & _).
  - done.
  - simpl. by rewrite <- Hg.
  - done.
  - eexists _, _. split; [done|]. simpl. split; [done|]. split; [done|].
    unfold desired_qualities in *. simpl in Hmax. by rewrite Hg.
Qed.

Lemma Quality_maximum_HIGH vals top :
  (∀ v, v ∈ vals → is_layer v) → VideoQuality_HIGH ∈ vals →
  Quality_maximum vals top → top = VideoQuality_HIGH.
Proof.
  intros Hall Hin (Hub & _ & Hmem).
  assert (Htop : is_layer top).
  { apply Hall, Hmem. intros ->. by apply elem_of_nil in Hin. }
  specialize (Hub _ Hin). unfold Quality_le in Hub.
  rewrite !Quality_rank_layer in Hub by (done || unfold is_layer; auto).
  apply is_layer_range in Htop. lia.
Qed.

(** X5.  On a video track whose maps store layers only, the goroutine that
    [AddSubscriber] starts returns; the subscriber's entry is then HIGH, the
    goroutine has told the subscriber of the track and asked for a
    negotiation, in this order and after any upcall, and an upcall, if one is
    made, passes HIGH.  Unless the entry was HIGH already, the current max is
    HIGH afterwards, whatever the other subscribers ask for. *)
Theorem initial_quality_goroutine_publishes_HIGH t subscriberID :
  Kind t = TrackType_VIDEO →
  aggregator_invariant t →
  ∃ t' log,
    initial_quality_goroutine subscriberID t =
      Returned tt t' (log ++ [AddSubscribedTrack subscriberID; Negotiate subscriberID]) ∧
    map_index (maxSubscriberQuality t') subscriberID = Some VideoQuality_HIGH ∧
    (∀ q, q ∈ upcall_maxima log → q = VideoQuality_HIGH) ∧
    (map_index (maxSubscriberQuality t) subscriberID ≠ Some VideoQuality_HIGH →
       maxSubscribedQuality t' = VideoQuality_HIGH) ∧
    subscribedTracks t' = subscribedTracks t.
Proof.
  intros Hk (Halloc & Hs & Hn).
  assert (Hhigh : is_layer VideoQuality_HIGH) by (unfold is_layer; auto).
  unfold initial_quality_goroutine, bind.
  rewrite NotifySubscriberMaxQuality_store by (done || by apply is_layer_not_OFF).
  case_bool_decide as Hentry.
  - exists t, []. unfold emit. simpl. split; [done|]. split; [done|].
    split; [|done]. intros q Hq. by apply elem_of_nil in Hq.
  - destruct (map_assign_allocated (maxSubscriberQuality t) subscriberID VideoQuality_HIGH
                Halloc) as (g & Hg & Hassign).
    rewrite Hassign.
    set (t1 := set_maxSubscriberQuality (make_map (<[subscriberID:=VideoQuality_HIGH]> g)) t).
    assert (Hs1 : holds_layers (maxSubscriberQuality t1)).
    { apply (holds_layers_assign (maxSubscriberQuality t) _ subscriberID VideoQuality_HIGH);
        done. }
    destruct (updateQualityChange_maximum t1 Hk Hs1 Hn) as (top & log & -> & Hmax & Hcalls).
    assert (Htop : top = VideoQuality_HIGH).
    { apply (Quality_maximum_HIGH (desired_qualities t1)); [| |done].
      - intros v Hv. apply elem_of_app in Hv as [Hv|Hv].
        + by apply (holds_layers_range (maxSubscriberQuality t1) _ Hs1 (reflexivity _)).
        + by apply (holds_layers_range (maxSubscriberNodeQuality t1) _ Hn (reflexivity _)).
      - apply elem_of_app. left. apply elem_of_range_values. exists subscriberID.
        unfold map_index. simpl. by rewrite lookup_insert_eq. }
    exists (set_maxSubscribedQuality top t1), log. unfold emit. simpl.
    split; [done|]. split; [|split; [|split; [done|done]]].
    + unfold map_index. simpl. by rewrite lookup_insert_eq.
    + intros q Hq. apply elem_of_upcall_maxima in Hq as (f & d & Hin).
      rewrite <- Htop. by apply (Hcalls f d).
Qed.

(** X6.  On a video track whose maps store layers only,
    [startMaxQualityTimer] arms a timer of ten seconds; when the timer
    fires, its slot is cleared, the maps are as before and the current max
    is the maximum of their values.  [stopMaxQualityTimer] alone clears the
    slot and changes nothing else, armed or not. *)
Theorem maxQualityTimer_cycle t :
  Kind t = TrackType_VIDEO →
  holds_layers (maxSubscriberQuality t) →
  holds_layers (maxSubscriberNodeQuality t) →
  startMaxQualityTimer t = Returned tt (set_maxQualityTimer (Some 10000) t) [] ∧
  (∃ top log,
     (startMaxQualityTimer ;;; maxQualityTimer_fired) t =
       Returned tt (set_maxSubscribedQuality top (set_maxQualityTimer None t)) log ∧
     Quality_maximum (desired_qualities t) top) ∧
  (startMaxQualityTimer ;;; stopMaxQualityTimer) t = Returned tt (set_maxQualityTimer None t) [] ∧
  stopMaxQualityTimer (set_maxQualityTimer None t) = Returned tt (set_maxQualityTimer None t) [].
Proof.
  intros Hk Hs Hn.
  assert (Hstart : startMaxQualityTimer t = Returned tt (set_maxQualityTimer (Some 10000) t) []).
  { unfold startMaxQualityTimer. rewrite bind_receiver.
    by rewrite Hk, bool_decide_eq_true_2. }
  assert (Hstop : stopMaxQualityTimer (set_maxQualityTimer (Some 10000) t) =
                  Returned tt (set_maxQualityTimer None t) []).
  { unfold stopMaxQualityTimer. by rewrite bind_receiver. }
  split; [done|]. split; [|split].
  - destruct (updateQualityChange_maximum (set_maxQualityTimer None t) Hk Hs Hn)
      as (top & log & Hrun & Hmax & _).
    exists top, log. split; [|done].
    unfold bind, maxQualityTimer_fired, bind. by rewrite Hstart, Hstop, Hrun.
  - unfold bind. by rewrite Hstart, Hstop.
  - unfold stopMaxQualityTimer. by rewrite bind_receiver.
Qed.
End AggregatorRuns.

(* ===================================================================== *)
(** ** Closing, muting and revoking *)
(* ===================================================================== *)

Section ClosingRuns.
Context `{E : VideoQualityEnum}.

(** The retraction never panics; it keeps the registry and the parameters
    and leaves no entry for the subscriber on a video track. *)
Lemma NotifySubscriberMaxQuality_OFF_effect t subscriberID :
  ∃ t2 log2,
    NotifySubscriberMaxQuality subscriberID VideoQuality_OFF t = Returned tt t2 log2 ∧
    subscribedTracks t2 = subscribedTracks t ∧
    params t2 = params t ∧
    (Kind t = TrackType_VIDEO → map_index (maxSubscriberQuality t2) subscriberID = None).
Proof.
  destruct (decide (Kind t = TrackType_VIDEO)) as [Hk|Hk].
  - rewrite NotifySubscriberMaxQuality_OFF by done.
    destruct (map_index (maxSubscriberQuality t) subscriberID) eqn:Hentry.
    + destruct (updateQualityChange_returns
                  (set_maxSubscriberQuality
                     (map_delete (maxSubscriberQuality t) subscriberID) t))
        as (top & log & -> & _).
      eexists _, _. split; [done|]. simpl. split; [done|]. split; [done|].
      intros _. by rewrite map_index_delete, decide_True.
    + by exists t, [].
  - rewrite NotifySubscriberMaxQuality_not_video by done. by exists t, [].
Qed.

Lemma NotifySubscriberMaxQuality_OFF_absent t subscriberID :
  (Kind t = TrackType_VIDEO → map_index (maxSubscriberQuality t) subscriberID = None) →
  NotifySubscriberMaxQuality subscriberID VideoQuality_OFF t = Returned tt t [].
Proof.
  intros Habsent. destruct (decide (Kind t = TrackType_VIDEO)) as [Hk|Hk].
  - rewrite NotifySubscriberMaxQuality_OFF by done. by rewrite Habsent.
  - by apply NotifySubscriberMaxQuality_not_video.
Qed.

(** The close handler returns; it either stops before the retraction, on
    the state with the subscriber deleted from the registry, or ends on the
    state the retraction leaves, and its upcalls are those of the
    retraction. *)
Lemma OnCloseHandler_outcome t sub sender :
  ∃ t2 log2 log,
    NotifySubscriberMaxQuality (ID sub) VideoQuality_OFF
      (set_subscribedTracks (delete (ID sub) (subscribedTracks t)) t) = Returned tt t2 log2 ∧
    OnCloseHandler sub sender t =
      Returned tt
        (if returns_before_retraction sub sender
         then set_subscribedTracks (delete (ID sub) (subscribedTracks t)) t else t2) log ∧
    upcall_maxima log =
      (if returns_before_retraction sub sender then [] else upcall_maxima log2).
Proof.
  set (t1 := set_subscribedTracks (delete (ID sub) (subscribedTracks t)) t).
  destruct (NotifySubscriberMaxQuality_OFF_effect t1 (ID sub)) as (t2 & log2 & Hrun & _).
  exists t2, log2.
  unfold OnCloseHandler, returns_before_retraction. rewrite bind_update. fold t1.
  destruct (ConnectionState_is_closed sub) eqn:Hclosed.
  { unfold bind, ret, receiver, emit, when. simpl.
    destruct (Telemetry (params t)); simpl; by eexists. }
  destruct sender as [s|].
  2:{ unfold bind, ret, receiver, emit, when. simpl.
      destruct (Telemetry (params t)); simpl; by eexists. }
  destruct (RemoveTrack_result sub) as [[| |]|] eqn:Hremove; simpl;
    unfold bind, ret, receiver, emit, when; simpl;
    destruct (Telemetry (params t)); simpl; fold t1; rewrite ?Hrun; simpl;
    (eexists; split; [done|]; split; [done|]);
    simpl; rewrite ?upcall_maxima_app; simpl; by rewrite ?app_nil_r.
Qed.

(** X7.  The close handler can run twice.  Whatever the track and the
    collaborators' answers, after a first run has returned, a second run
    with the same answers returns the state the first one left and calls the
    upcall for nothing: the registry delete and the retraction find nothing
    to do. *)
Theorem OnCloseHandler_twice t sub sender :
  ∃ t1 log1 log2,
    OnCloseHandler sub sender t = Returned tt t1 log1 ∧
    OnCloseHandler sub sender t1 = Returned tt t1 log2 ∧
    upcall_maxima log2 = [] ∧
    IsSubscriber (ID sub) t1 = false.
Proof.
  destruct (OnCloseHandler_outcome t sub sender) as (t2 & l2 & log1 & Hret & Hrun & _).
  set (t1 := set_subscribedTracks (delete (ID sub) (subscribedTracks t)) t) in *.
  destruct (NotifySubscriberMaxQuality_OFF_effect t1 (ID sub))
    as (t2' & l2' & Hret' & Hreg & Hpar & Habsent).
  rewrite Hret in Hret'. injection Hret' as <- <-.
  assert (Hfix : ∀ t', subscribedTracks t' = delete (ID sub) (subscribedTracks t) →
            set_subscribedTracks (delete (ID sub) (subscribedTracks t')) t' = t').
  { intros t' Ht'. rewrite Ht', delete_delete_eq, <- Ht'.
    apply set_subscribedTracks_same. }
  assert (Hgone : ∀ t', subscribedTracks t' = delete (ID sub) (subscribedTracks t) →
            IsSubscriber (ID sub) t' = false).
  { intros t' Ht'. unfold IsSubscriber. rewrite Ht', lookup_delete_eq.
    apply bool_decide_eq_false_2. by intros [? ?]. }
  destruct (OnCloseHandler_outcome
              (if returns_before_retraction sub sender then t1 else t2) sub sender)
    as (t3 & l3 & log2 & Hret3 & Hrun3 & Hup3).
  eexists _, log1, log2. split; [exact Hrun|].
  destruct (returns_before_retraction sub sender).
  - rewrite (Hfix t1) in Hrun3 by done. split; [done|]. split; [done|]. by apply Hgone.
  - rewrite (Hfix t2) in Hret3 by done.
    rewrite NotifySubscriberMaxQuality_OFF_absent in Hret3.
    + injection Hret3 as <- <-. split; [done|]. split; [done|]. by apply Hgone.
    + intros Hk. apply Habsent. unfold Kind in *. by rewrite <- Hpar.
Qed.

(** X8.  A subscription that is accepted and then closed leaves the
    registry as it was before the subscription: for a subscriber that was
    not registered, the close handler, whatever its collaborators answer,
    returns after an accepted [AddSubscriber] with the registry the engine
    had before the two calls. *)
Theorem add_then_close_restores_registry t sub downTrack IsMuted t1 log1 sender :
  subscribedTracks t !! ID sub = None →
  AddSubscriber sub (inr downTrack) IsMuted t = Returned (Some downTrack, None) t1 log1 →
  IsSubscriber (ID sub) t1 = true ∧
  ∃ t2 log2,
    OnCloseHandler sub sender t1 = Returned tt t2 log2 ∧
    subscribedTracks t2 = subscribedTracks t ∧
    IsSubscriber (ID sub) t2 = false.
Proof.
  intros Hnone Hadd.
  assert (Hstored : subscribedTracks t1 =
                    <[ID sub := stored_track (ID sub) downTrack IsMuted]> (subscribedTracks t)).
  { destruct (attached_sender sub) as [s|] eqn:Hs.
    - rewrite (AddSubscriber_success t sub downTrack IsMuted s Hnone Hs) in Hadd.
      by injection Hadd as <- <-.
    - exfalso. revert Hadd. unfold AddSubscriber. rewrite bind_receiver, Hnone.
      unfold attached_sender in Hs.
      destruct (SupportsTransceiverReuse sub).
      + destruct (AddTrack sub) as [e|[s'|]]; [done| |].
        * destruct (find_transceiver (GetTransceivers sub) (Some s')); done.
        * destruct (find_transceiver (GetTransceivers sub) None); done.
      + destruct (AddTransceiverFromTrack sub) as [e|tr]; [done|]. by rewrite Hs. }
  split.
  { unfold IsSubscriber. rewrite Hstored, lookup_insert_eq.
    apply bool_decide_eq_true_2. by eexists. }
  destruct (OnCloseHandler_outcome t1 sub sender) as (t2 & l2 & log2 & Hret & Hrun & _).
  destruct (NotifySubscriberMaxQuality_OFF_effect
              (set_subscribedTracks (delete (ID sub) (subscribedTracks t1)) t1) (ID sub))
    as (t2' & l2' & Hret' & Hreg & _).
  rewrite Hret in Hret'. injection Hret' as <- <-.
  assert (Hback : delete (ID sub) (subscribedTracks t1) = subscribedTracks t).
  { rewrite Hstored, delete_insert_eq. by apply delete_id. }
  eexists _, log2. split; [exact Hrun|].
  assert (Hreg2 : subscribedTracks
            (if returns_before_retraction sub sender
             then set_subscribedTracks (delete (ID sub) (subscribedTracks t1)) t1 else t2)
            = subscribedTracks t).
  { destruct (returns_before_retraction sub sender); [done|]. by rewrite Hreg. }
  split; [done|]. unfold IsSubscriber. rewrite Hreg2, Hnone.
  apply bool_decide_eq_false_2. by intros [? ?].
Qed.

(** X9.  [SetMuted] tells every registered track, once, of the new mute
    state and records it in the registry.  Muting stops there: the
    aggregator is not touched and the upcall is not called, even where the
    current max is stale.  Unmuting then recomputes: on a video track whose
    maps store layers only the current max ends as the maximum of their
    values. *)
Theorem SetMuted_fans_out t :
  SetMuted true t =
    Returned tt (set_subscribedTracks (set_pubMuted true <$> subscribedTracks t) t)
      ((λ kv, SetPublisherMuted kv.1 true) <$> map_to_list (subscribedTracks t)) ∧
  ∃ top log,
    SetMuted false t =
      Returned tt
        (set_maxSubscribedQuality top
           (set_subscribedTracks (set_pubMuted false <$> subscribedTracks t) t))
        (((λ kv, SetPublisherMuted kv.1 false) <$> map_to_list (subscribedTracks t)) ++ log) ∧
    (∀ q, q ∈ upcall_maxima log → q = top) ∧
    (Kind t = TrackType_VIDEO →
     holds_layers (maxSubscriberQuality t) → holds_layers (maxSubscriberNodeQuality t) →
     Quality_maximum (desired_qualities t) top).
Proof.
  assert (Hloop : ∀ muted,
    ∃ loop : list (ParticipantID * SubscribedTrack) → Go unit,
      SetMuted muted t =
        bind (loop (map_to_list (subscribedTracks t)))
          (λ _, bind (update (λ t0, set_subscribedTracks
                                      (set_pubMuted muted <$> subscribedTracks t0) t0))
                  (λ _, if negb muted then updateQualityChange else ret tt)) t ∧
      ∀ l t0, loop l t0 =
        Returned tt t0 ((λ kv, SetPublisherMuted kv.1 muted) <$> l)).
  { intros muted. eexists. unfold SetMuted. rewrite bind_receiver. split; [reflexivity|].
    induction l as [|[k st] rest IH]; intros t0; [done|].
    simpl. unfold bind at 1, emit at 1. simpl in IH. by rewrite IH. }
  split.
  - destruct (Hloop true) as (loop & -> & Hlog).
    unfold bind, update, ret. rewrite Hlog. simpl. by rewrite app_nil_r.
  - destruct (Hloop false) as (loop & -> & Hlog).
    set (t1 := set_subscribedTracks (set_pubMuted false <$> subscribedTracks t) t).
    assert (Hrun : ∀ top log,
      updateQualityChange t1 = Returned tt (set_maxSubscribedQuality top t1) log →
      bind (loop (map_to_list (subscribedTracks t)))
        (λ _, bind (update (λ t0, set_subscribedTracks
                                    (set_pubMuted false <$> subscribedTracks t0) t0))
                (λ _, if negb false then updateQualityChange else ret tt)) t =
      Returned tt (set_maxSubscribedQuality top t1)
        (((λ kv, SetPublisherMuted kv.1 false) <$> map_to_list (subscribedTracks t)) ++ log)).
    { intros top log Hupd. unfold bind, update. rewrite Hlog. simpl. fold t1.
      by rewrite Hupd. }
    destruct (decide (Kind t = TrackType_VIDEO)) as [Hk|Hk].
    + eexists _, _. split.
      * apply Hrun. rewrite updateQualityChange_unfold.
        rewrite updateQualityChange_in_order_video by done. reflexivity.
      * split.
        -- intros q Hq. apply elem_of_upcall_maxima in Hq as (f & d & Hin).
           case_bool_decide; [by apply elem_of_nil in Hin|].
           destruct (onSubscribedMaxQualityChange t1); [|by apply elem_of_nil in Hin].
           apply list_elem_of_singleton in Hin. by injection Hin.
        -- intros _ Hs Hn. apply scan_both_maximum.
           ++ by apply (holds_layers_range (maxSubscriberQuality t)).
           ++ by apply (holds_layers_range (maxSubscriberNodeQuality t)).
    + exists (maxSubscribedQuality t), []. split.
      * apply Hrun. rewrite updateQualityChange_unfold.
        rewrite updateQualityChange_in_order_not_video by done.
        f_equal.
      * split; [|done]. intros q Hq. by apply elem_of_nil in Hq.
Qed.

Lemma revoke_visit_none_allowed visited : ∀ revokedSubscriberIDs t,
  revoke_visit visited [] revokedSubscriberIDs t =
    Returned (revokedSubscriberIDs ++ visited.*1) t
      ((λ kv, go_DownTrack_Close kv.1 (st_DownTrack kv.2)) <$> visited).
Proof.
  induction visited as [|[k st] rest IH]; intros acc t; simpl.
  - by rewrite app_nil_r.
  - unfold bind, emit. rewrite IH. simpl. by rewrite <- app_assoc.
Qed.

Lemma revoke_visit_all_allowed visited allowedSubscriberIDs :
  (∀ kv, kv ∈ visited → kv.1 ∈ allowedSubscriberIDs) →
  ∀ revokedSubscriberIDs t,
    revoke_visit visited allowedSubscriberIDs revokedSubscriberIDs t =
      Returned revokedSubscriberIDs t [].
Proof.
  induction visited as [|[k st] rest IH]; intros Hall acc t; [done|]. simpl.
  assert (Hk : found_in allowedSubscriberIDs k = true).
  { apply found_in_spec. apply (Hall (k, st)). by left. }
  rewrite Hk. apply IH. intros kv Hkv. apply Hall. by right.
Qed.

(** X10.  [RemoveAllSubscribers] starts the close of the forwarder of every
    registered subscriber, once each, and empties the registry; it leaves
    the desired-quality maps and the current max as they are, so the
    contributions stay until the close handlers run.
    [RevokeDisallowedSubscribers] with no allowed id starts the same closes
    and returns every registered id, but keeps the registry. *)
Theorem RemoveAllSubscribers_closes_all t :
  RemoveAllSubscribers t =
    Returned tt (set_subscribedTracks ∅ t)
      (Debugw "removing all subscribers" ::
       ((λ kv, go_DownTrack_Close kv.1 (st_DownTrack kv.2)) <$>
          map_to_list (subscribedTracks t))) ∧
  RevokeDisallowedSubscribers [] t =
    Returned (map_to_list (subscribedTracks t)).*1 t
      ((λ kv, go_DownTrack_Close kv.1 (st_DownTrack kv.2)) <$>
         map_to_list (subscribedTracks t)) ∧
  (∀ subID, IsSubscriber subID (set_subscribedTracks ∅ t) = false) ∧
  (∀ subID, subID ∈ (map_to_list (subscribedTracks t)).*1 ↔ IsSubscriber subID t = true).
Proof.
  split; [|split; [|split]].
  - assert (Hloop :
      ∃ loop : list (ParticipantID * SubscribedTrack) → Go unit,
        RemoveAllSubscribers t =
          bind (emit (Debugw "removing all subscribers"))
            (λ _, bind (loop (map_to_list (subscribedTracks t)))
                    (λ _, update (set_subscribedTracks ∅))) t ∧
        ∀ l t0, loop l t0 =
          Returned tt t0 ((λ kv, go_DownTrack_Close kv.1 (st_DownTrack kv.2)) <$> l)).
    { eexists. unfold RemoveAllSubscribers. rewrite bind_receiver. split; [reflexivity|].
      induction l as [|[k st] rest IH]; intros t0; [done|].
      simpl. unfold bind at 1, emit at 1. simpl in IH. by rewrite IH. }
    destruct Hloop as (loop & -> & Hlog).
    unfold bind at 1, emit at 1. unfold bind. rewrite Hlog.
    unfold update. simpl. by rewrite app_nil_r.
  - unfold RevokeDisallowedSubscribers. rewrite bind_receiver.
    unfold RevokeDisallowedSubscribers_in_order. by rewrite revoke_visit_none_allowed.
  - intros subID. unfold IsSubscriber. simpl. rewrite lookup_empty.
    apply bool_decide_eq_false_2. by intros [? ?].
  - intros subID. unfold IsSubscriber. rewrite bool_decide_eq_true, list_elem_of_fmap. split.
    + intros [[k st] [-> Hin]]. apply elem_of_map_to_list in Hin. by exists st.
    + intros [st Hst]. exists (subID, st). split; [done|]. by apply elem_of_map_to_list.
Qed.

(** X11.  When every registered subscriber is allowed,
    [RevokeDisallowedSubscribers] returns no id, closes no forwarder and
    leaves the engine as it is. *)
Theorem RevokeDisallowedSubscribers_all_allowed t
    (allowedSubscriberIDs : list ParticipantID) :
  (∀ subID, IsSubscriber subID t = true → subID ∈ allowedSubscriberIDs) →
  RevokeDisallowedSubscribers allowedSubscriberIDs t = Returned [] t [].
Proof.
  intros Hall. unfold RevokeDisallowedSubscribers. rewrite bind_receiver.
  unfold RevokeDisallowedSubscribers_in_order. apply revoke_visit_all_allowed.
  intros [k st] Hin. apply elem_of_map_to_list in Hin. apply Hall.
  unfold IsSubscriber. apply bool_decide_eq_true_2. by exists st.
Qed.
End ClosingRuns.

(* ===================================================================== *)
(** ** What every method keeps *)
(* ===================================================================== *)

Lemma keys_match_registry t r :
  (∀ k st, r !! k = Some st → SubscriberID st = k) → keys_match (set_subscribedTracks r t).
Proof. intros Hr k st. simpl. apply Hr. Qed.

Section Keeping.
Context `{E : VideoQualityEnum}.
Variable R : MediaTrackSubscriptions → MediaTrackSubscriptions → list Event → Prop.
Hypothesis R_refl : ∀ t, R t t [].
Hypothesis R_trans : ∀ t t1 t2 l1 l2, R t t1 l1 → R t1 t2 l2 → R t t2 (l1 ++ l2).
Hypothesis R_emit : ∀ t e, upcall_maxima [e] = [] → R t t [e].
Hypothesis R_registry : ∀ t r,
  (keys_match t → keys_match (set_subscribedTracks r t)) → R t (set_subscribedTracks r t) [].
Hypothesis R_timer : ∀ t tm, R t (set_maxQualityTimer tm t) [].
Hypothesis R_subscriber_map : ∀ t m,
  Kind t = TrackType_VIDEO → (maxSubscriberQuality t ≠ nil_map → m ≠ nil_map) →
  R t (set_maxSubscriberQuality m t) [].
Hypothesis R_node_map : ∀ t m,
  Kind t = TrackType_VIDEO → (maxSubscriberNodeQuality t = nil_map → m = nil_map) →
  R t (set_maxSubscriberNodeQuality m t) [].
Hypothesis R_update : ∀ t, keeps R updateQualityChange t.

Lemma keeps_ret {A} (a : A) t : keeps R (ret a) t.
Proof. intros a' t' log [= <- <- <-]. apply R_refl. Qed.

Lemma keeps_panic {A} t : keeps R (@panic A) t.
Proof. by intros a' t' log. Qed.

Lemma keeps_emit e t : upcall_maxima [e] = [] → keeps R (emit e) t.
Proof. intros He a' t' log [= <- <- <-]. by apply R_emit. Qed.

Lemma keeps_change f t : R t (f t) [] → keeps R (update f) t.
Proof. intros Hf a' t' log [= <- <- <-]. done. Qed.

Lemma keeps_bind {A B} (c : Go A) (k : A → Go B) t :
  keeps R c t → (∀ a t1, keeps R (k a) t1) → keeps R (bind c k) t.
Proof.
  intros Hc Hk b t2 log. unfold bind.
  destruct (c t) as [a t1 log1|] eqn:Hrun; [|done].
  destruct (k a t1) as [b' t2' log2|] eqn:Hrun2; [|done].
  intros [= <- <- <-]. eapply R_trans; [by eapply Hc | by eapply Hk].
Qed.

Lemma keeps_receiver {A} (k : MediaTrackSubscriptions → Go A) t :
  keeps R (k t) t → keeps R (bind receiver k) t.
Proof. intros Hk a t' log. rewrite bind_receiver. apply Hk. Qed.

Lemma keeps_when (b : bool) c t : keeps R c t → keeps R (when b c) t.
Proof. intros Hc. destruct b; [done|apply keeps_ret]. Qed.

Lemma keeps_NotifySubscriberMaxQuality subscriberID quality t :
  keeps R (NotifySubscriberMaxQuality subscriberID quality) t.
Proof.
  unfold NotifySubscriberMaxQuality. apply keeps_receiver.
  destruct (decide (Kind t = TrackType_VIDEO)) as [Hk|Hk].
  2:{ rewrite bool_decide_eq_false_2 by done. apply keeps_ret. }
  rewrite bool_decide_eq_true_2 by done. cbn [negb]. cbv zeta.
  destruct (quality =? VideoQuality_OFF).
  - destruct (map_index (maxSubscriberQuality t) subscriberID); [|apply keeps_ret].
    apply keeps_bind; [|intros; apply R_update].
    apply keeps_change, R_subscriber_map; [done|]. by destruct (maxSubscriberQuality t).
  - assert (Hstore : keeps R
        match map_assign (maxSubscriberQuality t) subscriberID quality with
        | Some m => update (set_maxSubscriberQuality m) ;;; updateQualityChange
        | None => panic
        end t).
    { destruct (map_assign (maxSubscriberQuality t) subscriberID quality) as [m|] eqn:Hm;
        [|apply keeps_panic].
      apply keeps_bind; [|intros; apply R_update].
      apply keeps_change, R_subscriber_map; [done|].
      destruct (maxSubscriberQuality t); [done|]. by injection Hm as <-. }
    destruct (map_index (maxSubscriberQuality t) subscriberID) as [old|]; [|done].
    destruct (old =? quality); [apply keeps_ret|done].
Qed.

Lemma keeps_NotifySubscriberNodeMaxQuality nodeID quality t :
  keeps R (NotifySubscriberNodeMaxQuality nodeID quality) t.
Proof.
  unfold NotifySubscriberNodeMaxQuality. apply keeps_receiver.
  destruct (decide (Kind t = TrackType_VIDEO)) as [Hk|Hk].
  2:{ rewrite bool_decide_eq_false_2 by done. apply keeps_ret. }
  rewrite bool_decide_eq_true_2 by done. cbn [negb]. cbv zeta.
  destruct (quality =? VideoQuality_OFF).
  - destruct (map_index (maxSubscriberNodeQuality t) nodeID) eqn:Hentry; [|apply keeps_ret].
    apply keeps_bind; [|intros; apply R_update].
    apply keeps_change, R_node_map; [done|]. intros Hnil.
    by rewrite Hnil in *.
  - assert (Hstore : keeps R
        match map_assign (maxSubscriberNodeQuality t) nodeID quality with
        | Some m => update (set_maxSubscriberNodeQuality m) ;;; updateQualityChange
        | None => panic
        end t).
    { destruct (map_assign (maxSubscriberNodeQuality t) nodeID quality) as [m|] eqn:Hm;
        [|apply keeps_panic].
      apply keeps_bind; [|intros; apply R_update].
      apply keeps_change, R_node_map; [done|]. intros Hnil. by rewrite Hnil in Hm. }
    destruct (map_index (maxSubscriberNodeQuality t) nodeID) as [old|]; [|done].
    destruct (old =? quality); [apply keeps_ret|done].
Qed.

Lemma keeps_timers t :
  keeps R startMaxQualityTimer t ∧ keeps R stopMaxQualityTimer t ∧
  keeps R maxQualityTimer_fired t.
Proof.
  assert (Hstop : ∀ t0, keeps R stopMaxQualityTimer t0).
  { intros t0. unfold stopMaxQualityTimer. apply keeps_receiver.
    destruct (maxQualityTimer t0); [apply keeps_change, R_timer|apply keeps_ret]. }
  split; [|split; [done|]].
  - unfold startMaxQualityTimer. apply keeps_receiver.
    destruct (negb _); [apply keeps_ret|apply keeps_change, R_timer].
  - unfold maxQualityTimer_fired. apply keeps_bind; [done|intros; apply R_update].
Qed.

Lemma keeps_initial_quality_goroutine subscriberID t :
  keeps R (initial_quality_goroutine subscriberID) t.
Proof.
  unfold initial_quality_goroutine.
  apply keeps_bind; [apply keeps_NotifySubscriberMaxQuality|intros].
  apply keeps_bind; [by apply keeps_emit|intros]. by apply keeps_emit.
Qed.

Lemma keeps_OnCloseHandler sub sender t : keeps R (OnCloseHandler sub sender) t.
Proof.
  unfold OnCloseHandler. apply keeps_bind.
  { apply keeps_change, R_registry. intros Hkeys. apply keys_match_registry.
    intros k st Hst. apply lookup_delete_Some in Hst as [_ Hst]. by apply Hkeys. }
  intros _ t1. apply keeps_receiver.
  apply keeps_bind; [by apply keeps_when, keeps_emit|intros _ t2].
  destruct (ConnectionState_is_closed sub); [apply keeps_ret|].
  destruct sender as [s|]; [|apply keeps_ret].
  apply keeps_bind; [by apply keeps_emit|intros _ t3].
  apply keeps_bind; [by apply keeps_emit|intros _ t4].
  assert (Htail : ∀ b t0, keeps R
    (when b (emit (Debugw "could not remove remoteTrack from forwarder")) ;;;
     NotifySubscriberMaxQuality (ID sub) VideoQuality_OFF ;;;
     emit (RemoveSubscribedTrack (ID sub)) ;;; emit (Negotiate (ID sub))) t0).
  { intros b t0. apply keeps_bind; [by apply keeps_when, keeps_emit|intros].
    apply keeps_bind; [apply keeps_NotifySubscriberMaxQuality|intros].
    apply keeps_bind; [by apply keeps_emit|intros]. by apply keeps_emit. }
  destruct (RemoveTrack_result sub) as [[| |]|]; [apply keeps_ret|apply Htail..].
Qed.

Lemma keeps_AddSubscriber sub NewDownTrack IsMuted t :
  keeps R (AddSubscriber sub NewDownTrack IsMuted) t.
Proof.
  unfold AddSubscriber. apply keeps_receiver.
  destruct (subscribedTracks t !! ID sub); [apply keeps_ret|].
  destruct NewDownTrack as [e|downTrack]; [apply keeps_ret|].
  assert (Hstore : ∀ s t0, keeps R
    (emit (RegisterHooks (ID sub) downTrack s) ;;;
     update (λ t1, set_subscribedTracks
        (<[ID sub := {| SubscriberID := ID sub; st_DownTrack := downTrack;
                        pubMuted := false |}]> (subscribedTracks t1)) t1) ;;;
     update (λ t1, set_subscribedTracks
        (alter (set_pubMuted IsMuted) (ID sub) (subscribedTracks t1)) t1) ;;;
     emit (SetPublisherMuted (ID sub) IsMuted) ;;;
     emit (go_initial_quality (ID sub)) ;;;
     when (Telemetry (params t))
       (emit (Telemetry_TrackSubscribed (ID sub) (MediaTrack_ID (params t)))) ;;;
     ret ((Some downTrack, None) : option DownTrack * option error)) t0).
  { intros s t0. apply keeps_bind; [by apply keeps_emit|intros _ t1].
    apply keeps_bind.
    { apply keeps_change, R_registry. intros Hkeys. apply keys_match_registry.
      intros k st Hst. apply lookup_insert_Some in Hst as [[<- <-]|[_ Hst]]; [done|].
      by apply Hkeys. }
    intros _ t2. apply keeps_bind.
    { apply keeps_change, R_registry. intros Hkeys. apply keys_match_registry.
      intros k st Hst. apply lookup_alter_Some in Hst as [(_ & st' & Hst' & ->)|[_ Hst]].
      - simpl. by apply Hkeys.
      - by apply Hkeys. }
    intros _ t3. apply keeps_bind; [by apply keeps_emit|intros _ t4].
    apply keeps_bind; [by apply keeps_emit|intros _ t5].
    apply keeps_bind; [by apply keeps_when, keeps_emit|intros]. apply keeps_ret. }
  destruct (SupportsTransceiverReuse sub).
  - destruct (AddTrack sub) as [e|sender]; [apply keeps_ret|].
    destruct (find_transceiver (GetTransceivers sub) sender); [|apply keeps_ret].
    destruct sender; [apply Hstore|apply keeps_panic].
  - destruct (AddTransceiverFromTrack sub) as [e|tr]; [apply keeps_ret|].
    destruct (Sender tr); [apply Hstore|apply keeps_ret].
Qed.

Lemma keeps_revoke_visit visited allowedSubscriberIDs : ∀ revokedSubscriberIDs t,
  keeps R (revoke_visit visited allowedSubscriberIDs revokedSubscriberIDs) t.
Proof.
  induction visited as [|[k st] rest IH]; intros acc t; simpl; [apply keeps_ret|].
  destruct (found_in allowedSubscriberIDs k); [apply IH|].
  apply keeps_bind; [by apply keeps_emit|intros; apply IH].
Qed.

Lemma keeps_report_loop fuel sub batch : ∀ i now n t,
  keeps R (report_loop fuel sub batch i now n) t.
Proof.
  induction fuel as [|fuel IH]; intros i now n t; simpl; [apply keeps_ret|].
  apply keeps_bind; [by apply keeps_emit|intros _ t1].
  destruct (WriteRTCP_result sub n).
  - apply keeps_bind; [by apply keeps_emit|intros; apply keeps_ret].
  - destruct (i >? 5); [apply keeps_ret|].
    apply keeps_bind; [by apply keeps_emit|intros; apply IH].
Qed.

Lemma keeps_RemoveAllSubscribers t : keeps R RemoveAllSubscribers t.
Proof.
  unfold RemoveAllSubscribers. apply keeps_receiver.
  apply keeps_bind; [by apply keeps_emit|intros _ t1].
  apply keeps_bind.
  - generalize (map_to_list (subscribedTracks t)). intros l. revert t1.
    induction l as [|[k st] rest IH]; intros t1; [apply keeps_ret|].
    apply keeps_bind; [by apply keeps_emit|intros; apply IH].
  - intros _ t2. apply keeps_change, R_registry. intros _. by apply keys_match_registry.
Qed.

Lemma keeps_SetMuted muted t : keeps R (SetMuted muted) t.
Proof.
  unfold SetMuted. apply keeps_receiver. apply keeps_bind.
  - generalize (map_to_list (subscribedTracks t)). intros l. generalize t.
    induction l as [|[k st] rest IH]; intros t1; [apply keeps_ret|].
    apply keeps_bind; [by apply keeps_emit|intros; apply IH].
  - intros _ t1. apply keeps_bind.
    + apply keeps_change, R_registry. intros Hkeys. apply keys_match_registry.
      intros k st Hst. apply lookup_fmap_Some in Hst as (st' & <- & Hst'). simpl.
      by apply Hkeys.
    + intros _ t2. destruct (negb muted); [apply R_update|apply keeps_ret].
Qed.

(** Every method but the registration of an upcall keeps [R]. *)
Lemma keeps_run_method m t : keeps_upcall m → keeps R (run_method m) t.
Proof.
  intros Hm. destruct m; simpl.
  - apply keeps_bind; [apply keeps_AddSubscriber|intros; apply keeps_ret].
  - apply keeps_initial_quality_goroutine.
  - apply keeps_OnCloseHandler.
  - unfold RemoveSubscriber. apply keeps_receiver.
    destruct (subscribedTracks t !! participantID); [by apply keeps_emit|apply keeps_ret].
  - apply keeps_RemoveAllSubscribers.
  - apply keeps_bind; [|intros; apply keeps_ret].
    unfold RevokeDisallowedSubscribers. apply keeps_receiver. apply keeps_revoke_visit.
  - apply keeps_SetMuted.
  - done.
  - apply keeps_NotifySubscriberMaxQuality.
  - apply keeps_NotifySubscriberNodeMaxQuality.
  - apply keeps_timers.
  - apply keeps_timers.
  - apply keeps_timers.
  - apply R_update.
  - apply keeps_bind; [|intros; apply keeps_ret].
    unfold sendDownTrackBindingReports. apply keeps_receiver.
    destruct (subscribedTracks t !! ID sub) as [st|]; [|apply keeps_ret].
    destruct (CreateSourceDescriptionChunks (st_DownTrack st)); [|apply keeps_ret].
    apply keeps_report_loop.
Qed.
End Keeping.

Section Kept.
Context `{E : VideoQualityEnum}.

Lemma frame_effect_refl t : frame_effect t t [].
Proof. repeat split; auto. Qed.

Lemma frame_effect_trans t t1 t2 l1 l2 :
  frame_effect t t1 l1 → frame_effect t1 t2 l2 → frame_effect t t2 (l1 ++ l2).
Proof.
  intros (Hp1 & Hn1 & Ha1 & Hk1 & Hv1) (Hp2 & Hn2 & Ha2 & Hk2 & Hv2).
  split; [congruence|]. split; [auto|]. split; [auto|]. split; [auto|].
  intros Hkind.
  assert (Hkind1 : Kind t1 ≠ TrackType_VIDEO) by (unfold Kind in *; by rewrite Hp1).
  destruct (Hv1 Hkind) as (Hs1 & Hnode1 & Hmax1 & Hlog1).
  destruct (Hv2 Hkind1) as (Hs2 & Hnode2 & Hmax2 & Hlog2).
  rewrite upcall_maxima_app, Hlog1, Hlog2.
  repeat split; congruence.
Qed.

Lemma frame_effect_update t : keeps frame_effect updateQualityChange t.
Proof.
  intros a t' log. rewrite updateQualityChange_unfold.
  destruct (decide (Kind t = TrackType_VIDEO)) as [Hk|Hk].
  - rewrite updateQualityChange_in_order_video by done. intros [= <- <- <-].
    split; [done|]. split; [done|]. split; [done|]. split; [done|]. done.
  - rewrite updateQualityChange_in_order_not_video by done. intros [= <- <- <-].
    apply frame_effect_refl.
Qed.

Lemma frame_effect_step t t' :
  params t' = params t →
  maxSubscriberQuality t' = maxSubscriberQuality t →
  maxSubscriberNodeQuality t' = maxSubscriberNodeQuality t →
  maxSubscribedQuality t' = maxSubscribedQuality t →
  (keys_match t → keys_match t') →
  ∀ log, upcall_maxima log = [] → frame_effect t t' log.
Proof.
  intros Hp Hs Hn Hm Hk log Hlog. split; [done|]. rewrite Hs, Hn, Hm.
  split; [done|]. split; [done|]. split; [done|]. done.
Qed.

(** Every method keeps the frame, the registration of an upcall too. *)
Lemma run_method_frame m t : keeps frame_effect (run_method m) t.
Proof.
  assert (Hgen : keeps_upcall m → keeps frame_effect (run_method m) t).
  { apply (keeps_run_method frame_effect frame_effect_refl frame_effect_trans).
    - intros t0 e He. by apply frame_effect_step.
    - intros t0 r Hr. by apply frame_effect_step.
    - intros t0 tm. by apply frame_effect_step.
    - intros t0 m0 Hk Hm0. split; [done|]. split; [done|]. split; [done|]. split; [done|].
      done.
    - intros t0 m0 Hk Hm0. split; [done|]. split; [done|]. split; [done|]. split; [done|].
      done.
    - apply frame_effect_update. }
  destruct m; try (apply Hgen; exact I).
  simpl. unfold OnSubscribedMaxQualityChange, update. intros a t' log [= <- <- <-].
  by apply frame_effect_step.
Qed.

Lemma run_methods_frame ms : ∀ t, keeps frame_effect (run_methods ms) t.
Proof.
  induction ms as [|m rest IH]; intros t; simpl.
  - intros a t' log [= <- <- <-]. apply frame_effect_refl.
  - intros a t2 log. unfold bind.
    destruct (run_method m t) as [[] t1 log1|] eqn:Hrun; [|done].
    destruct (run_methods rest t1) as [[] t2' log2|] eqn:Hrest; [|done].
    intros [= <- <- <-]. eapply frame_effect_trans.
    + by eapply run_method_frame.
    + by eapply IH.
Qed.

End Kept.

(* ===================================================================== *)
(** ** Runs of methods from the constructor on *)
(* ===================================================================== *)

Section Reachable.
Context `{E : VideoQualityEnum}.

Lemma NotifySubscriberMaxQuality_returns t subscriberID quality :
  maxSubscriberQuality t ≠ nil_map →
  ∃ t1 log1, NotifySubscriberMaxQuality subscriberID quality t = Returned tt t1 log1.
Proof.
  intros Halloc.
  destruct (decide (Kind t = TrackType_VIDEO)) as [Hk|Hk].
  2:{ exists t, []. by rewrite NotifySubscriberMaxQuality_not_video. }
  destruct (decide (quality = VideoQuality_OFF)) as [->|Hq].
  - destruct (NotifySubscriberMaxQuality_OFF_effect t subscriberID) as (t2 & l2 & Hrun & _).
    by exists t2, l2.
  - rewrite NotifySubscriberMaxQuality_store by done.
    case_bool_decide; [by exists t, []|].
    destruct (map_assign_allocated (maxSubscriberQuality t) subscriberID quality Halloc)
      as (g & Hg & ->).
    destruct (updateQualityChange_returns
                (set_maxSubscriberQuality (make_map (<[subscriberID:=quality]> g)) t))
      as (top & log & -> & _).
    by eexists _, _.
Qed.

(** X12.  In every state that methods of the engine, run in any order and
    with any arguments and answers, reach from the constructor, the per-node
    map is still nil and the per-subscriber map is allocated.  So on a video
    track [NotifySubscriberNodeMaxQuality] panics there for every quality
    but OFF, for which it does nothing, while [NotifySubscriberMaxQuality]
    returns for every quality. *)
Theorem per_node_map_stays_nil p ms t' log :
  run_methods ms (NewMediaTrackSubscriptions p) = Returned tt t' log →
  maxSubscriberNodeQuality t' = nil_map ∧
  maxSubscriberQuality t' ≠ nil_map ∧
  (MediaTrack_Kind p = TrackType_VIDEO →
   ∀ nodeID quality,
     NotifySubscriberNodeMaxQuality nodeID quality t' =
       if bool_decide (quality = VideoQuality_OFF) then Returned tt t' [] else Panicked) ∧
  (∀ subscriberID quality, ∃ t'' log'',
     NotifySubscriberMaxQuality subscriberID quality t' = Returned tt t'' log'').
Proof.
  intros Hrun.
  destruct (run_methods_frame ms _ _ _ _ Hrun) as (Hp & Hnil & Halloc & _).
  assert (Hnode : maxSubscriberNodeQuality t' = nil_map) by (by apply Hnil).
  assert (Hsub : maxSubscriberQuality t' ≠ nil_map) by (by apply Halloc).
  split; [done|]. split; [done|]. split.
  - intros Hk nodeID quality. apply NotifySubscriberNodeMaxQuality_nil_map; [|done].
    unfold Kind. by rewrite Hp.
  - intros subscriberID quality. by apply NotifySubscriberMaxQuality_returns.
Qed.

(** X13.  In every state that methods of the engine reach from the
    constructor, each subscribed track is registered under its own
    subscriber id. *)
Theorem registry_keys_are_subscriber_ids p ms t' log :
  run_methods ms (NewMediaTrackSubscriptions p) = Returned tt t' log →
  ∀ subID subTrack,
    subscribedTracks t' !! subID = Some subTrack → SubscriberID subTrack = subID.
Proof.
  intros Hrun.
  destruct (run_methods_frame ms _ _ _ _ Hrun) as (_ & _ & _ & Hkeys & _).
  apply Hkeys. intros k st. simpl. by rewrite lookup_empty.
Qed.

(** X14.  On an audio track no run of methods of the engine, whatever
    their arguments and the answers of the collaborators, changes the
    desired-quality maps or the current max, or calls the upcall: subscribers
    come and go, tracks are muted and closed, and the aggregator stays as it
    was. *)
Theorem audio_track_never_aggregates t ms t' log :
  Kind t = TrackType_AUDIO →
  run_methods ms t = Returned tt t' log →
  maxSubscriberQuality t' = maxSubscriberQuality t ∧
  maxSubscriberNodeQuality t' = maxSubscriberNodeQuality t ∧
  maxSubscribedQuality t' = maxSubscribedQuality t ∧
  upcall_maxima log = [].
Proof.
  intros Hk Hrun.
  destruct (run_methods_frame ms _ _ _ _ Hrun) as (_ & _ & _ & _ & Haudio).
  apply Haudio. by rewrite Hk.
Qed.

(** X16.  For each of the four qualities the descriptor built for the
    upcall lists LOW, MEDIUM and HIGH, in this order, and enables the first
    [rank] of them, where OFF, LOW, MEDIUM and HIGH have ranks 0, 1, 2 and
    3: the enabled layers are a prefix, and their number tells the
    maximum. *)
Theorem descriptor_enables_a_prefix top :
  is_quality top →
  Quality <$> build_subscribedQualities top =
    [VideoQuality_LOW; VideoQuality_MEDIUM; VideoQuality_HIGH] ∧
  Enabled <$> build_subscribedQualities top =
    [1 <=? Quality_rank top; 2 <=? Quality_rank top; 3 <=? Quality_rank top] ∧
  enabled_count (build_subscribedQualities top) = Z.to_nat (Quality_rank top).
Proof.
  intros Htop. rewrite build_subscribedQualities_descriptor by done.
  unfold descriptor_of, enabled_count.
  assert (Hl : Quality_rank VideoQuality_LOW = 1)
    by (rewrite Quality_rank_layer; [lia | unfold is_layer; auto]).
  assert (Hm : Quality_rank VideoQuality_MEDIUM = 2)
    by (rewrite Quality_rank_layer; [enum_facts; lia | unfold is_layer; auto]).
  assert (Hh : Quality_rank VideoQuality_HIGH = 3)
    by (rewrite Quality_rank_layer; [enum_facts; lia | unfold is_layer; auto]).
  unfold Quality_leb. rewrite Hl, Hm, Hh.
  destruct Htop as [->|[->|[->| ->]]].
  - rewrite bool_decide_eq_true_2 by done. by rewrite Quality_rank_OFF.
  - rewrite bool_decide_eq_false_2 by (apply is_layer_not_OFF; unfold is_layer; auto).
    by rewrite Hl.
  - rewrite bool_decide_eq_false_2 by (apply is_layer_not_OFF; unfold is_layer; auto).
    by rewrite Hm.
  - rewrite bool_decide_eq_false_2 by (apply is_layer_not_OFF; unfold is_layer; auto).
    by rewrite Hh.
Qed.
End Reachable.

(* ===================================================================== *)
(** ** The further statements on the sample tracks *)
(* ===================================================================== *)

Lemma two_subscribers_invariant : @aggregator_invariant off_last two_subscribers.
Proof.
  split; [discriminate|].
  split; apply holds_layers_check; vm_compute; reflexivity.
Defined.

Lemma AddSubscriber_accepts_witness :
  subscribedTracks two_subscribers !! "dave" = None ∧
  attached_sender dave = Some 9%nat ∧
  ∃ t',
    AddSubscriber dave (inr 31%nat) true two_subscribers =
      Returned (Some 31%nat, None) t'
        ([ RegisterHooks "dave" 31 9; SetPublisherMuted "dave" true;
           go_initial_quality "dave" ] ++ subscribed_telemetry two_subscribers "dave") ∧
    subscribedTracks t' !! "dave" = Some (stored_track "dave" 31 true) ∧
    IsSubscriber "dave" t' = true ∧
    (∀ k, k ≠ "dave" → subscribedTracks t' !! k = subscribedTracks two_subscribers !! k) ∧
    maxSubscriberQuality t' = maxSubscriberQuality two_subscribers ∧
    maxSubscriberNodeQuality t' = maxSubscriberNodeQuality two_subscribers ∧
    maxSubscribedQuality t' = maxSubscribedQuality two_subscribers.
Proof.
  assert (Hnone : subscribedTracks two_subscribers !! "dave" = None)
    by (vm_compute; reflexivity).
  assert (Hs : attached_sender dave = Some 9%nat) by reflexivity.
  split; [exact Hnone|]. split; [exact Hs|].
  exact (AddSubscriber_accepts two_subscribers dave 31%nat true 9%nat Hnone Hs).
Defined.

Lemma AddSubscriber_twice_witness :
  subscribedTracks two_subscribers !! "dave" = None ∧
  AddSubscriber dave (inr 31%nat) true two_subscribers =
    Returned (Some 31%nat, None) with_dave dave_log ∧
  AddSubscriber dave (inl (collaborator_error 5)) false with_dave =
    Returned (None, None) with_dave [] ∧
  subscribedTracks with_dave !! "dave" = Some (stored_track "dave" 31 true).
Proof.
  assert (Hnone : subscribedTracks two_subscribers !! "dave" = None)
    by (vm_compute; reflexivity).
  assert (Hadd : AddSubscriber dave (inr 31%nat) true two_subscribers =
                 Returned (Some 31%nat, None) with_dave dave_log)
    by (vm_compute; reflexivity).
  split; [exact Hnone|]. split; [exact Hadd|].
  exact (AddSubscriber_twice two_subscribers dave 31%nat true with_dave dave_log
           (inl (collaborator_error 5)) false Hnone Hadd).
Defined.

Lemma NotifySubscriberMaxQuality_repeated_witness :
  maxSubscriberQuality two_subscribers ≠ nil_map ∧
  ∃ t1 log1,
    @NotifySubscriberMaxQuality off_last "alice" 2 two_subscribers = Returned tt t1 log1 ∧
    @NotifySubscriberMaxQuality off_last "alice" 2 t1 = Returned tt t1 [].
Proof.
  assert (Halloc : maxSubscriberQuality two_subscribers ≠ nil_map) by discriminate.
  split; [exact Halloc|].
  exact (@NotifySubscriberMaxQuality_repeated off_last two_subscribers "alice" 2 Halloc).
Defined.

Lemma notify_then_retract_witness :
  Kind two_subscribers = TrackType_VIDEO ∧
  map_index (maxSubscriberQuality two_subscribers) "carol" = None ∧
  @is_layer off_last 2 ∧
  ∃ t2 log,
    (@NotifySubscriberMaxQuality off_last "carol" 2 ;;;
     @NotifySubscriberMaxQuality off_last "carol" (@VideoQuality_OFF off_last))
      two_subscribers = Returned tt t2 log ∧
    maxSubscriberQuality t2 = maxSubscriberQuality two_subscribers ∧
    maxSubscriberNodeQuality t2 = maxSubscriberNodeQuality two_subscribers ∧
    @Quality_maximum off_last (desired_qualities two_subscribers) (maxSubscribedQuality t2).
Proof.
  assert (Hk : Kind two_subscribers = TrackType_VIDEO) by reflexivity.
  assert (Hnone : map_index (maxSubscriberQuality two_subscribers) "carol" = None)
    by (vm_compute; reflexivity).
  assert (Hq : @is_layer off_last 2) by (right; right; reflexivity).
  split; [exact Hk|]. split; [exact Hnone|]. split; [exact Hq|].
  exact (@notify_then_retract off_last two_subscribers "carol" 2 Hk
           two_subscribers_invariant Hnone Hq).
Defined.

Lemma initial_quality_goroutine_publishes_HIGH_witness :
  Kind two_subscribers = TrackType_VIDEO ∧
  ∃ t' log,
    @initial_quality_goroutine off_last "dave" two_subscribers =
      Returned tt t' (log ++ [AddSubscribedTrack "dave"; Negotiate "dave"]) ∧
    map_index (maxSubscriberQuality t') "dave" = Some (@VideoQuality_HIGH off_last) ∧
    (∀ q, q ∈ upcall_maxima log → q = @VideoQuality_HIGH off_last) ∧
    (map_index (maxSubscriberQuality two_subscribers) "dave"
       ≠ Some (@VideoQuality_HIGH off_last) →
     maxSubscribedQuality t' = @VideoQuality_HIGH off_last) ∧
    subscribedTracks t' = subscribedTracks two_subscribers.
Proof.
  assert (Hk : Kind two_subscribers = TrackType_VIDEO) by reflexivity.
  split; [exact Hk|].
  exact (@initial_quality_goroutine_publishes_HIGH off_last two_subscribers "dave" Hk
           two_subscribers_invariant).
Defined.

Lemma maxQualityTimer_cycle_witness :
  Kind two_subscribers = TrackType_VIDEO ∧
  @startMaxQualityTimer two_subscribers =
    Returned tt (set_maxQualityTimer (Some 10000) two_subscribers) [] ∧
  (∃ top log,
     (startMaxQualityTimer ;;; @maxQualityTimer_fired off_last) two_subscribers =
       Returned tt (set_maxSubscribedQuality top (set_maxQualityTimer None two_subscribers))
         log ∧
     @Quality_maximum off_last (desired_qualities two_subscribers) top) ∧
  (startMaxQualityTimer ;;; stopMaxQualityTimer) two_subscribers =
    Returned tt (set_maxQualityTimer None two_subscribers) [] ∧
  stopMaxQualityTimer (set_maxQualityTimer None two_subscribers) =
    Returned tt (set_maxQualityTimer None two_subscribers) [].
Proof.
  assert (Hk : Kind two_subscribers = TrackType_VIDEO) by reflexivity.
  split; [exact Hk|].
  destruct two_subscribers_invariant as (_ & Hs & Hn).
  exact (@maxQualityTimer_cycle off_last two_subscribers Hk Hs Hn).
Defined.

Lemma add_then_close_restores_registry_witness :
  subscribedTracks two_subscribers !! "dave" = None ∧
  AddSubscriber dave (inr 31%nat) true two_subscribers =
    Returned (Some 31%nat, None) with_dave dave_log ∧
  IsSubscriber "dave" with_dave = true ∧
  ∃ t2 log2,
    @OnCloseHandler off_last dave (Some 9%nat) with_dave = Returned tt t2 log2 ∧
    subscribedTracks t2 = subscribedTracks two_subscribers ∧
    IsSubscriber "dave" t2 = false.
Proof.
  assert (Hnone : subscribedTracks two_subscribers !! "dave" = None)
    by (vm_compute; reflexivity).
  assert (Hadd : AddSubscriber dave (inr 31%nat) true two_subscribers =
                 Returned (Some 31%nat, None) with_dave dave_log)
    by (vm_compute; reflexivity).
  split; [exact Hnone|]. split; [exact Hadd|].
  exact (@add_then_close_restores_registry off_last two_subscribers dave 31%nat true
           with_dave dave_log (Some 9%nat) Hnone Hadd).
Defined.

Lemma RevokeDisallowedSubscribers_all_allowed_witness :
  (∀ subID, IsSubscriber subID two_subscribers = true → subID ∈ ["bob"; "zoe"; "alice"]) ∧
  RevokeDisallowedSubscribers ["bob"; "zoe"; "alice"] two_subscribers =
    Returned [] two_subscribers [].
Proof.
  assert (Hall : ∀ subID, IsSubscriber subID two_subscribers = true →
                          subID ∈ ["bob"; "zoe"; "alice"]).
  { intros subID Hsub. unfold IsSubscriber in Hsub. apply bool_decide_eq_true in Hsub.
    destruct Hsub as [st Hst]. unfold two_subscribers in Hst. simpl in Hst.
    apply lookup_insert_Some in Hst as [[<- _]|[_ Hst]].
    - right. right. left.
    - apply lookup_insert_Some in Hst as [[<- _]|[_ Hst]]; [left|].
      by rewrite lookup_empty in Hst. }
  split; [exact Hall|].
  exact (RevokeDisallowedSubscribers_all_allowed two_subscribers ["bob"; "zoe"; "alice"] Hall).
Defined.

Lemma per_node_map_stays_nil_witness :
  @run_methods off_last sample_run (NewMediaTrackSubscriptions video_params) =
    Returned tt
      (state_or (@run_methods off_last sample_run (NewMediaTrackSubscriptions video_params))
         (NewMediaTrackSubscriptions video_params))
      (log_of (@run_methods off_last sample_run (NewMediaTrackSubscriptions video_params))) ∧
  @NotifySubscriberNodeMaxQuality off_last "node-1" 1
    (state_or (@run_methods off_last sample_run (NewMediaTrackSubscriptions video_params))
       (NewMediaTrackSubscriptions video_params)) = Panicked.
Proof.
  assert (Hrun :
    @run_methods off_last sample_run (NewMediaTrackSubscriptions video_params) =
    Returned tt
      (state_or (@run_methods off_last sample_run (NewMediaTrackSubscriptions video_params))
         (NewMediaTrackSubscriptions video_params))
      (log_of (@run_methods off_last sample_run (NewMediaTrackSubscriptions video_params))))
    by (vm_compute; reflexivity).
  split; [exact Hrun|].
  destruct (@per_node_map_stays_nil off_last video_params sample_run _ _ Hrun)
    as (_ & _ & Hnode & _).
  exact (Hnode eq_refl "node-1" 1).
Defined.

Lemma registry_keys_are_subscriber_ids_witness :
  @run_methods off_last [do_AddSubscriber dave (inr 31%nat) true; do_SetMuted false]
    (NewMediaTrackSubscriptions video_params) =
    Returned tt
      (set_subscribedTracks (<["dave" := stored_track "dave" 31 false]> ∅)
         (set_maxSubscribedQuality 3 (NewMediaTrackSubscriptions video_params)))
      [ RegisterHooks "dave" 31 9; SetPublisherMuted "dave" true; go_initial_quality "dave";
        Telemetry_TrackSubscribed "dave" "TR_camera"; SetPublisherMuted "dave" false ] ∧
  ∀ subID subTrack,
    <["dave" := stored_track "dave" 31 false]> (∅ : gmap ParticipantID SubscribedTrack)
      !! subID = Some subTrack →
    SubscriberID subTrack = subID.
Proof.
  assert (Hrun :
    @run_methods off_last [do_AddSubscriber dave (inr 31%nat) true; do_SetMuted false]
      (NewMediaTrackSubscriptions video_params) =
    Returned tt
      (set_subscribedTracks (<["dave" := stored_track "dave" 31 false]> ∅)
         (set_maxSubscribedQuality 3 (NewMediaTrackSubscriptions video_params)))
      [ RegisterHooks "dave" 31 9; SetPublisherMuted "dave" true; go_initial_quality "dave";
        Telemetry_TrackSubscribed "dave" "TR_camera"; SetPublisherMuted "dave" false ])
    by (vm_compute; reflexivity).
  split; [exact Hrun|].
  exact (@registry_keys_are_subscriber_ids off_last video_params _ _ _ Hrun).
Defined.

Lemma audio_track_never_aggregates_witness :
  Kind audio_track = TrackType_AUDIO ∧
  @run_methods off_last sample_run audio_track =
    Returned tt audio_track (log_of (@run_methods off_last sample_run audio_track)) ∧
  upcall_maxima (log_of (@run_methods off_last sample_run audio_track)) = [].
Proof.
  assert (Hk : Kind audio_track = TrackType_AUDIO) by reflexivity.
  assert (Hrun : @run_methods off_last sample_run audio_track =
                 Returned tt audio_track (log_of (@run_methods off_last sample_run audio_track)))
    by (vm_compute; reflexivity).
  split; [exact Hk|]. split; [exact Hrun|].
  by destruct (@audio_track_never_aggregates off_last audio_track sample_run _ _ Hk Hrun)
    as (_ & _ & _ & Hlog).
Defined.

Lemma descriptor_enables_a_prefix_witness :
  @is_quality off_last 1 ∧
  Quality <$> @build_subscribedQualities off_last 1 = [0; 1; 2] ∧
  Enabled <$> @build_subscribedQualities off_last 1 =
    [1 <=? @Quality_rank off_last 1; 2 <=? @Quality_rank off_last 1;
     3 <=? @Quality_rank off_last 1] ∧
  enabled_count (@build_subscribedQualities off_last 1) =
    Z.to_nat (@Quality_rank off_last 1).
Proof.
  assert (Hq : @is_quality off_last 1) by (right; right; left; reflexivity).
  split; [exact Hq|].
  exact (@descriptor_enables_a_prefix off_last 1 Hq).
Defined.
